(** * The core worker facade of ray (src/ray/core_worker/core_worker.cc)

    A shallow embedding of the [CoreWorker] facade: the object get/wait/put
    family, actor task submission, the actor handle table and the internal
    heartbeat.  The facade is glue over collaborators that live in other
    translation units (the two object stores, the task manager, the
    submitters, the raylet and GCS clients); these are taken as an
    interface record over an abstract collaborator state, every call to
    them is recorded in a call log, and one executable instance of the
    interface (clocked stores, at the end of the definitions) serves for
    evaluating the facade on concrete inputs. *)

From stdpp Require Import gmap strings list sorting.
From Stdlib Require Import ZArith Lia.

Local Open Scope Z_scope.

(** ** Machine integers *)

(** [static_cast<int>(x)] on the usual 32-bit [int]: wrap-around into
    [-2^31, 2^31). *)
Definition static_cast_int (x : Z) : Z :=
  (x + 2147483648) mod 4294967296 - 2147483648.

Definition int_range (x : Z) : Prop := -2147483648 <= x < 2147483648.

(** ** Identifiers *)

Inductive TaskTransportType := RAYLET | DIRECT.

Inductive JobID := JobID_FromInt (n : N).
Inductive TaskID := TaskID_Nil | TaskID_FromBits (bits : N).
Inductive ActorID := ActorID_Nil | ActorID_FromBits (bits : N).

Definition TaskID_IsNil (t : TaskID) : bool :=
  match t with TaskID_Nil => true | _ => false end.
Definition ActorID_IsNil (a : ActorID) : bool :=
  match a with ActorID_Nil => true | _ => false end.

(** Modelled from the spec: the [ObjectID] class (ray/common/id.h) is not
    part of this translation unit.  An ObjectID carries the TaskID that
    produced it, an index within that task's outputs and the transport
    tag; put objects and task returns are numbered apart. *)
Inductive ObjectKind := PUT_OBJECT | RETURN_OBJECT.

Record ObjectID := mkObjectID {
  ObjectID_TaskId : TaskID;
  ObjectID_kind : ObjectKind;
  ObjectID_index : Z;
  GetTransportType : TaskTransportType
}.

Definition ObjectID_ForPut (task : TaskID) (put_index : Z)
    (transport : TaskTransportType) : ObjectID :=
  mkObjectID task PUT_OBJECT put_index transport.

Definition ObjectID_ForTaskReturn (task : TaskID) (return_index : Z)
    (transport : TaskTransportType) : ObjectID :=
  mkObjectID task RETURN_OBJECT return_index transport.

Definition IsDirectCallType (o : ObjectID) : bool :=
  match GetTransportType o with DIRECT => true | RAYLET => false end.

Global Instance TaskTransportType_eq_dec : EqDecision TaskTransportType.
Proof. solve_decision. Defined.
Global Instance ObjectKind_eq_dec : EqDecision ObjectKind.
Proof. solve_decision. Defined.
Global Instance JobID_eq_dec : EqDecision JobID.
Proof. solve_decision. Defined.
Global Instance TaskID_eq_dec : EqDecision TaskID.
Proof. solve_decision. Defined.
Global Instance ActorID_eq_dec : EqDecision ActorID.
Proof. solve_decision. Defined.
Global Instance ObjectID_eq_dec : EqDecision ObjectID.
Proof. solve_decision. Defined.

Global Instance TaskTransportType_countable : Countable TaskTransportType.
Proof.
  refine (inj_countable' (fun t => match t with RAYLET => false | DIRECT => true end)
            (fun b : bool => if b then DIRECT else RAYLET) _).
  by intros [].
Defined.
Global Instance ObjectKind_countable : Countable ObjectKind.
Proof.
  refine (inj_countable' (fun t => match t with PUT_OBJECT => false | RETURN_OBJECT => true end)
            (fun b : bool => if b then RETURN_OBJECT else PUT_OBJECT) _).
  by intros [].
Defined.
Global Instance JobID_countable : Countable JobID.
Proof.
  refine (inj_countable' (fun '(JobID_FromInt n) => n) JobID_FromInt _).
  by intros [].
Defined.
Global Instance TaskID_countable : Countable TaskID.
Proof.
  refine (inj_countable'
            (fun t => match t with TaskID_Nil => None | TaskID_FromBits b => Some b end)
            (fun o => match o with None => TaskID_Nil | Some b => TaskID_FromBits b end) _).
  by intros [].
Defined.
Global Instance ActorID_countable : Countable ActorID.
Proof.
  refine (inj_countable'
            (fun t => match t with ActorID_Nil => None | ActorID_FromBits b => Some b end)
            (fun o => match o with None => ActorID_Nil | Some b => ActorID_FromBits b end) _).
  by intros [].
Defined.
Global Instance ObjectID_countable : Countable ObjectID.
Proof.
  refine (inj_countable'
            (fun o => (ObjectID_TaskId o, ObjectID_kind o, ObjectID_index o, GetTransportType o))
            (fun '(t, k, i, tr) => mkObjectID t k i tr) _).
  by intros [].
Defined.

(** ** Status *)

Inductive StatusCode :=
  | StatusOK | StatusInvalid | StatusIOError | StatusObjectStoreFailure
  | StatusTimedOut | StatusInterrupted.

Record Status := mkStatus { code : StatusCode; message : string }.

Definition Status_OK : Status := mkStatus StatusOK EmptyString.
Definition Status_Invalid (msg : string) : Status := mkStatus StatusInvalid msg.
Definition Status_IOError (msg : string) : Status := mkStatus StatusIOError msg.

Definition ok (st : Status) : bool :=
  match code st with StatusOK => true | _ => false end.

Global Instance StatusCode_eq_dec : EqDecision StatusCode.
Proof. solve_decision. Defined.
Global Instance Status_eq_dec : EqDecision Status.
Proof. solve_decision. Defined.

(** ** Objects *)

Inductive ErrorType :=
  | OBJECT_IN_PLASMA | TASK_EXECUTION_EXCEPTION | WORKER_DIED | ACTOR_DIED
  | OBJECT_UNRECONSTRUCTABLE.

(** Modelled from the spec: [RayObject] (ray/common/ray_object.h) is not
    part of this translation unit.  A RayObject is an optional data buffer
    and an optional metadata buffer; a metadata buffer is either one of the
    distinguished error-kind markers or user metadata.  OBJECT_IN_PLASMA is
    one of the markers. *)
Inductive Metadata :=
  | ErrorMarker (e : ErrorType)
  | UserMetadata (bytes : list N).

Record RayObject := mkRayObject {
  GetData : option (list N);
  GetMetadata : option Metadata
}.

Definition RayObject_of_error (e : ErrorType) : RayObject :=
  mkRayObject None (Some (ErrorMarker e)).

Definition IsInPlasmaError (o : RayObject) : bool :=
  match GetMetadata o with
  | Some (ErrorMarker OBJECT_IN_PLASMA) => true
  | _ => false
  end.

Definition IsException (o : RayObject) : bool :=
  match GetMetadata o with
  | Some (ErrorMarker _) => true
  | _ => false
  end.

Global Instance ErrorType_eq_dec : EqDecision ErrorType.
Proof. solve_decision. Defined.
Global Instance Metadata_eq_dec : EqDecision Metadata.
Proof. solve_decision. Defined.
Global Instance RayObject_eq_dec : EqDecision RayObject.
Proof. solve_decision. Defined.

(** ** Task specifications and actor handles *)

Inductive Language := PYTHON | JAVA.

Record Address := mkAddress {
  ip_address : string;
  port : Z;
  raylet_id : N;
  worker_id : N
}.

Record RayFunction := mkRayFunction {
  GetLanguage : Language;
  GetFunctionDescriptor : list string
}.

Inductive TaskArg :=
  | PassedByReference (id : ObjectID)
  | PassedByValue (value : RayObject).

(** Resource maps ([unordered_map<string, double>]) are only carried
    around by the facade; the quantities are kept as opaque numbers. *)
Abbreviation ResourceMap := (list (string * Z)).

Record TaskOptions := mkTaskOptions {
  num_returns : nat;
  is_direct_call : bool;
  resources : ResourceMap
}.

Record ActorCreationOptions := mkActorCreationOptions {
  max_reconstructions : Z;
  aco_is_direct_call : bool;
  max_concurrency : Z;
  aco_resources : ResourceMap;
  placement_resources : ResourceMap;
  dynamic_worker_options : list string;
  is_detached : bool;
  is_asyncio : bool
}.

Record ActorCreationTaskSpec := mkActorCreationTaskSpec {
  acts_actor_id : ActorID;
  acts_max_reconstructions : Z;
  acts_dynamic_worker_options : list string;
  acts_is_direct_call : bool;
  acts_max_concurrency : Z;
  acts_is_detached : bool;
  acts_is_asyncio : bool
}.

Record ActorTaskSpec := mkActorTaskSpec {
  ats_actor_id : ActorID;
  ats_previous_cursor : ObjectID;
  ats_actor_counter : Z
}.

(** The message a [TaskSpecBuilder] fills in; [Build] hands it over as
    it stands. *)
Record TaskSpecification := mkTaskSpecification {
  TaskId : TaskID;
  ts_language : Language;
  ts_function_descriptor : list string;
  ts_job_id : JobID;
  ts_parent_task_id : TaskID;
  ts_parent_counter : Z;
  ts_caller_id : TaskID;
  ts_caller_address : Address;
  ts_num_returns : nat;
  ts_is_direct_call : bool;
  ts_required_resources : ResourceMap;
  ts_required_placement_resources : ResourceMap;
  ts_args : list TaskArg;
  ts_actor_creation : option ActorCreationTaskSpec;
  ts_actor_task : option ActorTaskSpec
}.

(** Modelled from the spec: [ActorHandle] (ray/core_worker/actor_handle.h)
    is not part of this translation unit.  A handle carries the actor ID,
    the creation job ID, the language and function descriptor of the
    creator, the current actor cursor, the direct-call flag, the liveness
    state and the next call-sequence number; [SetActorTaskSpec] appends the
    cursor chain and increments the sequence number, [Reset] restarts the
    sequence for the next incarnation of the actor. *)
Inductive ActorState := ALIVE | RECONSTRUCTING | DEAD.

Record ActorHandle := mkActorHandle {
  GetActorID : ActorID;
  CreationJobID : JobID;
  ActorLanguage : Language;
  ActorCreationTaskFunctionDescriptor : list string;
  initial_cursor_ : ObjectID;
  actor_cursor_ : ObjectID;
  IsDirectCallActor : bool;
  state_ : ActorState;
  task_counter_ : Z
}.

Definition ActorHandle_new (actor_id : ActorID) (job_id : JobID)
    (actor_cursor : ObjectID) (language : Language) (is_direct_call : bool)
    (function_descriptor : list string) : ActorHandle :=
  mkActorHandle actor_id job_id language function_descriptor
                actor_cursor actor_cursor is_direct_call ALIVE 0.

Definition IsDead (h : ActorHandle) : bool :=
  match state_ h with DEAD => true | _ => false end.

Definition MarkDead (h : ActorHandle) : ActorHandle :=
  mkActorHandle (GetActorID h) (CreationJobID h) (ActorLanguage h)
                (ActorCreationTaskFunctionDescriptor h) (initial_cursor_ h)
                (actor_cursor_ h) (IsDirectCallActor h) DEAD (task_counter_ h).

Definition Reset (h : ActorHandle) : ActorHandle :=
  mkActorHandle (GetActorID h) (CreationJobID h) (ActorLanguage h)
                (ActorCreationTaskFunctionDescriptor h) (initial_cursor_ h)
                (initial_cursor_ h) (IsDirectCallActor h) (state_ h) 0.

Definition SetActorTaskSpec (h : ActorHandle) (builder : TaskSpecification)
    (new_cursor : ObjectID) : ActorHandle * TaskSpecification :=
  (mkActorHandle (GetActorID h) (CreationJobID h) (ActorLanguage h)
                 (ActorCreationTaskFunctionDescriptor h) (initial_cursor_ h)
                 new_cursor (IsDirectCallActor h) (state_ h) (task_counter_ h + 1),
   mkTaskSpecification (TaskId builder) (ts_language builder)
     (ts_function_descriptor builder) (ts_job_id builder)
     (ts_parent_task_id builder) (ts_parent_counter builder)
     (ts_caller_id builder) (ts_caller_address builder)
     (ts_num_returns builder) (ts_is_direct_call builder)
     (ts_required_resources builder) (ts_required_placement_resources builder)
     (ts_args builder) (ts_actor_creation builder)
     (Some (mkActorTaskSpec (GetActorID h) (actor_cursor_ h) (task_counter_ h)))).

(** Modelled from the spec: [WorkerContext] (ray/core_worker/context.h) is
    not part of this translation unit; it holds the current job and task
    IDs and hands out the next task index and the next put index. *)
Record WorkerContext := mkWorkerContext {
  GetCurrentJobID : JobID;
  GetCurrentTaskID : TaskID;
  task_index_ : Z;
  put_index_ : Z
}.

(** ** Calls to collaborators *)

Abbreviation ObjectSet := (gset ObjectID).
Abbreviation ResultMap := (gmap ObjectID RayObject).

(** One entry of the call log per call the facade makes on a
    collaborator, with the arguments it passes; the one-object lookup is
    logged with what it found. *)
Inductive Event :=
  | EvMemoryGet (ids : ObjectSet) (timeout_ms : Z)
  | EvMemoryGetOne (id : ObjectID) (found : list (option RayObject))
  | EvMemoryWait (ids : ObjectSet) (num_objects : Z) (timeout_ms : Z)
  | EvPlasmaGet (ids : ObjectSet) (timeout_ms : Z)
  | EvPlasmaWait (ids : ObjectSet) (num_objects : Z) (timeout_ms : Z)
  | EvPlasmaPut (object : RayObject) (id : ObjectID)
  | EvPinObjectIDs (owner : Address) (ids : list ObjectID)
  | EvAddOwnedObject (id : ObjectID) (owner : TaskID) (owner_address : Address)
  | EvAddPendingTask (caller : TaskID) (caller_address : Address)
                     (spec : TaskSpecification) (max_retries : Z)
  | EvPendingTaskFailed (task : TaskID) (error : ErrorType) (status : option Status)
  | EvDirectTaskSubmit (spec : TaskSpecification)
  | EvDirectActorSubmit (spec : TaskSpecification)
  | EvRayletSubmit (spec : TaskSpecification)
  | EvConnectActor (actor : ActorID) (address : Address)
  | EvDisconnectActor (actor : ActorID) (dead : bool)
  | EvAsyncSubscribe (actor : ActorID)
  | EvAsyncUnsubscribe (actor : ActorID).

(** The collaborators behind the facade's pointers, over a state [W] of
    their own.  Out-parameters are passed in and handed back.  The four
    blocking store calls answer [None] when they never come back. *)
Record Collaborators (W : Type) := mkCollaborators {
  current_time_ms : W -> Z;
  memory_store_Get :
    ObjectSet -> Z -> ResultMap -> bool -> W -> option (Status * ResultMap * bool * W);
  memory_store_GetOne : ObjectID -> W -> Status * list (option RayObject) * W;
  memory_store_Wait :
    ObjectSet -> Z -> Z -> ObjectSet -> W -> option (Status * ObjectSet * W);
  plasma_store_provider_Get :
    ObjectSet -> Z -> ResultMap -> bool -> W -> option (Status * ResultMap * bool * W);
  plasma_store_provider_Wait :
    ObjectSet -> Z -> Z -> ObjectSet -> W -> option (Status * ObjectSet * W);
  plasma_store_provider_Put : RayObject -> ObjectID -> W -> Status * W;
  local_raylet_client_PinObjectIDs : Address -> list ObjectID -> W -> Status * W;
  local_raylet_client_SubmitTask : TaskSpecification -> W -> Status * W;
  direct_task_submitter_SubmitTask : TaskSpecification -> W -> Status * W;
  direct_actor_submitter_SubmitTask : TaskSpecification -> W -> Status * W;
  direct_actor_submitter_ConnectActor : ActorID -> Address -> W -> W;
  direct_actor_submitter_DisconnectActor : ActorID -> bool -> W -> W;
  task_manager_AddPendingTask : TaskID -> Address -> TaskSpecification -> Z -> W -> W;
  task_manager_PendingTaskFailed : TaskID -> ErrorType -> option Status -> W -> W;
  reference_counter_AddOwnedObject : ObjectID -> TaskID -> Address -> W -> W;
  gcs_client_Actors_AsyncSubscribe : ActorID -> W -> Status * W;
  gcs_client_Actors_AsyncUnsubscribe : ActorID -> W -> Status * W;
  TaskID_ForNormalTask : JobID -> TaskID -> Z -> TaskID;
  TaskID_ForActorCreationTask : ActorID -> TaskID;
  TaskID_ForActorTask : JobID -> TaskID -> Z -> ActorID -> TaskID;
  ActorID_Of : JobID -> TaskID -> Z -> ActorID;
  ActorHandle_Deserialize : string -> ActorHandle;
  actor_creation_min_retries : Z
}.

Arguments current_time_ms {W}.
Arguments memory_store_Get {W}.
Arguments memory_store_GetOne {W}.
Arguments memory_store_Wait {W}.
Arguments plasma_store_provider_Get {W}.
Arguments plasma_store_provider_Wait {W}.
Arguments plasma_store_provider_Put {W}.
Arguments local_raylet_client_PinObjectIDs {W}.
Arguments local_raylet_client_SubmitTask {W}.
Arguments direct_task_submitter_SubmitTask {W}.
Arguments direct_actor_submitter_SubmitTask {W}.
Arguments direct_actor_submitter_ConnectActor {W}.
Arguments direct_actor_submitter_DisconnectActor {W}.
Arguments task_manager_AddPendingTask {W}.
Arguments task_manager_PendingTaskFailed {W}.
Arguments reference_counter_AddOwnedObject {W}.
Arguments gcs_client_Actors_AsyncSubscribe {W}.
Arguments gcs_client_Actors_AsyncUnsubscribe {W}.
Arguments TaskID_ForNormalTask {W}.
Arguments TaskID_ForActorCreationTask {W}.
Arguments TaskID_ForActorTask {W}.
Arguments ActorID_Of {W}.
Arguments ActorHandle_Deserialize {W}.
Arguments actor_creation_min_retries {W}.

(** ** The facade's own state *)

Record CoreWorker (W : Type) := mkCoreWorker {
  worker_context_ : WorkerContext;
  main_thread_task_id_ : TaskID;
  actor_id_ : ActorID;
  rpc_address_ : Address;
  actor_handles_ : gmap ActorID ActorHandle;
  to_resubmit_ : list (Z * TaskSpecification);
  internal_timer_expiry : Z;
  world : W;
  calls : list Event
}.

Arguments mkCoreWorker {W}.
Arguments worker_context_ {W}.
Arguments main_thread_task_id_ {W}.
Arguments actor_id_ {W}.
Arguments rpc_address_ {W}.
Arguments actor_handles_ {W}.
Arguments to_resubmit_ {W}.
Arguments internal_timer_expiry {W}.
Arguments world {W}.
Arguments calls {W}.

(** What a facade call comes to: it returns, it dies on a failed
    [RAY_CHECK], or it never comes back from a store; each with the state
    reached by then. *)
Inductive Outcome (S A : Type) :=
  | Returned (a : A) (s : S)
  | Aborted (check : string) (s : S)
  | Blocked (s : S).

Arguments Returned {S A}.
Arguments Aborted {S A}.
Arguments Blocked {S A}.

(** ** The facade *)

Module Facade.
Section Facade.

Context {W : Type}.
Variable env : Collaborators W.

(** State passing with the two ways of not returning. *)
Definition M (A : Type) : Type := CoreWorker W -> Outcome (CoreWorker W) A.

Definition ret {A} (a : A) : M A := fun s => Returned a s.

Definition bind {A B} (m : M A) (k : A -> M B) : M B :=
  fun s =>
    match m s with
    | Returned a s' => k a s'
    | Aborted check s' => Aborted check s'
    | Blocked s' => Blocked s'
    end.

Notation "'let*' p ':=' m 'in' k" := (bind m (fun x => let 'p := x in k))
  (at level 10, p pattern, m at level 100, k at level 200).
Notation "m ;;; k" := (bind m (fun _ => k))
  (at level 100, right associativity).

Definition get {A} (f : CoreWorker W -> A) : M A := fun s => Returned (f s) s.

Definition modify (f : CoreWorker W -> CoreWorker W) : M unit :=
  fun s => Returned tt (f s).

Definition RAY_CHECK (cond : bool) (check : string) : M unit :=
  fun s => if cond then Returned tt s else Aborted check s.

Definition RAY_CHECK_OK (st : Status) (check : string) : M unit :=
  RAY_CHECK (ok st) check.

(** *** Field updates *)

Definition set_world (w : W) (s : CoreWorker W) : CoreWorker W :=
  mkCoreWorker (worker_context_ s) (main_thread_task_id_ s) (actor_id_ s)
    (rpc_address_ s) (actor_handles_ s) (to_resubmit_ s)
    (internal_timer_expiry s) w (calls s).

Definition log (e : Event) (s : CoreWorker W) : CoreWorker W :=
  mkCoreWorker (worker_context_ s) (main_thread_task_id_ s) (actor_id_ s)
    (rpc_address_ s) (actor_handles_ s) (to_resubmit_ s)
    (internal_timer_expiry s) (world s) (calls s ++ [e]).

Definition set_worker_context (c : WorkerContext) (s : CoreWorker W) : CoreWorker W :=
  mkCoreWorker c (main_thread_task_id_ s) (actor_id_ s)
    (rpc_address_ s) (actor_handles_ s) (to_resubmit_ s)
    (internal_timer_expiry s) (world s) (calls s).

Definition set_main_thread_task_id (t : TaskID) (s : CoreWorker W) : CoreWorker W :=
  mkCoreWorker (worker_context_ s) t (actor_id_ s)
    (rpc_address_ s) (actor_handles_ s) (to_resubmit_ s)
    (internal_timer_expiry s) (world s) (calls s).

Definition set_actor_id (a : ActorID) (s : CoreWorker W) : CoreWorker W :=
  mkCoreWorker (worker_context_ s) (main_thread_task_id_ s) a
    (rpc_address_ s) (actor_handles_ s) (to_resubmit_ s)
    (internal_timer_expiry s) (world s) (calls s).

Definition set_actor_handles (h : gmap ActorID ActorHandle) (s : CoreWorker W)
    : CoreWorker W :=
  mkCoreWorker (worker_context_ s) (main_thread_task_id_ s) (actor_id_ s)
    (rpc_address_ s) h (to_resubmit_ s)
    (internal_timer_expiry s) (world s) (calls s).

Definition set_to_resubmit (q : list (Z * TaskSpecification)) (s : CoreWorker W)
    : CoreWorker W :=
  mkCoreWorker (worker_context_ s) (main_thread_task_id_ s) (actor_id_ s)
    (rpc_address_ s) (actor_handles_ s) q
    (internal_timer_expiry s) (world s) (calls s).

Definition set_internal_timer_expiry (t : Z) (s : CoreWorker W) : CoreWorker W :=
  mkCoreWorker (worker_context_ s) (main_thread_task_id_ s) (actor_id_ s)
    (rpc_address_ s) (actor_handles_ s) (to_resubmit_ s)
    t (world s) (calls s).

(** *** Calling out

    Every call is logged with its arguments before the collaborator
    runs. *)

Definition call {A} (e : Event) (f : W -> A * W) : M A :=
  fun s =>
    let '(a, w) := f (world s) in
    Returned a (set_world w (log e s)).

Definition call_void (e : Event) (f : W -> W) : M unit :=
  fun s => Returned tt (set_world (f (world s)) (log e s)).

Definition call_blocking {A} (e : Event) (f : W -> option (A * W)) : M A :=
  fun s =>
    match f (world s) with
    | Some (a, w) => Returned a (set_world w (log e s))
    | None => Blocked (log e s)
    end.

Definition now : M Z := get (fun s => current_time_ms env (world s)).

(** *** WorkerContext accessors *)

Definition GetNextTaskIndex : M Z :=
  let* c := get worker_context_ in
  let i := task_index_ c + 1 in
  modify (set_worker_context
            (mkWorkerContext (GetCurrentJobID c) (GetCurrentTaskID c) i (put_index_ c))) ;;;
  ret i.

Definition GetNextPutIndex : M Z :=
  let* c := get worker_context_ in
  let i := put_index_ c + 1 in
  modify (set_worker_context
            (mkWorkerContext (GetCurrentJobID c) (GetCurrentTaskID c) (task_index_ c) i)) ;;;
  ret i.

Definition WorkerContext_SetCurrentTaskId (task_id : TaskID) : M unit :=
  let* c := get worker_context_ in
  modify (set_worker_context
            (mkWorkerContext (GetCurrentJobID c) task_id (task_index_ c) (put_index_ c))).

(** *** Anonymous namespace *)

Definition kInternalHeartbeatMillis : Z := 1000.

Definition BuildCommonTaskSpec (job_id : JobID) (task_id current_task_id : TaskID)
    (task_index : Z) (caller_id : TaskID) (address : Address)
    (function : RayFunction) (args : list TaskArg) (num_returns : nat)
    (required_resources required_placement_resources : ResourceMap)
    (transport_type : TaskTransportType)
    : TaskSpecification * list ObjectID :=
  (mkTaskSpecification task_id (GetLanguage function)
     (GetFunctionDescriptor function) job_id current_task_id task_index
     caller_id address num_returns
     (bool_decide (transport_type = DIRECT))
     required_resources required_placement_resources
     args None None,
   (fun i : nat => ObjectID_ForTaskReturn task_id (Z.of_nat i + 1) transport_type)
     <$> seq 0 num_returns).

Definition GroupObjectIdsByStoreProvider (object_ids : list ObjectID)
    (plasma_object_ids memory_object_ids : ObjectSet) : ObjectSet * ObjectSet :=
  foldl (fun '(plasma_object_ids, memory_object_ids) object_id =>
           if IsDirectCallType object_id
           then (plasma_object_ids, {[object_id]} ∪ memory_object_ids)
           else ({[object_id]} ∪ plasma_object_ids, memory_object_ids))
        (plasma_object_ids, memory_object_ids) object_ids.

(** [v->resize(n, x)]: keep the first [n] elements, pad with [x]. *)
Definition resize {A} (n : nat) (x : A) (v : list A) : list A :=
  take n v ++ replicate (n - length v) x.

(** *** Small accessors *)

Definition GetCallerId : M TaskID :=
  let* actor_id := get actor_id_ in
  if negb (ActorID_IsNil actor_id)
  then ret (TaskID_ForActorCreationTask env actor_id)
  else get main_thread_task_id_.

(** [SetCurrentTaskId]: the handles are unsubscribed one by one and the
    table is cleared at the end of each non-actor task. *)
Fixpoint unsubscribe_all (handles : list (ActorID * ActorHandle)) : M unit :=
  match handles with
  | [] => ret tt
  | handle :: rest =>
      let* st := call (EvAsyncUnsubscribe handle.1)
                      (gcs_client_Actors_AsyncUnsubscribe env handle.1) in
      RAY_CHECK_OK st "AsyncUnsubscribe" ;;;
      unsubscribe_all rest
  end.

Definition SetCurrentTaskId (task_id : TaskID) : M unit :=
  WorkerContext_SetCurrentTaskId task_id ;;;
  modify (set_main_thread_task_id task_id) ;;;
  let* actor_id := get actor_id_ in
  let not_actor_task := ActorID_IsNil actor_id in
  if not_actor_task && TaskID_IsNil task_id then
    let* handles := get actor_handles_ in
    unsubscribe_all (map_to_list handles) ;;;
    modify (set_actor_handles ∅)
  else ret tt.

Definition SetActorId (actor_id : ActorID) : M unit :=
  let* current := get actor_id_ in
  RAY_CHECK (ActorID_IsNil current) "actor_id_.IsNil()" ;;;
  modify (set_actor_id actor_id).

(** *** Put *)

Definition Put (object : RayObject) (contained_object_ids : list ObjectID)
    (object_id : ObjectID) : M Status :=
  RAY_CHECK (bool_decide (GetTransportType object_id = RAYLET))
            "Invalid transport type flag in object ID" ;;;
  call (EvPlasmaPut object object_id) (plasma_store_provider_Put env object object_id).

(** The overload that allocates the ID; it hands the ID back with the
    status. *)
Definition Put_new (object : RayObject) (contained_object_ids : list ObjectID)
    : M (Status * ObjectID) :=
  let* c := get worker_context_ in
  let* put_index := GetNextPutIndex in
  let object_id := ObjectID_ForPut (GetCurrentTaskID c) put_index RAYLET in
  let* caller_id := GetCallerId in
  let* address := get rpc_address_ in
  call_void (EvAddOwnedObject object_id caller_id address)
            (reference_counter_AddOwnedObject env object_id caller_id address) ;;;
  let* st := Put object contained_object_ids object_id in
  if negb (ok st) then ret (st, object_id) else
  (* Tell the raylet to pin the object **after** it is created. *)
  let* pinned := call (EvPinObjectIDs address [object_id])
                      (local_raylet_client_PinObjectIDs env address [object_id]) in
  RAY_CHECK_OK pinned "PinObjectIDs" ;;;
  ret (Status_OK, object_id).

(** *** Get *)

(** The loop over [result_map] that adds the promoted ids to the plasma
    set. *)
Definition insert_in_plasma_ids (result_map : ResultMap)
    (plasma_object_ids : ObjectSet) : ObjectSet :=
  foldr (fun (pair : ObjectID * RayObject) acc =>
           if IsInPlasmaError pair.2 then {[pair.1]} ∪ acc else acc)
        plasma_object_ids (map_to_list result_map).

(** The loop over [ids] that fills [results]; the accumulator is
    [(results, missing_result, will_throw_exception)]. *)
Fixpoint Get_fill (result_map : ResultMap) (ids : list ObjectID) (i : nat)
    (acc : list (option RayObject) * bool * bool)
    : M (list (option RayObject) * bool * bool) :=
  match ids with
  | [] => ret acc
  | id :: rest =>
      let '(results, missing_result, will_throw_exception) := acc in
      match result_map !! id with
      | Some object =>
          RAY_CHECK (negb (IsInPlasmaError object)) "!pair->second->IsInPlasmaError()" ;;;
          Get_fill result_map rest (S i)
                   (<[i := Some object]> results, missing_result,
                    will_throw_exception || IsException object)
      | None =>
          Get_fill result_map rest (S i) (results, true, will_throw_exception)
      end
  end.

Definition Get (ids : list ObjectID) (timeout_ms : Z)
    (results : list (option RayObject)) : M (Status * list (option RayObject)) :=
  let results := resize (length ids) None results in
  let '(plasma_object_ids, memory_object_ids) :=
    GroupObjectIdsByStoreProvider ids ∅ ∅ in
  let* start_time := now in
  let* (st, result_map, got_exception) :=
    (if bool_decide (memory_object_ids ≠ ∅)
     then call_blocking (EvMemoryGet memory_object_ids timeout_ms)
            (memory_store_Get env memory_object_ids timeout_ms ∅ false)
     else ret (Status_OK, ∅, false)) in
  if negb (ok st) then ret (st, results) else
  let* (st, result_map, got_exception) :=
    (if negb got_exception then
       let plasma_object_ids := insert_in_plasma_ids result_map plasma_object_ids in
       let* t := now in
       let local_timeout_ms :=
         if 0 <=? timeout_ms then Z.max 0 (timeout_ms - (t - start_time))
         else timeout_ms in
       call_blocking (EvPlasmaGet plasma_object_ids local_timeout_ms)
         (plasma_store_provider_Get env plasma_object_ids local_timeout_ms
            result_map got_exception)
     else ret (Status_OK, result_map, got_exception)) in
  if negb (ok st) then ret (st, results) else
  let* (results, missing_result, will_throw_exception) :=
    Get_fill result_map ids 0 (results, false, false) in
  (if (timeout_ms <? 0) && negb will_throw_exception
   then RAY_CHECK (negb missing_result) "!missing_result"
   else ret tt) ;;;
  ret (Status_OK, results).

(** *** Wait *)

(** [memory_store->Get({mem_id}, 1, 0, ctx, false, &found)]. *)
Definition lookup_one (mem_id : ObjectID) : M (Status * list (option RayObject)) :=
  fun s =>
    let '(st, found, w) := memory_store_GetOne env mem_id (world s) in
    Returned (st, found) (set_world w (log (EvMemoryGetOne mem_id found) s)).

(** [RetryObjectInPlasmaErrors]: the loop visits every element the memory
    set has on entry. *)
Fixpoint RetryObjectInPlasmaErrors_loop (todo : list ObjectID)
    (memory_object_ids plasma_object_ids ready : ObjectSet)
    : M (ObjectSet * ObjectSet * ObjectSet) :=
  match todo with
  | [] => ret (memory_object_ids, plasma_object_ids, ready)
  | mem_id :: rest =>
      if bool_decide (mem_id ∈ ready) then
        let* (st, found) := lookup_one mem_id in
        RAY_CHECK_OK st "memory_store->Get" ;;;
        match found with
        | [Some object] =>
            if IsInPlasmaError object
            then RetryObjectInPlasmaErrors_loop rest
                   (memory_object_ids ∖ {[mem_id]})
                   ({[mem_id]} ∪ plasma_object_ids)
                   (ready ∖ {[mem_id]})
            else RetryObjectInPlasmaErrors_loop rest
                   memory_object_ids plasma_object_ids ready
        | [None] => Aborted "found[0]->IsInPlasmaError()"
        | _ => RetryObjectInPlasmaErrors_loop rest
                 memory_object_ids plasma_object_ids ready
        end
      else RetryObjectInPlasmaErrors_loop rest
             memory_object_ids plasma_object_ids ready
  end.

Definition RetryObjectInPlasmaErrors
    (memory_object_ids plasma_object_ids ready : ObjectSet)
    : M (ObjectSet * ObjectSet * ObjectSet) :=
  RetryObjectInPlasmaErrors_loop (elements memory_object_ids)
    memory_object_ids plasma_object_ids ready.

Definition size_int (s : ObjectSet) : Z := static_cast_int (Z.of_nat (size s)).

(** The memory-store step of a pass: the wait, then the reclassification
    of ids promoted to plasma. *)
Definition Wait_memory_step (memory_object_ids plasma_object_ids ready : ObjectSet)
    (num_objects timeout_ms : Z)
    : M (Status * (ObjectSet * ObjectSet * ObjectSet)) :=
  if bool_decide (0 < size memory_object_ids)%nat then
    let num := Z.min (size_int memory_object_ids) num_objects in
    let* (st, ready) :=
      call_blocking (EvMemoryWait memory_object_ids num timeout_ms)
        (memory_store_Wait env memory_object_ids num timeout_ms ready) in
    if negb (ok st) then ret (st, (memory_object_ids, plasma_object_ids, ready)) else
    let* sets := RetryObjectInPlasmaErrors memory_object_ids plasma_object_ids ready in
    ret (Status_OK, sets)
  else ret (Status_OK, (memory_object_ids, plasma_object_ids, ready)).

(** The plasma step of a pass. *)
Definition Wait_plasma_step (plasma_object_ids ready : ObjectSet)
    (num_objects timeout_ms : Z) : M (Status * ObjectSet) :=
  if (size_int ready <? num_objects) && bool_decide (0 < size plasma_object_ids)%nat then
    let num := Z.min (size_int plasma_object_ids) (num_objects - size_int ready) in
    call_blocking (EvPlasmaWait plasma_object_ids num timeout_ms)
      (plasma_store_provider_Wait env plasma_object_ids num timeout_ms ready)
  else ret (Status_OK, ready).

Definition RAY_CHECK_ready (ready : ObjectSet) (num_objects : Z) : M unit :=
  RAY_CHECK (size_int ready <=? num_objects)
            "static_cast<int>(ready.size()) <= num_objects".

(** The second pass (lines 580-607), with the caller's timeout. *)
Definition Wait_retry (memory_object_ids plasma_object_ids : ObjectSet)
    (num_objects timeout_ms : Z) : M (Status * ObjectSet) :=
  let ready : ObjectSet := ∅ in
  let* start_time := now in
  let* (st, sets) :=
    Wait_memory_step memory_object_ids plasma_object_ids ready
                     num_objects timeout_ms in
  let '(memory_object_ids, plasma_object_ids, ready) := sets in
  if negb (ok st) then ret (st, ready) else
  RAY_CHECK_ready ready num_objects ;;;
  let* t := now in
  let timeout_ms :=
    if 0 <? timeout_ms
    then Z.max 0 (static_cast_int (timeout_ms - (t - start_time)))
    else timeout_ms in
  let* (st, ready) :=
    Wait_plasma_step plasma_object_ids ready num_objects timeout_ms in
  if negb (ok st) then ret (st, ready) else
  RAY_CHECK_ready ready num_objects ;;;
  ret (Status_OK, ready).

Fixpoint Wait_fill (ready : ObjectSet) (ids : list ObjectID) (i : nat)
    (results : list bool) : list bool :=
  match ids with
  | [] => results
  | id :: rest =>
      Wait_fill ready rest (S i)
        (if bool_decide (id ∈ ready) then <[i := true]> results else results)
  end.

Definition Wait (ids : list ObjectID) (num_objects timeout_ms : Z)
    (results : list bool) : M (Status * list bool) :=
  let results := resize (length ids) false results in
  if (num_objects <=? 0)
     || (static_cast_int (Z.of_nat (length ids)) <? num_objects)
  then ret (Status_Invalid
              "Number of objects to wait for must be between 1 and the number of ids.",
            results)
  else
  let '(plasma_object_ids, memory_object_ids) :=
    GroupObjectIdsByStoreProvider ids ∅ ∅ in
  if negb (bool_decide (size plasma_object_ids + size memory_object_ids
                        = length ids)%nat)
  then ret (Status_Invalid "Duplicate object IDs not supported in wait.", results)
  else
  let ready : ObjectSet := ∅ in
  (* first pass, both stores with timeout 0 *)
  let* (st, sets) :=
    Wait_memory_step memory_object_ids plasma_object_ids ready num_objects 0 in
  let '(memory_object_ids, plasma_object_ids, ready) := sets in
  if negb (ok st) then ret (st, results) else
  RAY_CHECK_ready ready num_objects ;;;
  let* (st, ready) := Wait_plasma_step plasma_object_ids ready num_objects 0 in
  if negb (ok st) then ret (st, results) else
  RAY_CHECK_ready ready num_objects ;;;
  let* (st, ready) :=
    (if negb (timeout_ms =? 0) && (size_int ready <? num_objects)
     then Wait_retry memory_object_ids plasma_object_ids num_objects timeout_ms
     else ret (Status_OK, ready)) in
  if negb (ok st) then ret (st, results) else
  ret (Status_OK, Wait_fill ready ids 0 results).

(** *** Internal heartbeat and the retry callback *)

(** The callback handed to the TaskManager in the constructor: retry
    after a delay. *)
Definition retry_callback (spec : TaskSpecification) : M unit :=
  let* t := now in
  let* q := get to_resubmit_ in
  modify (set_to_resubmit (q ++ [(t + 5000, spec)])).

(** The [while] loop of [InternalHeartbeat], by recursion on the queue it
    pops from. *)
Fixpoint InternalHeartbeat_loop (q : list (Z * TaskSpecification)) : M unit :=
  match q with
  | [] => ret tt
  | front :: rest =>
      let* t := now in
      if front.1 <? t then
        let* st := call (EvDirectTaskSubmit front.2)
                        (direct_task_submitter_SubmitTask env front.2) in
        RAY_CHECK_OK st "direct_task_submitter_->SubmitTask" ;;;
        modify (set_to_resubmit rest) ;;;
        InternalHeartbeat_loop rest
      else ret tt
  end.

(** [async_wait] re-arms the timer; the event loop that fires it is not
    part of the model. *)
Definition InternalHeartbeat : M unit :=
  let* q := get to_resubmit_ in
  InternalHeartbeat_loop q ;;;
  let* expiry := get internal_timer_expiry in
  modify (set_internal_timer_expiry (expiry + kInternalHeartbeatMillis)).

(** *** Actor handles *)

Definition GetActorHandle (actor_id : ActorID) : M (ActorHandle + Status) :=
  let* handles := get actor_handles_ in
  match handles !! actor_id with
  | None => ret (inr (Status_Invalid "Handle for actor does not exist"))
  | Some actor_handle => ret (inl actor_handle)
  end.

(** A write through the pointer [GetActorHandle] hands out. *)
Definition store_handle (actor_id : ActorID) (actor_handle : ActorHandle) : M unit :=
  let* handles := get actor_handles_ in
  modify (set_actor_handles (<[actor_id := actor_handle]> handles)).

Definition AddActorHandle (actor_handle : ActorHandle) : M bool :=
  let actor_id := GetActorID actor_handle in
  let* handles := get actor_handles_ in
  let inserted := bool_decide (handles !! actor_id = None) in
  (if inserted then
     modify (set_actor_handles (<[actor_id := actor_handle]> handles)) ;;;
     let* st := call (EvAsyncSubscribe actor_id)
                     (gcs_client_Actors_AsyncSubscribe env actor_id) in
     RAY_CHECK_OK st "AsyncSubscribe"
   else ret tt) ;;;
  ret inserted.

(** The callback [AddActorHandle] registers with the GCS for the actor's
    notifications. *)
Definition actor_notification_callback (actor_id : ActorID) (state : ActorState)
    (address : Address) : M unit :=
  match state with
  | RECONSTRUCTING =>
      let* handles := get actor_handles_ in
      match handles !! actor_id with
      | None => Aborted "it != actor_handles_.end()"
      | Some actor_handle =>
          (if IsDirectCallActor actor_handle
           then store_handle actor_id (Reset actor_handle)
           else ret tt) ;;;
          call_void (EvDisconnectActor actor_id false)
                    (direct_actor_submitter_DisconnectActor env actor_id false)
      end
  | DEAD =>
      call_void (EvDisconnectActor actor_id true)
                (direct_actor_submitter_DisconnectActor env actor_id true) ;;;
      let* found := GetActorHandle actor_id in
      match found with
      | inr _ => Aborted "GetActorHandle"
      | inl actor_handle =>
          (* The handle is not erased: clients can still submit tasks to
             dead actors. *)
          store_handle actor_id (MarkDead actor_handle)
      end
  | ALIVE =>
      call_void (EvConnectActor actor_id address)
                (direct_actor_submitter_ConnectActor env actor_id address)
  end.

Definition DeserializeAndRegisterActorHandle (serialized : string) : M ActorID :=
  let actor_handle := ActorHandle_Deserialize env serialized in
  let actor_id := GetActorID actor_handle in
  AddActorHandle actor_handle ;;;
  ret actor_id.

(** *** Task submission *)

Definition SubmitTask (function : RayFunction) (args : list TaskArg)
    (task_options : TaskOptions) (max_retries : Z) : M (Status * list ObjectID) :=
  let* next_task_index := GetNextTaskIndex in
  let* c := get worker_context_ in
  let task_id := TaskID_ForNormalTask env (GetCurrentJobID c) (GetCurrentTaskID c)
                                      next_task_index in
  let* caller_id := GetCallerId in
  let* address := get rpc_address_ in
  let '(task_spec, return_ids) :=
    BuildCommonTaskSpec (GetCurrentJobID c) task_id (GetCurrentTaskID c)
      next_task_index caller_id address function args
      (num_returns task_options) (resources task_options) []
      (if is_direct_call task_options then DIRECT else RAYLET) in
  if is_direct_call task_options then
    let* caller_id := GetCallerId in
    call_void (EvAddPendingTask caller_id address task_spec max_retries)
      (task_manager_AddPendingTask env caller_id address task_spec max_retries) ;;;
    let* st := call (EvDirectTaskSubmit task_spec)
                    (direct_task_submitter_SubmitTask env task_spec) in
    ret (st, return_ids)
  else
    let* st := call (EvRayletSubmit task_spec)
                    (local_raylet_client_SubmitTask env task_spec) in
    ret (st, return_ids).

Definition SetActorCreationTaskSpec (builder : TaskSpecification)
    (creation : ActorCreationTaskSpec) : TaskSpecification :=
  mkTaskSpecification (TaskId builder) (ts_language builder)
    (ts_function_descriptor builder) (ts_job_id builder)
    (ts_parent_task_id builder) (ts_parent_counter builder)
    (ts_caller_id builder) (ts_caller_address builder)
    (ts_num_returns builder) (ts_is_direct_call builder)
    (ts_required_resources builder) (ts_required_placement_resources builder)
    (ts_args builder) (Some creation) (ts_actor_task builder).

Definition CreateActor (function : RayFunction) (args : list TaskArg)
    (actor_creation_options : ActorCreationOptions) : M (Status * ActorID) :=
  let* next_task_index := GetNextTaskIndex in
  let* c := get worker_context_ in
  let actor_id := ActorID_Of env (GetCurrentJobID c) (GetCurrentTaskID c)
                             next_task_index in
  let actor_creation_task_id := TaskID_ForActorCreationTask env actor_id in
  let job_id := GetCurrentJobID c in
  let* caller_id := GetCallerId in
  let* address := get rpc_address_ in
  let '(builder, return_ids) :=
    BuildCommonTaskSpec job_id actor_creation_task_id (GetCurrentTaskID c)
      next_task_index caller_id address function args 1
      (aco_resources actor_creation_options)
      (placement_resources actor_creation_options)
      (if aco_is_direct_call actor_creation_options then DIRECT else RAYLET) in
  let builder :=
    SetActorCreationTaskSpec builder
      (mkActorCreationTaskSpec actor_id
         (max_reconstructions actor_creation_options)
         (dynamic_worker_options actor_creation_options)
         (aco_is_direct_call actor_creation_options)
         (max_concurrency actor_creation_options)
         (is_detached actor_creation_options)
         (is_asyncio actor_creation_options)) in
  match return_ids with
  | [] => Aborted "return_ids[0]"
  | actor_cursor :: _ =>
      let actor_handle :=
        ActorHandle_new actor_id job_id actor_cursor (GetLanguage function)
          (aco_is_direct_call actor_creation_options)
          (GetFunctionDescriptor function) in
      let* inserted := AddActorHandle actor_handle in
      RAY_CHECK inserted "Actor already exists" ;;;
      let task_spec := builder in
      if aco_is_direct_call actor_creation_options then
        let* caller_id := GetCallerId in
        let max_retries := Z.max (actor_creation_min_retries env)
                                 (max_reconstructions actor_creation_options) in
        call_void (EvAddPendingTask caller_id address task_spec max_retries)
          (task_manager_AddPendingTask env caller_id address task_spec max_retries) ;;;
        let* st := call (EvDirectTaskSubmit task_spec)
                        (direct_task_submitter_SubmitTask env task_spec) in
        ret (st, actor_id)
      else
        let* st := call (EvRayletSubmit task_spec)
                        (local_raylet_client_SubmitTask env task_spec) in
        ret (st, actor_id)
  end.

(** [return_ids] is the caller's vector: untouched when the handle is
    unknown, otherwise resized and overwritten by [BuildCommonTaskSpec]
    and stripped of the cursor. *)
Definition SubmitActorTask (actor_id : ActorID) (function : RayFunction)
    (args : list TaskArg) (task_options : TaskOptions)
    (return_ids : list ObjectID) : M (Status * list ObjectID) :=
  let* found := GetActorHandle actor_id in
  match found with
  | inr st => ret (st, return_ids)
  | inl actor_handle =>
      (* Add one for actor cursor object id for tasks. *)
      let num_returns := (num_returns task_options + 1)%nat in
      let is_direct_call := IsDirectCallActor actor_handle in
      let transport_type := if is_direct_call then DIRECT else RAYLET in
      let* next_task_index := GetNextTaskIndex in
      let* c := get worker_context_ in
      let actor_task_id :=
        TaskID_ForActorTask env (GetCurrentJobID c) (GetCurrentTaskID c)
                            next_task_index (GetActorID actor_handle) in
      let* caller_id := GetCallerId in
      let* address := get rpc_address_ in
      let '(builder, return_ids) :=
        BuildCommonTaskSpec (CreationJobID actor_handle) actor_task_id
          (GetCurrentTaskID c) next_task_index caller_id address function args
          num_returns (resources task_options) [] transport_type in
      match last return_ids with
      | None => Aborted "return_ids->back()"
      | Some new_cursor =>
          let '(actor_handle, builder) :=
            SetActorTaskSpec actor_handle builder new_cursor in
          store_handle actor_id actor_handle ;;;
          (* Remove cursor from return ids. *)
          let return_ids := removelast return_ids in
          let status := Status_OK in
          let task_spec := builder in
          if is_direct_call then
            let* caller_id := GetCallerId in
            call_void (EvAddPendingTask caller_id address task_spec 0)
              (task_manager_AddPendingTask env caller_id address task_spec 0) ;;;
            if IsDead actor_handle then
              (* a second, inner [status]; the outer one is returned *)
              let inner_status := Status_IOError "sent task to dead actor" in
              call_void (EvPendingTaskFailed (TaskId task_spec) ACTOR_DIED
                                             (Some inner_status))
                (task_manager_PendingTaskFailed env (TaskId task_spec) ACTOR_DIED
                                                (Some inner_status)) ;;;
              ret (status, return_ids)
            else
              let* status := call (EvDirectActorSubmit task_spec)
                                  (direct_actor_submitter_SubmitTask env task_spec) in
              ret (status, return_ids)
          else
            let* st := call (EvRayletSubmit task_spec)
                            (local_raylet_client_SubmitTask env task_spec) in
            RAY_CHECK_OK st "local_raylet_client_->SubmitTask" ;;;
            ret (status, return_ids)
      end
  end.

End Facade.
End Facade.

(** ** Clocked stores: an executable instance of the collaborators *)

Module Clocked.

(** Modelled from the spec: the stores ([CoreWorkerMemoryStore],
    [CoreWorkerPlasmaStoreProvider]) are not part of this translation unit.
    Each store is a schedule: an id is mapped to the time from which its
    object is present and to that object.  A blocking call returns as soon
    as the requested number of its ids is present or when the timeout
    expires, a negative timeout is unbounded, and the clock stands at the
    time the call returned.  The memory store reports an exception when a
    fetched object carries an error-kind marker other than
    OBJECT_IN_PLASMA, the plasma store when one carries any marker. *)
Abbreviation Schedule := (gmap ObjectID (Z * RayObject)).

Record World := mkWorld {
  clock : Z;
  memory_objects : Schedule;
  plasma_objects : Schedule
}.

Definition present_at (store : Schedule) (t : Z) (id : ObjectID) : bool :=
  match store !! id with
  | Some (arrival, _) => arrival <=? t
  | None => false
  end.

Definition present_ids (store : Schedule) (ids : ObjectSet) (t : Z)
    : list ObjectID :=
  List.filter (present_at store t) (elements ids).

Definition arrivals (store : Schedule) (ids : ObjectSet) : list Z :=
  omap (fun id => fst <$> store !! id) (elements ids).

(** The times at which a wait for [num] of [ids] that starts at [start]
    can return: [start] itself or a later arrival. *)
Definition wake_times (store : Schedule) (ids : ObjectSet) (num : Z) (start : Z)
    : list Z :=
  List.filter (fun t => (start <=? t) && (num <=? Z.of_nat (length (present_ids store ids t))))
              (start :: arrivals store ids).

Definition earliest (times : list Z) : option Z :=
  match times with
  | [] => None
  | t :: rest => Some (foldr Z.min t rest)
  end.

(** When the blocking call returns; [None] when it never does. *)
Definition return_time (store : Schedule) (ids : ObjectSet) (num timeout_ms : Z)
    (start : Z) : option Z :=
  match earliest (wake_times store ids num start) with
  | Some t =>
      if (timeout_ms <? 0) || (t <=? start + timeout_ms) then Some t
      else Some (start + timeout_ms)
  | None => if timeout_ms <? 0 then None else Some (start + timeout_ms)
  end.

Definition store_Wait (store : World -> Schedule) (ids : ObjectSet)
    (num_objects timeout_ms : Z) (ready : ObjectSet) (w : World)
    : option (Status * ObjectSet * World) :=
  match return_time (store w) ids num_objects timeout_ms (clock w) with
  | None => None
  | Some t =>
      Some (Status_OK,
            ready ∪ list_to_set (take (Z.to_nat num_objects)
                                      (present_ids (store w) ids t)),
            mkWorld t (memory_objects w) (plasma_objects w))
  end.

Definition fetched (store : Schedule) (ids : ObjectSet) (t : Z) : ResultMap :=
  snd <$> filter (fun entry : ObjectID * (Z * RayObject) =>
                    entry.1 ∈ ids ∧ entry.2.1 <= t) store.

Definition store_Get (store : World -> Schedule) (is_exception : RayObject -> bool)
    (ids : ObjectSet) (timeout_ms : Z) (result_map : ResultMap)
    (got_exception : bool) (w : World)
    : option (Status * ResultMap * bool * World) :=
  match return_time (store w) ids (Z.of_nat (size ids)) timeout_ms (clock w) with
  | None => None
  | Some t =>
      let found := fetched (store w) ids t in
      Some (Status_OK, found ∪ result_map,
            got_exception
            || bool_decide (map_Exists (fun _ object => is_exception object = true) found),
            mkWorld t (memory_objects w) (plasma_objects w))
  end.

Definition memory_GetOne (id : ObjectID) (w : World)
    : Status * list (option RayObject) * World :=
  match memory_objects w !! id with
  | Some (arrival, object) =>
      if arrival <=? clock w then (Status_OK, [Some object], w)
      else (mkStatus StatusTimedOut "Get timed out: some object(s) not ready.",
            [None], w)
  | None => (mkStatus StatusTimedOut "Get timed out: some object(s) not ready.",
             [None], w)
  end.

Definition plasma_Put (object : RayObject) (id : ObjectID) (w : World)
    : Status * World :=
  (Status_OK,
   mkWorld (clock w) (memory_objects w)
     (match plasma_objects w !! id with
      | Some _ => plasma_objects w
      | None => <[id := (clock w, object)]> (plasma_objects w)
      end)).

(** Whether the memory store holds the OBJECT_IN_PLASMA marker for an
    id, and whether an object of its own. *)
Definition marker_in (w : World) (id : ObjectID) : bool :=
  match memory_objects w !! id with
  | Some (_, object) => IsInPlasmaError object
  | None => false
  end.

(** An id has its object present by a deadline when the store of its
    transport tag holds it by then; for a DIRECT id whose memory-store
    entry is the marker, when moreover the plasma store holds it. *)
Definition object_present (w : World) (deadline : Z) (id : ObjectID) : bool :=
  if IsDirectCallType id
  then present_at (memory_objects w) deadline id
       && (negb (marker_in w id) || present_at (plasma_objects w) deadline id)
  else present_at (plasma_objects w) deadline id.

(** Every promoted id that the memory store shows by the deadline is in
    the plasma store by the deadline. *)
Definition promoted_backed (w : World) (deadline : Z) (ids : list ObjectID) : Prop :=
  forall id,
    id ∈ ids -> IsDirectCallType id = true ->
    present_at (memory_objects w) deadline id = true ->
    marker_in w id = true ->
    present_at (plasma_objects w) deadline id = true.

Definition answer_ok {A} (_ : A) (w : World) : Status * World := (Status_OK, w).

(** Derived IDs are hashes in the source; here they are codes of the
    tuples they are derived from. *)
Definition code_of `{Countable A} (x : A) : N := Npos (encode x).

Definition collaborators : Collaborators World :=
  mkCollaborators World
    clock
    (store_Get memory_objects
       (fun object => IsException object && negb (IsInPlasmaError object)))
    memory_GetOne
    (store_Wait memory_objects)
    (store_Get plasma_objects IsException)
    (store_Wait plasma_objects)
    plasma_Put
    (fun _ => answer_ok)
    answer_ok
    answer_ok
    answer_ok
    (fun _ _ w => w)
    (fun _ _ w => w)
    (fun _ _ _ _ w => w)
    (fun _ _ _ w => w)
    (fun _ _ _ w => w)
    answer_ok
    answer_ok
    (fun job parent index => TaskID_FromBits (code_of (1%N, job, parent, index)))
    (fun actor => TaskID_FromBits (code_of (2%N, actor)))
    (fun job parent index actor =>
       TaskID_FromBits (code_of (3%N, job, parent, index, actor)))
    (fun job parent index => ActorID_FromBits (code_of (job, parent, index)))
    (fun serialized =>
       ActorHandle_new (ActorID_FromBits (code_of serialized)) (JobID_FromInt 0)
         (ObjectID_ForTaskReturn
            (TaskID_FromBits (code_of (2%N, ActorID_FromBits (code_of serialized))))
            1 DIRECT)
         PYTHON true [])
    3.

Definition localhost : Address := mkAddress "127.0.0.1" 8000 1 1.

(** A process of job 1 that is not an actor, in task 1, with empty
    tables, over the given stores. *)
Definition process (w : World) : CoreWorker World :=
  mkCoreWorker
    (mkWorkerContext (JobID_FromInt 1) (TaskID_FromBits 1) 0 0)
    (TaskID_FromBits 1) ActorID_Nil localhost ∅ [] 1000 w [].

End Clocked.

(** ** The rest of the facade: object and actor passthroughs, task
    execution, RPC handlers *)

(** [static_cast<int64_t>(x)], and arithmetic on [int64_t] counters. *)
Definition static_cast_int64 (x : Z) : Z :=
  (x + 9223372036854775808) mod 18446744073709551616 - 9223372036854775808.

(** A buffer as the facade sees it: its bytes and whether it lives in
    the plasma store. *)
Record Buffer := mkBuffer {
  Data : list N;
  IsPlasmaBuffer : bool
}.

(** [std::make_shared<LocalMemoryBuffer>(size)]: the contents are
    unspecified until the task writes them, zeros here. *)
Definition LocalMemoryBuffer (size : Z) : Buffer :=
  mkBuffer (replicate (Z.to_nat size) 0%N) false.

(** A return object under construction: [RayObject(data_buffer,
    metadata)] with the buffer itself, which the task fills in. *)
Record ReturnObject := mkReturnObject {
  return_data : option Buffer;
  return_metadata : option Metadata
}.

(** The object as the stores take it. *)
Definition RayObject_of_return (object : ReturnObject) : RayObject :=
  mkRayObject (Data <$> return_data object) (return_metadata object).

Inductive TaskType := NORMAL_TASK | ACTOR_CREATION_TASK | ACTOR_TASK.

(** The accessors of [TaskSpecification] the facade reads.  Modelled from
    the spec: the class (ray/common/task/task_spec.h) is not part of this
    translation unit.  A task is an actor creation task or an actor task
    when the builder set the corresponding part, a normal task
    otherwise; its return ids are numbered from 1. *)
Definition IsActorCreationTask (task : TaskSpecification) : bool :=
  bool_decide (is_Some (ts_actor_creation task)).

Definition IsActorTask (task : TaskSpecification) : bool :=
  bool_decide (is_Some (ts_actor_task task)).

Definition IsNormalTask (task : TaskSpecification) : bool :=
  negb (IsActorCreationTask task) && negb (IsActorTask task).

Definition ActorCreationId (task : TaskSpecification) : ActorID :=
  match ts_actor_creation task with
  | Some creation => acts_actor_id creation
  | None => ActorID_Nil
  end.

Definition ReturnId (task : TaskSpecification) (i : nat)
    (transport_type : TaskTransportType) : ObjectID :=
  ObjectID_ForTaskReturn (TaskId task) (Z.of_nat i + 1) transport_type.

Definition NumReturns (task : TaskSpecification) : nat := ts_num_returns task.

(** [RayObject(data, metadata, copy_data)] of a by-value argument: a
    buffer of size 0 is left null. *)
Definition by_value_object (value : RayObject) : RayObject :=
  mkRayObject
    (match GetData value with Some [] => None | data => data end)
    (match GetMetadata value with
     | Some (UserMetadata []) => None
     | metadata => metadata
     end).

(** The status field of a [GetObjectStatusReply]. *)
Inductive ObjectStatus := NOT_SET | CREATED.

(** A piece of work handed to the task execution service. *)
Inductive PostedWork :=
  | RayletHandleAssignTask (request : N)
  | DirectHandlePushTask (request : N)
  | DirectHandleArgWaitComplete (request : N).

(** Every call on a collaborator, in the order the calls are made: a call
    already named by [Event], or one of the calls made by the functions
    below. *)
Inductive Request :=
  | Facade (e : Event)
  | MemoryContains (id : ObjectID)
  | PlasmaContains (id : ObjectID)
  | DeleteReferences (ids : list ObjectID)
  | MemoryDelete (ids plasma_ids : ObjectSet)
  | PlasmaDelete (ids : ObjectSet) (local_only delete_creating_tasks : bool)
  | PlasmaCreate (metadata : option Metadata) (data_size : Z) (id : ObjectID)
  | PlasmaSeal (id : ObjectID)
  | GetOrPromoteToPlasma (id : ObjectID)
  | GetOwner (id : ObjectID)
  | AddBorrowedObject (id : ObjectID) (owner : TaskID) (owner_address : Address)
  | ResolveFutureAsync (id : ObjectID) (owner : TaskID) (owner_address : Address)
  | KillActorRequest (actor : ActorID)
  | MemoryPut (object : RayObject) (id : ObjectID)
  | SetCurrentTask (task : TaskSpecification)
  | ResetCurrentTask (task : TaskSpecification)
  | ExecutionCallback (task_type : TaskType) (func : RayFunction)
                      (required_resources : ResourceMap)
                      (args : list (option RayObject))
                      (arg_reference_ids : list (option ObjectID))
                      (return_ids : list ObjectID)
  | WrongRecipientCheck (intended_worker_id : N)
  | Post (work : PostedWork)
  | SendReply (status : Status)
  | IsTaskPending (task : TaskID)
  | AddLocalReference (id : ObjectID)
  | RemoveLocalReference (id : ObjectID)
  | MemoryGetAsync (id : ObjectID)
  | SetDeleteCallback (id : ObjectID)
  | IoServiceStop
  | TaskExecutionServiceStop
  | GcsDisconnect
  | RayletDisconnect
  | ShutDownRayLog
  | Exit (code : Z).

(** The collaborators the functions below call besides those of
    [Collaborators].  Out-parameters are passed in and handed back;
    [GetOwner] answers with the owner when there is one.  The worker
    context's current task and actor are not part of [WorkerContext]
    above: the calls that read or write them take the context and the
    collaborator state and hand both back. *)
Record Services (W : Type) := mkServices {
  memory_store_Contains : ObjectID -> bool -> W -> bool * bool * W;
  plasma_store_provider_Contains : ObjectID -> bool -> W -> Status * bool * W;
  reference_counter_DeleteReferences : list ObjectID -> W -> W;
  memory_store_Delete : ObjectSet -> ObjectSet -> W -> ObjectSet * W;
  plasma_store_provider_Delete : ObjectSet -> bool -> bool -> W -> Status * W;
  plasma_store_provider_Create :
    option Metadata -> Z -> ObjectID -> option Buffer -> W
    -> Status * option Buffer * W;
  plasma_store_provider_Seal : ObjectID -> W -> Status * W;
  memory_store_GetOrPromoteToPlasma : ObjectID -> W -> option RayObject * W;
  reference_counter_GetOwner : ObjectID -> W -> option (TaskID * Address) * W;
  reference_counter_AddBorrowedObject : ObjectID -> TaskID -> Address -> W -> W;
  future_resolver_ResolveFutureAsync : ObjectID -> TaskID -> Address -> W -> W;
  direct_actor_submitter_KillActor : ActorID -> W -> Status * W;
  ActorHandle_Serialize : ActorHandle -> string;
  memory_store_Put : RayObject -> ObjectID -> W -> Status * W;
  worker_context_SetCurrentTask :
    TaskSpecification -> WorkerContext -> W -> WorkerContext * W;
  worker_context_ResetCurrentTask :
    TaskSpecification -> WorkerContext -> W -> WorkerContext * W;
  worker_context_CurrentTaskIsDirectCall : WorkerContext -> W -> bool;
  worker_context_CurrentActorIsDirectCall : WorkerContext -> W -> bool;
  worker_context_GetCurrentActorID : WorkerContext -> W -> ActorID;
  max_direct_call_object_size : Z;
  task_execution_callback_ :
    TaskType -> RayFunction -> ResourceMap -> list (option RayObject)
    -> list (option ObjectID) -> list ObjectID -> list (option ReturnObject) -> W
    -> Status * list (option ReturnObject) * W;
  ActorID_Hex : ActorID -> string;
  HandleWrongRecipient : N -> W -> bool * W;
  task_manager_IsTaskPending : TaskID -> W -> bool * W;
  reference_counter_SetDeleteCallback : ObjectID -> W -> bool * W
}.

Arguments memory_store_Contains {W}.
Arguments plasma_store_provider_Contains {W}.
Arguments reference_counter_DeleteReferences {W}.
Arguments memory_store_Delete {W}.
Arguments plasma_store_provider_Delete {W}.
Arguments plasma_store_provider_Create {W}.
Arguments plasma_store_provider_Seal {W}.
Arguments memory_store_GetOrPromoteToPlasma {W}.
Arguments reference_counter_GetOwner {W}.
Arguments reference_counter_AddBorrowedObject {W}.
Arguments future_resolver_ResolveFutureAsync {W}.
Arguments direct_actor_submitter_KillActor {W}.
Arguments ActorHandle_Serialize {W}.
Arguments memory_store_Put {W}.
Arguments worker_context_SetCurrentTask {W}.
Arguments worker_context_ResetCurrentTask {W}.
Arguments worker_context_CurrentTaskIsDirectCall {W}.
Arguments worker_context_CurrentActorIsDirectCall {W}.
Arguments worker_context_GetCurrentActorID {W}.
Arguments max_direct_call_object_size {W}.
Arguments task_execution_callback_ {W}.
Arguments ActorID_Hex {W}.
Arguments HandleWrongRecipient {W}.
Arguments task_manager_IsTaskPending {W}.
Arguments reference_counter_SetDeleteCallback {W}.

Inductive WorkerType := WORKER | DRIVER.

(** The facade with the members the functions below use and the full
    record of its calls. *)
Record Process (W : Type) := mkProcess {
  core : CoreWorker W;
  worker_type_ : WorkerType;
  log_dir_ : string;
  connected_ : bool;
  task_queue_length_ : Z;
  num_executed_tasks_ : Z;
  resource_ids_ : ResourceMap;
  current_task_ : option TaskSpecification;
  requests : list Request
}.

Arguments mkProcess {W}.
Arguments core {W}.
Arguments worker_type_ {W}.
Arguments log_dir_ {W}.
Arguments connected_ {W}.
Arguments task_queue_length_ {W}.
Arguments num_executed_tasks_ {W}.
Arguments resource_ids_ {W}.
Arguments current_task_ {W}.
Arguments requests {W}.

Module Worker.
Section Worker.

Context {W : Type}.
Variable env : Collaborators W.
Variable srv : Services W.

Definition P (A : Type) : Type := Process W -> Outcome (Process W) A.

Definition ret {A} (a : A) : P A := fun p => Returned a p.

Definition bind {A B} (m : P A) (k : A -> P B) : P B :=
  fun p =>
    match m p with
    | Returned a p' => k a p'
    | Aborted check p' => Aborted check p'
    | Blocked p' => Blocked p'
    end.

Notation "'let*' p ':=' m 'in' k" := (bind m (fun x => let 'p := x in k))
  (at level 10, p pattern, m at level 100, k at level 200).
Notation "m ;;; k" := (bind m (fun _ => k))
  (at level 100, right associativity).

Definition get {A} (f : Process W -> A) : P A := fun p => Returned (f p) p.

Definition modify (f : Process W -> Process W) : P unit :=
  fun p => Returned tt (f p).

Definition abort {A} (check : string) : P A := fun p => Aborted check p.

Definition RAY_CHECK (cond : bool) (check : string) : P unit :=
  fun p => if cond then Returned tt p else Aborted check p.

Definition RAY_CHECK_OK (st : Status) (check : string) : P unit :=
  RAY_CHECK (ok st) check.

(** *** Field updates *)

Definition set_core (c : CoreWorker W) (p : Process W) : Process W :=
  mkProcess c (worker_type_ p) (log_dir_ p) (connected_ p)
    (task_queue_length_ p) (num_executed_tasks_ p) (resource_ids_ p)
    (current_task_ p) (requests p).

Definition record (new : list Request) (p : Process W) : Process W :=
  mkProcess (core p) (worker_type_ p) (log_dir_ p) (connected_ p)
    (task_queue_length_ p) (num_executed_tasks_ p) (resource_ids_ p)
    (current_task_ p) (requests p ++ new).

Definition set_connected (b : bool) (p : Process W) : Process W :=
  mkProcess (core p) (worker_type_ p) (log_dir_ p) b
    (task_queue_length_ p) (num_executed_tasks_ p) (resource_ids_ p)
    (current_task_ p) (requests p).

Definition set_task_queue_length (n : Z) (p : Process W) : Process W :=
  mkProcess (core p) (worker_type_ p) (log_dir_ p) (connected_ p)
    n (num_executed_tasks_ p) (resource_ids_ p)
    (current_task_ p) (requests p).

Definition set_num_executed_tasks (n : Z) (p : Process W) : Process W :=
  mkProcess (core p) (worker_type_ p) (log_dir_ p) (connected_ p)
    (task_queue_length_ p) n (resource_ids_ p)
    (current_task_ p) (requests p).

Definition set_resource_ids (r : ResourceMap) (p : Process W) : Process W :=
  mkProcess (core p) (worker_type_ p) (log_dir_ p) (connected_ p)
    (task_queue_length_ p) (num_executed_tasks_ p) r
    (current_task_ p) (requests p).

Definition set_current_task (t : option TaskSpecification) (p : Process W)
    : Process W :=
  mkProcess (core p) (worker_type_ p) (log_dir_ p) (connected_ p)
    (task_queue_length_ p) (num_executed_tasks_ p) (resource_ids_ p)
    t (requests p).

(** A function of the facade defined above, run on [core]; the calls it
    logs are carried over to [requests]. *)
Definition carried (c c' : CoreWorker W) (p : Process W) : Process W :=
  record (Facade <$> drop (length (calls c)) (calls c')) (set_core c' p).

Definition lift {A} (m : Facade.M A) : P A :=
  fun p =>
    match m (core p) with
    | Returned a c' => Returned a (carried (core p) c' p)
    | Aborted check c' => Aborted check (carried (core p) c' p)
    | Blocked c' => Blocked (carried (core p) c' p)
    end.

(** A call on one of the [Services], recorded before it runs. *)
Definition request {A} (r : Request) (f : W -> A * W) : P A :=
  fun p =>
    let '(a, w) := f (world (core p)) in
    Returned a (set_core (Facade.set_world w (core p)) (record [r] p)).

Definition request_void (r : Request) (f : W -> W) : P unit :=
  request r (fun w => (tt, f w)).

(** A request that has no answer and leaves the collaborators as they
    are, as far as the facade is concerned. *)
Definition tell (r : Request) : P unit := modify (record [r]).

(** *** Shutting down *)

Definition Shutdown : P unit :=
  tell IoServiceStop ;;;
  let* worker_type := get worker_type_ in
  match worker_type with
  | WORKER => tell TaskExecutionServiceStop
  | DRIVER => ret tt
  end.

(** The constructor sets [gcs_client_] and [local_raylet_client_]: the
    two null tests of [Disconnect] hold. *)
Definition Disconnect : P unit :=
  tell IoServiceStop ;;;
  let* connected := get connected_ in
  if connected then
    modify (set_connected false) ;;;
    tell GcsDisconnect ;;;
    tell RayletDisconnect
  else ret tt.

(** *** Object store passthroughs *)

Definition Contains (object_id : ObjectID) (has_object : bool) : P (Status * bool) :=
  let found := false in
  if IsDirectCallType object_id then
    let in_plasma := false in
    let* (found, in_plasma) :=
      request (MemoryContains object_id)
              (memory_store_Contains srv object_id in_plasma) in
    if in_plasma then
      let* (st, found) :=
        request (PlasmaContains object_id)
                (plasma_store_provider_Contains srv object_id found) in
      if negb (ok st) then ret (st, has_object) else
      ret (Status_OK, found)
    else ret (Status_OK, found)
  else
    let* (st, found) :=
      request (PlasmaContains object_id)
              (plasma_store_provider_Contains srv object_id found) in
    if negb (ok st) then ret (st, has_object) else
    ret (Status_OK, found).

Definition Delete (object_ids : list ObjectID) (local_only : bool)
    (delete_creating_tasks : bool) : P Status :=
  let '(plasma_object_ids, memory_object_ids) :=
    Facade.GroupObjectIdsByStoreProvider object_ids ∅ ∅ in
  request_void (DeleteReferences object_ids)
               (reference_counter_DeleteReferences srv object_ids) ;;;
  let* plasma_object_ids :=
    request (MemoryDelete memory_object_ids plasma_object_ids)
            (memory_store_Delete srv memory_object_ids plasma_object_ids) in
  let* st :=
    request (PlasmaDelete plasma_object_ids local_only delete_creating_tasks)
            (plasma_store_provider_Delete srv plasma_object_ids local_only
                                          delete_creating_tasks) in
  if negb (ok st) then ret st else
  ret Status_OK.

(** [Create] with the id given.  [data] is what the caller's buffer
    pointer points to; the store writes the buffer through it. *)
Definition Create (metadata : option Metadata) (data_size : Z)
    (contained_object_ids : list ObjectID) (object_id : ObjectID)
    (data : option Buffer) : P (Status * option Buffer) :=
  request (PlasmaCreate metadata data_size object_id)
          (plasma_store_provider_Create srv metadata data_size object_id data).

(** [Create] allocating the id.  [data_pointer] says whether the caller's
    [data] pointer is non-null: the test [if (data)] is on the pointer,
    not on the buffer written through it. *)
Definition Create_new (metadata : option Metadata) (data_size : Z)
    (contained_object_ids : list ObjectID) (data_pointer : bool)
    (data : option Buffer) : P (Status * ObjectID * option Buffer) :=
  let* c := lift (Facade.get worker_context_) in
  let* put_index := lift Facade.GetNextPutIndex in
  let object_id := ObjectID_ForPut (GetCurrentTaskID c) put_index RAYLET in
  let* (st, data) :=
    Create metadata data_size contained_object_ids object_id data in
  if negb (ok st) then ret (st, object_id, data) else
  (* Only add the object to the reference counter if it didn't already exist. *)
  (if data_pointer then
     let* caller_id := lift (Facade.GetCallerId env) in
     let* address := lift (Facade.get rpc_address_) in
     lift (Facade.call_void (EvAddOwnedObject object_id caller_id address)
             (reference_counter_AddOwnedObject env object_id caller_id address))
   else ret tt) ;;;
  ret (Status_OK, object_id, data).

Definition Seal (object_id : ObjectID) (pin_object : bool) : P Status :=
  let* st := request (PlasmaSeal object_id)
                     (plasma_store_provider_Seal srv object_id) in
  if negb (ok st) then ret st else
  (if pin_object then
     (* Tell the raylet to pin the object **after** it is created. *)
     let* address := lift (Facade.get rpc_address_) in
     let* pinned :=
       lift (Facade.call (EvPinObjectIDs address [object_id])
               (local_raylet_client_PinObjectIDs env address [object_id])) in
     RAY_CHECK_OK pinned "PinObjectIDs"
   else ret tt) ;;;
  ret Status_OK.

(** *** Ownership *)


Definition RegisterOwnershipInfoAndResolveFuture (object_id : ObjectID)
    (owner_id : TaskID) (owner_address : Address) : P unit :=
  (* Add the object's owner to the local metadata in case it gets
     serialized again. *)
  request_void (AddBorrowedObject object_id owner_id owner_address)
    (reference_counter_AddBorrowedObject srv object_id owner_id owner_address) ;;;
  RAY_CHECK (negb (TaskID_IsNil owner_id)) "!owner_id.IsNil()" ;;;
  request_void (ResolveFutureAsync object_id owner_id owner_address)
    (future_resolver_ResolveFutureAsync srv object_id owner_id owner_address).

(** *** Actors *)

Definition KillActor (actor_id : ActorID) : P Status :=
  let* found := lift (Facade.GetActorHandle actor_id) in
  match found with
  | inr st => ret st
  | inl actor_handle =>
      RAY_CHECK (IsDirectCallActor actor_handle)
                "actor_handle->IsDirectCallActor()" ;;;
      request (KillActorRequest actor_id)
              (direct_actor_submitter_KillActor srv actor_id)
  end.

Definition SerializeActorHandle (actor_id : ActorID) (output : string)
    : P (Status * string) :=
  let* found := lift (Facade.GetActorHandle actor_id) in
  match found with
  | inr status => ret (status, output)
  | inl actor_handle => ret (Status_OK, ActorHandle_Serialize srv actor_handle)
  end.

(** *** Task execution *)

Definition CurrentTaskIsDirectCall : P bool :=
  get (fun p => worker_context_CurrentTaskIsDirectCall srv
                  (worker_context_ (core p)) (world (core p))).




(** The first loop of [BuildArgsForExecutor]; the accumulator is
    [(args, arg_reference_ids, by_ref_ids, by_ref_indices)].  A nil
    ObjectID in [arg_reference_ids] is [None]. *)
Fixpoint BuildArgsForExecutor_loop (todo : list TaskArg) (i : nat)
    (acc : list (option RayObject) * list (option ObjectID) * ObjectSet
           * gmap ObjectID nat)
    : P (list (option RayObject) * list (option ObjectID) * ObjectSet
         * gmap ObjectID nat) :=
  match todo with
  | [] => ret acc
  | arg :: rest =>
      let '(args, arg_reference_ids, by_ref_ids, by_ref_indices) := acc in
      match arg with
      | PassedByReference id =>
          (* pass by reference: the argument names one id, as the check
             [count == 1] wants. *)
          (if IsDirectCallType id then
             let* st :=
               request (MemoryPut (RayObject_of_error OBJECT_IN_PLASMA) id)
                 (memory_store_Put srv (RayObject_of_error OBJECT_IN_PLASMA) id) in
             RAY_CHECK_OK st "memory_store_->Put"
           else ret tt) ;;;
          BuildArgsForExecutor_loop rest (S i)
            (args, <[i := Some id]> arg_reference_ids, {[id]} ∪ by_ref_ids,
             match by_ref_indices !! id with
             | None => <[id := i]> by_ref_indices
             | Some _ => by_ref_indices
             end)
      | PassedByValue value =>
          (* pass by value. *)
          BuildArgsForExecutor_loop rest (S i)
            (<[i := Some (by_value_object value)]> args,
             <[i := None]> arg_reference_ids, by_ref_ids, by_ref_indices)
      end
  end.

(** The second loop: [args->at(by_ref_indices[it.first]) = it.second]. *)
Fixpoint BuildArgsForExecutor_fill (result : list (ObjectID * RayObject))
    (by_ref_indices : gmap ObjectID nat) (args : list (option RayObject))
    : P (list (option RayObject)) :=
  match result with
  | [] => ret args
  | (id, object) :: rest =>
      let index := default 0%nat (by_ref_indices !! id) in
      if bool_decide (index < length args)%nat
      then BuildArgsForExecutor_fill rest by_ref_indices
                                     (<[index := Some object]> args)
      else abort "args->at"
  end.

Definition BuildArgsForExecutor (task : TaskSpecification)
    (args : list (option RayObject)) (arg_reference_ids : list (option ObjectID))
    : P (Status * list (option RayObject) * list (option ObjectID)) :=
  let num_args := length (ts_args task) in
  let args := Facade.resize num_args None args in
  let arg_reference_ids := Facade.resize num_args None arg_reference_ids in
  let* (args, arg_reference_ids, by_ref_ids, by_ref_indices) :=
    BuildArgsForExecutor_loop (ts_args task) 0
                              (args, arg_reference_ids, ∅, ∅) in
  (* Fetch by-reference arguments directly from the plasma store. *)
  let* (st, result_map, got_exception) :=
    lift (Facade.call_blocking (EvPlasmaGet by_ref_ids (-1))
            (plasma_store_provider_Get env by_ref_ids (-1) ∅ false)) in
  if negb (ok st) then ret (st, args, arg_reference_ids) else
  let* args :=
    BuildArgsForExecutor_fill (map_to_list result_map) by_ref_indices args in
  ret (Status_OK, args, arg_reference_ids).

(** The loop of [ExecuteTask] that stores the return objects.  A return
    object without a data buffer is dereferenced by
    [GetData()->IsPlasmaBuffer()], and [return_ids[i]] is read without a
    bounds check: both end the run here. *)
Fixpoint ExecuteTask_store (todo : list (option ReturnObject)) (i : nat)
    (return_ids : list ObjectID) : P unit :=
  match todo with
  | [] => ret tt
  | None :: rest =>
      (* The object is nullptr if it already existed in the object store. *)
      ExecuteTask_store rest (S i) return_ids
  | Some object :: rest =>
      match return_data object with
      | None => abort "return_objects->at(i)->GetData()"
      | Some buffer =>
          (if IsPlasmaBuffer buffer then
             match return_ids !! i with
             | None => abort "return_ids[i]"
             | Some return_id =>
                 let* st := Seal return_id false in
                 if negb (ok st) then abort "failed to seal object" else ret tt
             end
           else
             let* direct := CurrentTaskIsDirectCall in
             if negb direct then
               match return_ids !! i with
               | None => abort "return_ids[i]"
               | Some return_id =>
                   let* st :=
                     lift (Facade.Put env (RayObject_of_return object) []
                                      return_id) in
                   if negb (ok st) then abort "failed to put object" else ret tt
               end
             else ret tt) ;;;
          ExecuteTask_store rest (S i) return_ids
      end
  end.

Definition ExecuteTask (task_spec : TaskSpecification)
    (resource_ids : option ResourceMap)
    (return_objects : list (option ReturnObject))
    : P (Status * list (option ReturnObject)) :=
  modify (fun p => set_task_queue_length
                     (static_cast_int64 (task_queue_length_ p - 1)) p) ;;;
  modify (fun p => set_num_executed_tasks
                     (static_cast_int64 (num_executed_tasks_ p + 1)) p) ;;;
  (match resource_ids with
   | Some ids => modify (set_resource_ids ids)
   | None => ret tt
   end) ;;;
  (fun p =>
     let '(c, w) :=
       worker_context_SetCurrentTask srv task_spec (worker_context_ (core p))
                                     (world (core p)) in
     Returned tt
       (set_core (Facade.set_worker_context c (Facade.set_world w (core p)))
                 (record [SetCurrentTask task_spec] p))) ;;;
  lift (Facade.SetCurrentTaskId env (TaskId task_spec)) ;;;
  modify (set_current_task (Some task_spec)) ;;;
  let func := mkRayFunction (ts_language task_spec)
                            (ts_function_descriptor task_spec) in
  let* (st, args, arg_reference_ids) := BuildArgsForExecutor task_spec [] [] in
  RAY_CHECK_OK st "BuildArgsForExecutor" ;;;
  let* direct := CurrentTaskIsDirectCall in
  let transport_type := if direct then DIRECT else RAYLET in
  let return_ids :=
    (fun i => ReturnId task_spec i transport_type)
      <$> seq 0 (NumReturns task_spec) in
  let* (task_type, return_ids) :=
    (if IsActorCreationTask task_spec then
       RAY_CHECK (bool_decide (0 < length return_ids)%nat)
                 "return_ids.size() > 0" ;;;
       lift (Facade.SetActorId (ActorCreationId task_spec)) ;;;
       ret (ACTOR_CREATION_TASK, removelast return_ids)
     else if IsActorTask task_spec then
       RAY_CHECK (bool_decide (0 < length return_ids)%nat)
                 "return_ids.size() > 0" ;;;
       ret (ACTOR_TASK, removelast return_ids)
     else ret (NORMAL_TASK, return_ids)) in
  let* (status, return_objects) :=
    request (ExecutionCallback task_type func (ts_required_resources task_spec)
                               args arg_reference_ids return_ids)
      (task_execution_callback_ srv task_type func
         (ts_required_resources task_spec) args arg_reference_ids return_ids
         return_objects) in
  ExecuteTask_store return_objects 0 return_ids ;;;
  lift (Facade.SetCurrentTaskId env TaskID_Nil) ;;;
  (fun p =>
     let '(c, w) :=
       worker_context_ResetCurrentTask srv task_spec (worker_context_ (core p))
                                       (world (core p)) in
     Returned tt
       (set_core (Facade.set_worker_context c (Facade.set_world w (core p)))
                 (record [ResetCurrentTask task_spec] p))) ;;;
  modify (set_current_task None) ;;;
  ret (status, return_objects).

(** *** RPC handlers

    A request carries the id of the worker it is meant for and a payload
    the facade hands on as it is. *)

Definition wrong_recipient (intended_worker_id : N) : P bool :=
  request (WrongRecipientCheck intended_worker_id)
          (HandleWrongRecipient srv intended_worker_id).

Definition post (work : PostedWork) : P unit := tell (Post work).

Definition send_reply_callback (status : Status) : P unit :=
  tell (SendReply status).

Definition HandleAssignTask (intended_worker_id : N) (request : N) : P unit :=
  let* wrong := wrong_recipient intended_worker_id in
  if wrong then ret tt else
  let* direct :=
    get (fun p => worker_context_CurrentActorIsDirectCall srv
                    (worker_context_ (core p)) (world (core p))) in
  if direct then
    send_reply_callback (Status_Invalid "This actor only accepts direct calls.")
  else
    modify (fun p => set_task_queue_length
                       (static_cast_int64 (task_queue_length_ p + 1)) p) ;;;
    post (RayletHandleAssignTask request).

Definition HandlePushTask (intended_worker_id : N) (request : N) : P unit :=
  let* wrong := wrong_recipient intended_worker_id in
  if wrong then ret tt else
  modify (fun p => set_task_queue_length
                     (static_cast_int64 (task_queue_length_ p + 1)) p) ;;;
  post (DirectHandlePushTask request).

Definition HandleDirectActorCallArgWaitComplete (intended_worker_id : N)
    (request : N) : P unit :=
  let* wrong := wrong_recipient intended_worker_id in
  if wrong then ret tt else
  post (DirectHandleArgWaitComplete request).

Definition task_is_pending (task : TaskID) : P bool :=
  request (IsTaskPending task) (task_manager_IsTaskPending srv task).

(** The reply to a pending object is sent by the callback given to
    [GetAsync], once the object is there. *)
Definition HandleGetObjectStatus (object_id : ObjectID) (owner_id : TaskID)
    (reply : ObjectStatus) : P ObjectStatus :=
  let reply := CREATED in
  let* pending := task_is_pending (ObjectID_TaskId object_id) in
  (if pending then
     (* Acquire a reference and retry. *)
     tell (AddLocalReference object_id) ;;;
     let* pending := task_is_pending (ObjectID_TaskId object_id) in
     if pending then
       (* The task is pending. Send the reply once the task finishes. *)
       tell (MemoryGetAsync object_id) ;;;
       tell (RemoveLocalReference object_id)
     else
       (* We lost the race, the task is done. *)
       tell (RemoveLocalReference object_id) ;;;
       send_reply_callback Status_OK
   else
     (* The task is done. Send the reply immediately. *)
     send_reply_callback Status_OK) ;;;
  ret reply.

Definition HandleWaitForObjectEviction (intended_worker_id : N)
    (object_id : ObjectID) : P unit :=
  let* wrong := wrong_recipient intended_worker_id in
  if wrong then ret tt else
  let* added := request (SetDeleteCallback object_id)
                        (reference_counter_SetDeleteCallback srv object_id) in
  if negb added then send_reply_callback Status_OK else ret tt.

Definition HandleKillActor (intended_actor_id : ActorID) : P unit :=
  let* current :=
    get (fun p => worker_context_GetCurrentActorID srv
                    (worker_context_ (core p)) (world (core p))) in
  if negb (bool_decide (intended_actor_id = current)) then
    let msg :=
      ("Mismatched ActorID: ignoring KillActor for previous actor "
         +:+ ActorID_Hex srv intended_actor_id
         +:+ ", current actor ID: " +:+ ActorID_Hex srv current)%string in
    send_reply_callback (Status_Invalid msg)
  else
    let* log_dir := get log_dir_ in
    (if negb (bool_decide (log_dir = EmptyString))
     then tell ShutDownRayLog else ret tt) ;;;
    tell (Exit 1) ;;;
    abort "exit(1)".

End Worker.
End Worker.

(** ** Vocabulary of the statements *)

(** The ids of a list by transport tag. *)
Definition direct_ids (ids : list ObjectID) : ObjectSet :=
  list_to_set (filter (fun id => IsDirectCallType id = true) ids).

Definition raylet_ids (ids : list ObjectID) : ObjectSet :=
  list_to_set (filter (fun id => IsDirectCallType id = false) ids).

(** The operations of the facade that write the actor handle table or
    the fields its clearing depends on. *)
Inductive TableOp :=
  | OpCreateActor (function : RayFunction) (args : list TaskArg)
                  (options : ActorCreationOptions)
  | OpDeserializeAndRegisterActorHandle (serialized : string)
  | OpActorNotification (actor_id : ActorID) (state : ActorState)
                        (address : Address)
  | OpSubmitActorTask (actor_id : ActorID) (function : RayFunction)
                      (args : list TaskArg) (task_options : TaskOptions)
                      (return_ids : list ObjectID)
  | OpSetCurrentTaskId (task_id : TaskID)
  | OpSetActorId (actor_id : ActorID).

Definition run_table_op {W} (env : Collaborators W) (op : TableOp)
    : Facade.M (W := W) unit :=
  match op with
  | OpCreateActor function args options =>
      Facade.bind (Facade.CreateActor env function args options)
                  (fun _ => Facade.ret tt)
  | OpDeserializeAndRegisterActorHandle serialized =>
      Facade.bind (Facade.DeserializeAndRegisterActorHandle env serialized)
                  (fun _ => Facade.ret tt)
  | OpActorNotification actor_id state address =>
      Facade.actor_notification_callback env actor_id state address
  | OpSubmitActorTask actor_id function args task_options return_ids =>
      Facade.bind (Facade.SubmitActorTask env actor_id function args
                                          task_options return_ids)
                  (fun _ => Facade.ret tt)
  | OpSetCurrentTaskId task_id => Facade.SetCurrentTaskId env task_id
  | OpSetActorId actor_id => Facade.SetActorId actor_id
  end.

(** The one case in which the table is cleared: the current task id is
    set to nil in a process that is not an actor (the end of each
    non-actor task). *)
Definition clears_table {W} (op : TableOp) (s : CoreWorker W) : bool :=
  match op with
  | OpSetCurrentTaskId task_id =>
      ActorID_IsNil (actor_id_ s) && TaskID_IsNil task_id
  | _ => false
  end.





Definition final_state {S A} (o : Outcome S A) : S :=
  match o with
  | Returned _ s => s
  | Aborted _ s => s
  | Blocked s => s
  end.

Definition count_true (results : list bool) : nat :=
  length (filter (fun b : bool => b = true) results).

(** * Properties *)

Section Properties.

Context {W : Type}.
Variable env : Collaborators W.
Import Facade.

Notation "'let*' p ':=' m 'in' k" := (bind m (fun x => let 'p := x in k))
  (at level 10, p pattern, m at level 100, k at level 200).
Notation "m ;;; k" := (bind m (fun _ => k))
  (at level 100, right associativity).

Lemma static_cast_int_id x : int_range x -> static_cast_int x = x.
Proof.
  unfold int_range, static_cast_int. intros Hx.
  rewrite Z.mod_small; lia.
Qed.

Lemma static_cast_int_range x : int_range (static_cast_int x).
Proof.
  unfold int_range, static_cast_int.
  pose proof (Z.mod_pos_bound (x + 2147483648) 4294967296). lia.
Qed.

Lemma resize_length {A} n (x : A) v : length (resize n x v) = n.
Proof.
  unfold resize. rewrite length_app, length_take, length_replicate. lia.
Qed.

Lemma resize_nil {A} n (x : A) : resize n x [] = replicate n x.
Proof. unfold resize. rewrite take_nil. simpl. f_equal. lia. Qed.

Lemma GroupObjectIdsByStoreProvider_spec ids P M :
  GroupObjectIdsByStoreProvider ids P M = (raylet_ids ids ∪ P, direct_ids ids ∪ M).
Proof.
  unfold GroupObjectIdsByStoreProvider, raylet_ids, direct_ids.
  revert P M. induction ids as [|id ids IH]; intros P M; simpl.
  - f_equal; set_solver.
  - destruct (IsDirectCallType id) eqn:Hid; rewrite IH.
    + rewrite filter_cons_False by congruence.
      rewrite filter_cons_True by done.
      f_equal; set_solver.
    + rewrite filter_cons_True by done.
      rewrite (filter_cons_False (fun id => IsDirectCallType id = true)) by congruence.
      f_equal; set_solver.
Qed.

Lemma direct_raylet_disjoint ids : raylet_ids ids ## direct_ids ids.
Proof.
  unfold raylet_ids, direct_ids. intros id H1 H2.
  apply elem_of_list_to_set, list_elem_of_filter in H1 as [H1 _].
  apply elem_of_list_to_set, list_elem_of_filter in H2 as [H2 _].
  congruence.
Qed.

Lemma direct_raylet_union ids :
  raylet_ids ids ∪ direct_ids ids = list_to_set ids.
Proof.
  unfold raylet_ids, direct_ids. apply set_eq. intros id.
  rewrite elem_of_union, !elem_of_list_to_set, !list_elem_of_filter.
  destruct (IsDirectCallType id); naive_solver.
Qed.

Lemma size_list_to_set_le (l : list ObjectID) :
  (size (list_to_set l : ObjectSet) <= length l)%nat.
Proof.
  induction l as [|x l IH].
  - rewrite list_to_set_nil, size_empty. simpl. lia.
  - rewrite list_to_set_cons, size_union_alt, size_singleton. simpl.
    pose proof (subseteq_size (list_to_set l ∖ {[x]}) (list_to_set l : ObjectSet)) as Hs.
    assert (list_to_set l ∖ {[x]} ⊆ (list_to_set l : ObjectSet)) by set_solver.
    specialize (Hs H). lia.
Qed.

Lemma size_list_to_set_NoDup (l : list ObjectID) :
  size (list_to_set l : ObjectSet) = length l -> NoDup l.
Proof.
  induction l as [|x l IH]; intros Hs.
  - constructor.
  - pose proof (size_list_to_set_le l) as Hle.
    rewrite list_to_set_cons, size_union_alt, size_singleton in Hs.
    simpl in Hs.
    destruct (decide (x ∈ l)) as [Hin|Hin].
    + assert (list_to_set l ∖ {[x]} ⊂ (list_to_set l : ObjectSet)) as Hsub.
      { apply (subset_difference_elem_of (C := ObjectSet)). by apply elem_of_list_to_set. }
      apply subset_size in Hsub. lia.
    + constructor; [done|]. apply IH.
      assert (list_to_set l ∖ {[x]} = (list_to_set l : ObjectSet)) as Heq by set_solver.
      rewrite Heq in Hs. lia.
Qed.

Lemma group_sizes ids :
  (size (raylet_ids ids) + size (direct_ids ids))%nat
  = size (list_to_set ids : ObjectSet).
Proof.
  rewrite <- size_union by apply direct_raylet_disjoint.
  by rewrite direct_raylet_union.
Qed.

(** ** Wait: argument checks *)

(** C10.  A call to [Wait] whose [num_objects] is at most zero or greater
    than the number of ids returns an Invalid status and leaves the
    facade, the collaborators and the call log as they were: neither
    store is consulted. *)
Theorem Wait_num_objects_out_of_range ids num_objects timeout_ms results s :
  int_range num_objects ->
  num_objects <= 0 \/ num_objects > Z.of_nat (length ids) ->
  Wait env ids num_objects timeout_ms results s
  = Returned (Status_Invalid
                "Number of objects to wait for must be between 1 and the number of ids.",
              resize (length ids) false results) s.
Proof.
  intros Hint Hbad. unfold Wait.
  assert ((num_objects <=? 0)
          || (static_cast_int (Z.of_nat (length ids)) <? num_objects) = true) as ->;
    [|reflexivity].
  apply orb_true_iff. destruct Hbad as [Hle|Hgt].
  - left. by apply Z.leb_le.
  - right. apply Z.ltb_lt. rewrite static_cast_int_id; [lia|].
    unfold int_range in *. lia.
Qed.

(** C4.  A call to [Wait] on a list that holds some id twice returns an
    Invalid status and leaves the facade, the collaborators and the call
    log as they were: no store wait is performed. *)
Theorem Wait_duplicate_ids ids num_objects timeout_ms results s :
  ~ NoDup ids ->
  exists msg,
    Wait env ids num_objects timeout_ms results s
    = Returned (Status_Invalid msg, resize (length ids) false results) s.
Proof.
  intros Hdup. unfold Wait.
  destruct ((num_objects <=? 0)
            || (static_cast_int (Z.of_nat (length ids)) <? num_objects)).
  - by eexists.
  - rewrite GroupObjectIdsByStoreProvider_spec, !(right_id_L ∅ (∪)).
    rewrite bool_decide_eq_false_2.
    + by eexists.
    + rewrite group_sizes. intros Heq. by apply Hdup, size_list_to_set_NoDup.
Qed.

(** ** Put *)

(** The caller id the facade reports in state [s]. *)
Definition caller_id_of (s : CoreWorker W) : TaskID :=
  if ActorID_IsNil (actor_id_ s) then main_thread_task_id_ s
  else TaskID_ForActorCreationTask env (actor_id_ s).

Lemma GetCallerId_spec s : GetCallerId env s = Returned (caller_id_of s) s.
Proof.
  unfold GetCallerId, caller_id_of, bind, get, ret.
  by destruct (ActorID_IsNil (actor_id_ s)).
Qed.

(** C8.  The id-allocating [Put] never blocks.  Its ObjectID is built from
    the current task id and the next put index with the RAYLET tag; the
    caller is recorded as the owner in the reference counter first, the
    object is then put into plasma, and the raylet is asked to pin the id
    only after the plasma put succeeded: when the put fails, its status is
    returned and no pin request is made. *)
Theorem Put_new_owns_puts_then_pins object contained_object_ids s :
  let object_id :=
    ObjectID_ForPut (GetCurrentTaskID (worker_context_ s))
                    (put_index_ (worker_context_ s) + 1) RAYLET in
  let owner := caller_id_of s in
  let address := rpc_address_ s in
  let put :=
    plasma_store_provider_Put env object object_id
      (reference_counter_AddOwnedObject env object_id owner address (world s)) in
  let owned_and_put :=
    [EvAddOwnedObject object_id owner address; EvPlasmaPut object object_id] in
  match Put_new env object contained_object_ids s with
  | Returned (st, id) s' =>
      id = object_id /\
      put_index_ (worker_context_ s') = put_index_ (worker_context_ s) + 1 /\
      if ok put.1
      then st = Status_OK /\
           calls s' = calls s ++ owned_and_put ++ [EvPinObjectIDs address [object_id]]
      else st = put.1 /\ calls s' = calls s ++ owned_and_put /\ world s' = put.2
  | Aborted _ s' =>
      ok put.1 = true /\
      ok (local_raylet_client_PinObjectIDs env address [object_id] put.2).1 = false /\
      calls s' = calls s ++ owned_and_put ++ [EvPinObjectIDs address [object_id]]
  | Blocked _ => False
  end.
Proof.
  intros object_id owner address put owned_and_put.
  cbv beta iota zeta delta [Put_new Put bind get GetNextPutIndex modify ret
                              call_void call RAY_CHECK_OK RAY_CHECK].
  rewrite GetCallerId_spec. simpl.
  fold object_id.

  change (caller_id_of _) with owner. fold address.
  fold put. destruct put as [st_put w1] eqn:Hput. simpl.
  destruct (ok st_put) eqn:Hok; simpl.
  - destruct (local_raylet_client_PinObjectIDs env address [object_id] w1)
      as [st_pin w2] eqn:Hpin. simpl.
    destruct (ok st_pin) eqn:Hokpin; simpl.
    + repeat split; try done. by rewrite <- !app_assoc.
    + repeat split; try done. by rewrite <- !app_assoc.
  - repeat split; try done. by rewrite <- !app_assoc.
Qed.

(** ** SubmitActorTask on a dead actor *)

Lemma return_ids_last (f : nat -> ObjectID) n :
  last (f <$> seq 0 (n + 1)) = Some (f n).
Proof.
  rewrite seq_app, fmap_app. change (f <$> seq (0 + n) 1) with [f n].
  apply last_snoc.
Qed.

Lemma return_ids_removelast (f : nat -> ObjectID) n :
  removelast (f <$> seq 0 (n + 1)) = f <$> seq 0 n.
Proof.
  rewrite seq_app, fmap_app. change (f <$> seq (0 + n) 1) with [f n].
  apply removelast_last.
Qed.

(** C1 (amended).  [SubmitActorTask] on a handle that is dead and
    direct-call records the pending task, fails it at once through
    [PendingTaskFailed] with ACTOR_DIED and the IOError status "sent task
    to dead actor", never reaches the actor submitter, and returns the OK
    status to the caller with the return ids stripped of the cursor. *)
Theorem SubmitActorTask_dead_actor actor_id function args task_options
    return_ids s h :
  actor_handles_ s !! actor_id = Some h ->
  IsDirectCallActor h = true ->
  IsDead h = true ->
  exists task_spec ids s',
    SubmitActorTask env actor_id function args task_options return_ids s
    = Returned (Status_OK, ids) s' /\
    length ids = num_returns task_options /\
    calls s'
    = calls s ++
      [EvAddPendingTask (caller_id_of s) (rpc_address_ s) task_spec 0;
       EvPendingTaskFailed (TaskId task_spec) ACTOR_DIED
         (Some (Status_IOError "sent task to dead actor"))] /\
    TaskId task_spec
    = TaskID_ForActorTask env (GetCurrentJobID (worker_context_ s))
        (GetCurrentTaskID (worker_context_ s))
        (task_index_ (worker_context_ s) + 1) (GetActorID h) /\
    exists h', actor_handles_ s' !! actor_id = Some h' /\ IsDead h' = true.
Proof.
  intros Hh Hdirect Hdead.
  cbv beta iota zeta delta [SubmitActorTask GetActorHandle bind get ret].
  rewrite Hh.
  cbv beta iota zeta delta [GetNextTaskIndex bind get ret modify].
  rewrite !GetCallerId_spec.
  cbv beta iota zeta delta [BuildCommonTaskSpec].
  rewrite return_ids_last, return_ids_removelast.
  cbv beta iota zeta delta [SetActorTaskSpec store_handle bind get ret modify
                              call_void].
  rewrite Hdirect, GetCallerId_spec.
  cbv beta iota zeta delta [bind call_void ret].
  replace (IsDead _) with true by (symmetry; exact Hdead).
  simpl.
  match goal with
  | |- context [EvAddPendingTask _ _ ?spec 0] => exists spec
  end.
  eexists _, _. split; [reflexivity|].
  split; [by rewrite length_fmap, length_seq|].
  split; [simpl; by rewrite <- app_assoc|].
  split; [reflexivity|].
  simpl. eexists. split; [apply lookup_insert_eq|]. exact Hdead.
Qed.

(** ** The actor handle table *)

Lemma AddActorHandle_spec h s :
  match AddActorHandle env h s with
  | Returned inserted s' =>
      inserted = bool_decide (actor_handles_ s !! GetActorID h = None) /\
      actor_handles_ s'
      = (if inserted then <[GetActorID h := h]> (actor_handles_ s)
         else actor_handles_ s) /\
      actor_id_ s' = actor_id_ s
  | Aborted _ _ => actor_handles_ s !! GetActorID h = None
  | Blocked _ => False
  end.
Proof.
  cbv beta iota zeta delta [AddActorHandle bind get ret modify call RAY_CHECK_OK
                              RAY_CHECK].
  destruct (bool_decide (actor_handles_ s !! GetActorID h = None)) eqn:Hins.
  - simpl. destruct (gcs_client_Actors_AsyncSubscribe env _ _) as [st w].
    destruct (ok st); simpl; [done|]. by apply bool_decide_eq_true in Hins.
  - done.
Qed.

Lemma unsubscribe_all_handles handles s s' :
  unsubscribe_all env handles s = Returned tt s' ->
  actor_handles_ s' = actor_handles_ s /\ actor_id_ s' = actor_id_ s.
Proof.
  revert s. induction handles as [|handle rest IH]; intros s; simpl.
  - unfold ret. by intros [= <-].
  - cbv beta iota zeta delta [bind call RAY_CHECK_OK RAY_CHECK].
    destruct (gcs_client_Actors_AsyncUnsubscribe env _ _) as [st w].
    destruct (ok st); [|done]. intros H. by apply IH in H as [-> ->].
Qed.

Lemma SetCurrentTaskId_handles task_id s s' :
  SetCurrentTaskId env task_id s = Returned tt s' ->
  actor_handles_ s'
  = if ActorID_IsNil (actor_id_ s) && TaskID_IsNil task_id then ∅
    else actor_handles_ s.
Proof.
  cbv beta iota zeta delta [SetCurrentTaskId WorkerContext_SetCurrentTaskId bind
                              get ret modify].
  simpl. destruct (ActorID_IsNil (actor_id_ s) && TaskID_IsNil task_id).
  - destruct (unsubscribe_all _ _ _) as [[] s1| |] eqn:Hu; try done.
    by intros [= <-].
  - by intros [= <-].
Qed.

(** C2 (amended).  A registered handle stays in the table of the process
    through every operation that writes the table, also when the actor is
    reported DEAD (the handle is then marked dead, not erased), except
    through [SetCurrentTaskId] with a nil task id in a process that is not
    an actor, which clears the table. *)
Theorem actor_handle_retained op actor_id s s' :
  is_Some (actor_handles_ s !! actor_id) ->
  run_table_op env op s = Returned tt s' ->
  clears_table op s = false ->
  is_Some (actor_handles_ s' !! actor_id) /\
  (forall address, op = OpActorNotification actor_id DEAD address ->
     exists h, actor_handles_ s' !! actor_id = Some h /\ IsDead h = true).
Proof.
  intros Hin Hrun Hclear.
  destruct op as [function args options|serialized|a state address
                  |a function args task_options return_ids|task_id|a];
    simpl in Hrun, Hclear.
  - (* CreateActor *)
    split; [|done].
    cbv beta iota zeta delta [CreateActor GetNextTaskIndex bind get ret modify]
      in Hrun.
    rewrite GetCallerId_spec in Hrun. simpl in Hrun.
    match type of Hrun with
    | context [AddActorHandle env ?h ?s0] =>
        pose proof (AddActorHandle_spec h s0) as Hadd;
        destruct (AddActorHandle env h s0) as [inserted s1| |] eqn:Ha
    end; try done.
    destruct Hadd as (_ & Hs1 & _). simpl in Hs1.
    assert (is_Some (actor_handles_ s1 !! actor_id)) as Hs1in.
    { rewrite Hs1. destruct inserted; [|done].
      apply lookup_insert_is_Some'. by right. }
    cbv beta iota zeta delta [RAY_CHECK bind call_void call ret] in Hrun.
    destruct inserted; [|done].
    destruct (aco_is_direct_call options).
    + rewrite GetCallerId_spec in Hrun.
      destruct (direct_task_submitter_SubmitTask env _ _) in Hrun.
      by injection Hrun as <-.
    + destruct (local_raylet_client_SubmitTask env _ _) in Hrun.
      by injection Hrun as <-.
  - (* DeserializeAndRegisterActorHandle *)
    split; [|done].
    cbv beta iota zeta delta [DeserializeAndRegisterActorHandle bind ret] in Hrun.
    match type of Hrun with
    | context [AddActorHandle env ?h ?s0] =>
        pose proof (AddActorHandle_spec h s0) as Hadd;
        destruct (AddActorHandle env h s0) as [inserted s1| |] eqn:Ha
    end; try done.
    destruct Hadd as (_ & Hs1 & _). injection Hrun as <-.
    rewrite Hs1. destruct inserted; [|done].
    apply lookup_insert_is_Some'. by right.
  - (* the notification callback *)
    destruct state; simpl in Hrun.
    + cbv beta iota zeta delta [call_void] in Hrun. injection Hrun as <-.
      split; [done|]. by intros ? [=].
    + cbv beta iota zeta delta [bind get ret call_void store_handle modify]
        in Hrun.
      destruct (actor_handles_ s !! a) as [h|] eqn:Hh; [|done].
      split; [|by intros ? [=]].
      destruct (IsDirectCallActor h); injection Hrun as <-; simpl; [|done].
      apply lookup_insert_is_Some'. by right.
    + cbv beta iota zeta delta [bind get ret call_void store_handle modify
                                  GetActorHandle] in Hrun.
      simpl in Hrun.
      destruct (actor_handles_ s !! a) as [h|] eqn:Hh; [|done].
      injection Hrun as <-. simpl. split.
      * apply lookup_insert_is_Some'. by right.
      * intros address' [= ->]. eexists. split; [apply lookup_insert_eq|done].
  - (* SubmitActorTask *)
    split; [|done].
    cbv beta iota zeta delta [SubmitActorTask GetActorHandle bind get ret] in Hrun.
    destruct (actor_handles_ s !! a) as [h|] eqn:Hh.
    + cbv beta iota zeta delta [GetNextTaskIndex bind get ret modify] in Hrun.
      rewrite !GetCallerId_spec in Hrun.
      cbv beta iota zeta delta [BuildCommonTaskSpec] in Hrun.
      rewrite return_ids_last in Hrun.
      cbv beta iota zeta delta [SetActorTaskSpec store_handle bind get ret modify
                                  call_void call RAY_CHECK_OK RAY_CHECK] in Hrun.
      assert (forall x, is_Some (<[a := x]> (actor_handles_ s) !! actor_id)) as Hkeep.
      { intros x. apply lookup_insert_is_Some'. by right. }
      destruct (IsDirectCallActor h).
      * rewrite GetCallerId_spec in Hrun.
        cbv beta iota zeta delta [bind call_void call ret] in Hrun.
        match type of Hrun with
        | context [if ?c then _ else _] => destruct c
        end.
        -- injection Hrun as <-. apply Hkeep.
        -- destruct (direct_actor_submitter_SubmitTask env _ _) in Hrun.
           injection Hrun as <-. apply Hkeep.
      * destruct (local_raylet_client_SubmitTask env _ _) as [st w] in Hrun.
        destruct (ok st); [|done]. injection Hrun as <-. apply Hkeep.
    + by injection Hrun as <-.
  - (* SetCurrentTaskId *)
    split; [|done]. apply SetCurrentTaskId_handles in Hrun.
    by rewrite Hrun, Hclear.
  - (* SetActorId *)
    split; [|done].
    cbv beta iota zeta delta [SetActorId bind get ret modify RAY_CHECK] in Hrun.
    destruct (ActorID_IsNil (actor_id_ s)); [|done]. by injection Hrun as <-.
Qed.

Lemma CreateActor_registers function args options s st actor_id s' :
  CreateActor env function args options s = Returned (st, actor_id) s' ->
  is_Some (actor_handles_ s' !! actor_id).
Proof.
  intros Hrun.
  cbv beta iota zeta delta [CreateActor GetNextTaskIndex bind get ret modify]
    in Hrun.
  rewrite GetCallerId_spec in Hrun. simpl in Hrun.
  match type of Hrun with
  | context [AddActorHandle env ?h ?s0] =>
      pose proof (AddActorHandle_spec h s0) as Hadd;
      destruct (AddActorHandle env h s0) as [inserted s1| |] eqn:Ha
  end; try done.
  destruct Hadd as (_ & Hs1 & _). simpl in Hs1.
  cbv beta iota zeta delta [RAY_CHECK bind call_void call ret] in Hrun.
  destruct inserted; [|done].
  destruct (aco_is_direct_call options).
  - rewrite GetCallerId_spec in Hrun.
    destruct (direct_task_submitter_SubmitTask env _ _) in Hrun.
    injection Hrun as <- <- <-. simpl. rewrite Hs1. by rewrite lookup_insert_eq.
  - destruct (local_raylet_client_SubmitTask env _ _) in Hrun.
    injection Hrun as <- <- <-. simpl. rewrite Hs1. by rewrite lookup_insert_eq.
Qed.

Lemma DeserializeAndRegisterActorHandle_registers serialized s actor_id s' :
  DeserializeAndRegisterActorHandle env serialized s = Returned actor_id s' ->
  is_Some (actor_handles_ s' !! actor_id).
Proof.
  intros Hrun.
  cbv beta iota zeta delta [DeserializeAndRegisterActorHandle bind ret] in Hrun.
  match type of Hrun with
  | context [AddActorHandle env ?h ?s0] =>
      pose proof (AddActorHandle_spec h s0) as Hadd;
      destruct (AddActorHandle env h s0) as [inserted s1| |] eqn:Ha
  end; try done.
  destruct Hadd as (Hins & Hs1 & _). injection Hrun as <- <-.
  rewrite Hs1. destruct inserted.
  - by rewrite lookup_insert_eq.
  - symmetry in Hins. apply bool_decide_eq_false in Hins.
    by apply not_eq_None_Some.
Qed.

(** ** The internal heartbeat *)

Definition time_of (s : CoreWorker W) : Z := current_time_ms env (world s).

Definition by_deadline (a b : Z * TaskSpecification) : Prop := a.1 <= b.1.

(** The queue as the retry callback builds it under a clock that does
    not run backwards: deadlines in order, none further than five seconds
    ahead. *)
Definition resubmit_queue_ok (s : CoreWorker W) : Prop :=
  StronglySorted by_deadline (to_resubmit_ s) /\
  Forall (fun e => e.1 <= time_of s + 5000) (to_resubmit_ s).

Definition submit_keeps_time : Prop :=
  forall spec w,
    current_time_ms env w
    <= current_time_ms env (direct_task_submitter_SubmitTask env spec w).2.

Lemma retry_callback_spec spec s :
  retry_callback env spec s
  = Returned tt (set_to_resubmit (to_resubmit_ s ++ [(time_of s + 5000, spec)]) s).
Proof. reflexivity. Qed.

Lemma StronglySorted_snoc {A} (R : A -> A -> Prop) l x :
  StronglySorted R l -> Forall (fun y => R y x) l -> StronglySorted R (l ++ [x]).
Proof.
  induction 1 as [|y l Hl IH Hy]; intros Hx; simpl.
  - repeat constructor.
  - apply Forall_cons in Hx as [Hyx Hx]. constructor; [by apply IH|].
    apply Forall_app. split; [done|]. by repeat constructor.
Qed.

Lemma resubmit_queue_ok_empty s : to_resubmit_ s = [] -> resubmit_queue_ok s.
Proof. intros Hq. unfold resubmit_queue_ok. rewrite Hq. split; constructor. Qed.

Lemma resubmit_queue_ok_retry_callback spec s :
  resubmit_queue_ok s ->
  exists s', retry_callback env spec s = Returned tt s' /\ resubmit_queue_ok s'.
Proof.
  intros [Hsorted Hbound]. eexists. split; [apply retry_callback_spec|].
  split; simpl.
  - apply StronglySorted_snoc; [done|]. exact Hbound.
  - apply Forall_app. split; [exact Hbound|]. repeat constructor.
    unfold time_of. simpl. lia.
Qed.

Lemma InternalHeartbeat_loop_spec q s :
  submit_keeps_time ->
  StronglySorted by_deadline q ->
  match InternalHeartbeat_loop env q s with
  | Returned _ s' =>
      exists due rest,
        q = due ++ rest /\
        calls s' = calls s ++ ((fun e => EvDirectTaskSubmit e.2) <$> due) /\
        to_resubmit_ s' = (if due is [] then to_resubmit_ s else rest) /\
        Forall (fun e => e.1 < time_of s') due /\
        Forall (fun e => time_of s' <= e.1) rest /\
        time_of s <= time_of s' /\
        internal_timer_expiry s' = internal_timer_expiry s
  | Aborted _ s' =>
      exists spec w, ok (direct_task_submitter_SubmitTask env spec w).1 = false
  | Blocked _ => False
  end.
Proof.
  intros Hmono. revert s. induction q as [|front rest IH]; intros s Hsorted.
  - simpl. exists [], []. simpl. rewrite app_nil_r.
    repeat split; try done; constructor.
  - apply StronglySorted_inv in Hsorted as [Hrest Hfront].
    cbn [InternalHeartbeat_loop].
    cbv beta iota zeta delta [bind now get ret call RAY_CHECK_OK RAY_CHECK modify].
    destruct (front.1 <? current_time_ms env (world s)) eqn:Hdue.
    + destruct (direct_task_submitter_SubmitTask env front.2 (world s))
        as [st w] eqn:Hsubmit.
      destruct (ok st) eqn:Hok; [|by exists front.2, (world s); rewrite Hsubmit].
      specialize (IH (set_to_resubmit rest
                        (set_world w (log (EvDirectTaskSubmit front.2) s))) Hrest).
      destruct (InternalHeartbeat_loop env rest _) as [[] s'| |]; try done.
      destruct IH as (due & rest' & -> & Hcalls & Hq & Hdue' & Hrest' & Htime & Hexp).
      exists (front :: due), rest'. simpl in *.
      assert (time_of s <= current_time_ms env w) as Hstep.
      { pose proof (Hmono front.2 (world s)) as Hm. rewrite Hsubmit in Hm.
        exact Hm. }
      unfold time_of in *. simpl in *.
      repeat split; try done.
      * by rewrite Hcalls, <- app_assoc.
      * by destruct due.
      * constructor; [|done]. apply Z.ltb_lt in Hdue. lia.
      * lia.
    + exists [], (front :: rest). simpl. rewrite app_nil_r.
      apply Z.ltb_ge in Hdue. repeat split; try done.
      constructor; [done|].
      eapply Forall_impl; [exact Hfront|]. unfold by_deadline, time_of.
      intros e He. simpl in He. lia.
Qed.

(** C9.  Under a clock that does not run backwards, a heartbeat tick never
    blocks and, unless a resubmission fails, it resubmits through the
    DirectTaskSubmitter, in queue order, and removes from [to_resubmit_]
    every entry whose deadline has passed (the deadline being the time of
    the retry callback plus 5000 ms); no entry left in the queue is past
    its deadline; and the timer is re-armed at its previous expiry plus
    1000 ms, whatever the current time. *)
Theorem InternalHeartbeat_drains_due s :
  submit_keeps_time ->
  resubmit_queue_ok s ->
  (forall spec,
     retry_callback env spec s
     = Returned tt
         (set_to_resubmit (to_resubmit_ s ++ [(time_of s + 5000, spec)]) s)) /\
  match InternalHeartbeat env s with
  | Returned _ s' =>
      exists due,
        to_resubmit_ s = due ++ to_resubmit_ s' /\
        calls s' = calls s ++ ((fun e => EvDirectTaskSubmit e.2) <$> due) /\
        (forall e, e ∈ to_resubmit_ s -> e.1 < time_of s -> e ∈ due) /\
        (forall e, e ∈ to_resubmit_ s' -> time_of s' <= e.1) /\
        internal_timer_expiry s' = internal_timer_expiry s + 1000 /\
        resubmit_queue_ok s'
  | Aborted _ _ =>
      exists spec w, ok (direct_task_submitter_SubmitTask env spec w).1 = false
  | Blocked _ => False
  end.
Proof.
  intros Hmono [Hsorted Hbound]. split; [intros; apply retry_callback_spec|].
  unfold InternalHeartbeat.
  cbv beta iota zeta delta [bind get ret modify].
  pose proof (InternalHeartbeat_loop_spec (to_resubmit_ s) s Hmono Hsorted) as Hloop.
  destruct (InternalHeartbeat_loop env (to_resubmit_ s) s) as [[] s1| |]; try done.
  destruct Hloop as (due & rest & Hq & Hcalls & Hq1 & Hdue & Hrest & Htime & Hexp).
  assert (to_resubmit_ s1 = rest) as Hq1'.
  { rewrite Hq1. destruct due; [|done]. by rewrite Hq. }
  exists due. simpl. unfold time_of in *. simpl.
  repeat split.
  - by rewrite Hq1'.
  - done.
  - intros e He Hlate. rewrite Hq in He. apply elem_of_app in He as [He|He]; [done|].
    rewrite Forall_forall in Hrest. specialize (Hrest e He). lia.
  - intros e He. rewrite Hq1' in He. rewrite Forall_forall in Hrest. by apply Hrest.
  - unfold kInternalHeartbeatMillis. lia.
  - simpl. rewrite Hq1'. rewrite Hq in Hsorted.
    by apply StronglySorted_app_1_r in Hsorted.
  - unfold time_of. simpl. rewrite Hq1'. rewrite Hq in Hbound.
    apply Forall_app in Hbound as [_ Hb].
    eapply Forall_impl; [exact Hb|]. simpl. intros e He. lia.
Qed.

Lemma resubmit_queue_ok_later s s' :
  resubmit_queue_ok s ->
  to_resubmit_ s' = to_resubmit_ s ->
  time_of s <= time_of s' ->
  resubmit_queue_ok s'.
Proof.
  intros [Hsorted Hbound] Hq Ht. unfold resubmit_queue_ok. rewrite Hq.
  split; [done|]. eapply Forall_impl; [exact Hbound|]. simpl. intros e He. lia.
Qed.

(** ** Get: assembling the results *)




(** ** Get: which store is asked for which id *)

(** The ids whose entry in a result map carries the OBJECT_IN_PLASMA
    marker. *)
Definition promoted (result_map : ResultMap) : ObjectSet :=
  dom (filter (fun entry : ObjectID * RayObject => IsInPlasmaError entry.2 = true)
              result_map).

Lemma elem_of_promoted result_map id :
  id ∈ promoted result_map <->
  exists object, result_map !! id = Some object /\ IsInPlasmaError object = true.
Proof.
  unfold promoted. rewrite elem_of_dom. split.
  - intros [object [Hl Hm]%map_lookup_filter_Some]. by exists object.
  - intros (object & Hl & Hm). exists object. by apply map_lookup_filter_Some.
Qed.

Lemma insert_in_plasma_ids_spec result_map plasma_object_ids :
  insert_in_plasma_ids result_map plasma_object_ids
  = plasma_object_ids ∪ promoted result_map.
Proof.
  apply set_eq. intros id. rewrite elem_of_union, elem_of_promoted.
  unfold insert_in_plasma_ids.
  transitivity (id ∈ plasma_object_ids \/
                exists object, (id, object) ∈ map_to_list result_map /\
                               IsInPlasmaError object = true).
  - induction (map_to_list result_map) as [|[id' object'] l IH]; simpl.
    + split; [by left|]. intros [?|(? & []%elem_of_nil & _)]. done.
    + destruct (IsInPlasmaError object') eqn:Hm.
      * rewrite elem_of_union, elem_of_singleton, IH. split.
        -- intros [->|[?|(o & Hin & Ho)]]; [right|by left|right].
           ++ exists object'. split; [apply elem_of_cons; by left|done].
           ++ exists o. split; [apply elem_of_cons; by right|done].
        -- intros [?|(o & [[= -> ->]|Hin]%elem_of_cons & Ho)]; [right; by left|by left|].
           right. right. by exists o.
      * rewrite IH. split.
        -- intros [?|(o & Hin & Ho)]; [by left|right].
           exists o. split; [apply elem_of_cons; by right|done].
        -- intros [?|(o & [[= -> ->]|Hin]%elem_of_cons & Ho)]; [by left|congruence|].
           right. by exists o.
  - split; (intros [?|(o & Hin & Ho)]; [by left|right]); exists o;
      (split; [|done]).
    + by apply elem_of_map_to_list in Hin.
    + by apply elem_of_map_to_list.
Qed.

Lemma Get_fill_state result_map ids : forall i acc s,
  final_state (Get_fill (W := W) result_map ids i acc s) = s.
Proof.
  induction ids as [|id rest IH]; intros i [[results missing] will_throw] s.
  - done.
  - cbn [Get_fill]. destruct (result_map !! id) as [object|]; [|apply IH].
    cbv beta iota zeta delta [bind RAY_CHECK].
    destruct (negb (IsInPlasmaError object)); [apply IH|done].
Qed.

(** What the memory store answers to the lookup [Get] makes, if it makes
    one: nothing is fetched when there is no DIRECT id. *)
Definition memory_answer (ids : list ObjectID) (timeout_ms : Z) (s : CoreWorker W)
    : option (Status * ResultMap * bool * W) :=
  if bool_decide (direct_ids ids ≠ ∅)
  then memory_store_Get env (direct_ids ids) timeout_ms ∅ false (world s)
  else Some (Status_OK, ∅, false, world s).

Lemma final_state_bind {A B} (m : M (W := W) A) (k : A -> M B) s :
  final_state (bind m k s)
  = match m s with
    | Returned a s' => final_state (k a s')
    | Aborted _ s' => s'
    | Blocked s' => s'
    end.
Proof. unfold bind. by destruct (m s). Qed.

Lemma Get_assemble_state result_map ids timeout_ms results (s : CoreWorker W) :
  final_state
    ((let* (results, missing_result, will_throw_exception) :=
        Get_fill (W := W) result_map ids 0 (results, false, false) in
      (if (timeout_ms <? 0) && negb will_throw_exception
       then RAY_CHECK (negb missing_result) "!missing_result"
       else ret tt) ;;;
      ret (Status_OK, results)) s)
  = s.
Proof.
  rewrite final_state_bind.
  pose proof (Get_fill_state result_map ids 0 (results, false, false) s) as Hfill.
  destruct (Get_fill result_map ids 0 _ s)
    as [[[results2 missing] will_throw] s3|c s3|s3]; simpl in Hfill; subst s3;
    [|done|done].
  rewrite final_state_bind. unfold RAY_CHECK, ret.
  by destruct ((timeout_ms <? 0) && negb will_throw), (negb missing).
Qed.

Lemma Get_calls ids timeout_ms results s :
  exists t,
    calls (final_state (Get env ids timeout_ms results s))
    = calls s
      ++ (if bool_decide (direct_ids ids ≠ ∅)
          then [EvMemoryGet (direct_ids ids) timeout_ms] else [])
      ++ match memory_answer ids timeout_ms s with
         | Some (st, result_map, false, _) =>
             if ok st
             then [EvPlasmaGet (raylet_ids ids ∪ promoted result_map) t]
             else []
         | _ => []
         end.
Proof.
  unfold Get, memory_answer.
  rewrite GroupObjectIdsByStoreProvider_spec, !(right_id_L ∅ (∪)).
  rewrite final_state_bind. unfold now at 1, get at 1.
  rewrite final_state_bind.
  assert (forall (s1 : CoreWorker W) result_map,
    exists t,
      calls (final_state
        ((let* (st, result_map, got_exception) :=
            (let plasma_object_ids :=
               insert_in_plasma_ids result_map (raylet_ids ids) in
             let* t := now env in
             let local_timeout_ms :=
               if 0 <=? timeout_ms
               then Z.max 0 (timeout_ms - (t - current_time_ms env (world s)))
               else timeout_ms in
             call_blocking (EvPlasmaGet plasma_object_ids local_timeout_ms)
               (plasma_store_provider_Get env plasma_object_ids local_timeout_ms
                  result_map false)) in
          if negb (ok st) then ret (st, resize (length ids) None results) else
          let* (results, missing_result, will_throw_exception) :=
            Get_fill result_map ids 0
                     (resize (length ids) None results, false, false) in
          (if (timeout_ms <? 0) && negb will_throw_exception
           then RAY_CHECK (negb missing_result) "!missing_result"
           else ret tt) ;;;
          ret (Status_OK, results)) s1))
      = calls s1 ++ [EvPlasmaGet (raylet_ids ids ∪ promoted result_map) t]) as Hplasma.
  { intros s1 result_map. cbv zeta. rewrite insert_in_plasma_ids_spec.
    eexists. rewrite final_state_bind.
    unfold bind at 1, now, get, call_blocking.
    destruct (plasma_store_provider_Get env _ _ _ _ _)
      as [[[[st2 rm2] exc2] w2]|]; [|reflexivity].
    destruct (ok st2); simpl; [|reflexivity].
    by rewrite Get_assemble_state. }
  destruct (bool_decide (direct_ids ids ≠ ∅)).
  - unfold call_blocking at 1.
    destruct (memory_store_Get env (direct_ids ids) timeout_ms ∅ false (world s))
      as [[[[st1 rm1] exc1] w1]|]; [|exists 0; reflexivity].
    destruct (ok st1) eqn:Hok1; simpl.
    + destruct exc1; simpl.
      * exists 0. rewrite final_state_bind. unfold ret at 1. simpl.
        by rewrite Get_assemble_state.
      * destruct (Hplasma (set_world w1 (log (EvMemoryGet (direct_ids ids) timeout_ms) s))
                          rm1) as [t Ht].
        exists t. cbv zeta in Ht. rewrite Ht. simpl. by rewrite <- app_assoc.
    + exists 0. by destruct exc1.
  - unfold ret at 1. simpl. destruct (Hplasma s ∅) as [t Ht].
    exists t. cbv zeta in Ht. by rewrite Ht.
Qed.

Lemma elem_of_direct_ids ids id :
  id ∈ direct_ids ids <-> id ∈ ids /\ IsDirectCallType id = true.
Proof.
  unfold direct_ids. rewrite elem_of_list_to_set, list_elem_of_filter. tauto.
Qed.

Lemma elem_of_raylet_ids ids id :
  id ∈ raylet_ids ids <-> id ∈ ids /\ IsDirectCallType id = false.
Proof.
  unfold raylet_ids. rewrite elem_of_list_to_set, list_elem_of_filter. tauto.
Qed.

(** Store dispatch of [Get].  Along a call, the memory store is asked first,
    for the DIRECT-tagged ids of the list and for no other id; the plasma
    store is asked exactly when the memory lookup (if there was one) came
    back OK without reporting an exception, and then for every
    RAYLET-tagged id of the list together with every id whose memory-store
    result carries the OBJECT_IN_PLASMA marker.  No other store lookup is
    made. *)
Theorem Get_store_dispatch ids timeout_ms results s :
  exists new,
    calls (final_state (Get env ids timeout_ms results s)) = calls s ++ new /\
    (direct_ids ids ≠ ∅ ->
     exists rest, new = EvMemoryGet (direct_ids ids) timeout_ms :: rest) /\
    (forall e, e ∈ new ->
       e = EvMemoryGet (direct_ids ids) timeout_ms \/
       exists st result_map w t,
         memory_answer ids timeout_ms s = Some (st, result_map, false, w) /\
         ok st = true /\
         e = EvPlasmaGet (raylet_ids ids ∪ promoted result_map) t) /\
    (forall st result_map w,
       memory_answer ids timeout_ms s = Some (st, result_map, false, w) ->
       ok st = true ->
       exists t, EvPlasmaGet (raylet_ids ids ∪ promoted result_map) t ∈ new).
Proof.
  destruct (Get_calls ids timeout_ms results s) as [t Hcalls].
  eexists. split; [exact Hcalls|]. split_and!.
  - intros Hne. rewrite bool_decide_eq_true_2 by done. by eexists.
  - intros e [He|He]%elem_of_app.
    + left. case_bool_decide; [|by apply elem_of_nil in He].
      by apply list_elem_of_singleton in He.
    + right. destruct (memory_answer ids timeout_ms s) as [[[[st rm] exc] w]|];
        [|by apply elem_of_nil in He].
      destruct exc; [by apply elem_of_nil in He|].
      destruct (ok st) eqn:Hok; [|by apply elem_of_nil in He].
      apply list_elem_of_singleton in He. by exists st, rm, w, t.
  - intros st rm w -> ->. exists t. apply elem_of_app. right.
    by apply list_elem_of_singleton.
Qed.

(** The abort of [Get] does not depend on the stores behind the facade: as
    soon as the memory store answers OK with an exception reported and
    with the marker for one of the ids, no plasma lookup is made and the
    assembly loop dies on its check. *)
Lemma Get_fill_marker result_map ids : forall i acc (s : CoreWorker W),
  (exists id object,
     id ∈ ids /\ result_map !! id = Some object /\ IsInPlasmaError object = true) ->
  Get_fill result_map ids i acc s = Aborted "!pair->second->IsInPlasmaError()" s.
Proof.
  induction ids as [|id rest IH];
    intros i [[results missing] will_throw] s (id' & object & Hin & Hid & Hmarker).
  - by apply elem_of_nil in Hin.
  - cbn [Get_fill]. destruct (result_map !! id) as [o|] eqn:Ho.
    + cbv beta iota zeta delta [bind RAY_CHECK].
      destruct (IsInPlasmaError o) eqn:Hm; simpl; [done|].
      apply IH. apply elem_of_cons in Hin as [->|Hin]; [congruence|].
      by exists id', object.
    + apply IH. apply elem_of_cons in Hin as [->|Hin]; [congruence|].
      by exists id', object.
Qed.

Lemma Get_marker_with_exception ids timeout_ms results s st result_map w id object :
  memory_store_Get env (direct_ids ids) timeout_ms ∅ false (world s)
  = Some (st, result_map, true, w) ->
  ok st = true ->
  id ∈ ids -> IsDirectCallType id = true ->
  result_map !! id = Some object -> IsInPlasmaError object = true ->
  exists s',
    Get env ids timeout_ms results s = Aborted "!pair->second->IsInPlasmaError()" s' /\
    calls s' = calls s ++ [EvMemoryGet (direct_ids ids) timeout_ms].
Proof.
  intros Hget Hok Hin Hdirect Hid Hmarker.
  assert (direct_ids ids ≠ ∅) as Hne.
  { assert (id ∈ direct_ids ids) by (by apply elem_of_direct_ids). set_solver. }
  unfold Get. rewrite GroupObjectIdsByStoreProvider_spec, !(right_id_L ∅ (∪)).
  cbv beta iota zeta delta [bind now get call_blocking ret].
  rewrite bool_decide_eq_true_2 by done. rewrite Hget, Hok. simpl.
  rewrite Get_fill_marker by (by exists id, object).
  eexists. by split.
Qed.

(** ** Wait: reclassifying the ids promoted to plasma *)










End Properties.

(** * The clocked stores *)

Section ClockedProperties.

Import Facade Clocked.

Lemma earliest_elem times t : earliest times = Some t -> t ∈ times.
Proof.
  destruct times as [|t0 rest]; [done|]. simpl. intros [= <-].
  induction rest as [|t1 rest IH]; simpl.
  - apply elem_of_cons. by left.
  - destruct (Z.min_spec t1 (foldr Z.min t0 rest)) as [[_ ->]|[_ ->]].
    + apply elem_of_cons. right. apply elem_of_cons. by left.
    + apply elem_of_cons in IH as [IH|IH].
      * apply elem_of_cons. by left.
      * apply elem_of_cons. right. apply elem_of_cons. by right.
Qed.

Lemma present_at_mono store t t' id :
  t <= t' -> present_at store t id = true -> present_at store t' id = true.
Proof.
  unfold present_at. destruct (store !! id) as [[arrival object]|]; [|done].
  rewrite !Z.leb_le. lia.
Qed.

Lemma elem_of_present_ids store ids t id :
  id ∈ present_ids store ids t <-> id ∈ ids /\ present_at store t id = true.
Proof.
  unfold present_ids. rewrite list_elem_of_In, filter_In, <- list_elem_of_In.
  by rewrite elem_of_elements.
Qed.

Lemma NoDup_present_ids store ids t : NoDup (present_ids store ids t).
Proof.
  unfold present_ids. apply NoDup_ListNoDup, List.NoDup_filter, NoDup_ListNoDup.
  apply NoDup_elements.
Qed.

(** When the wait returns, and at which time. *)
Lemma return_time_spec store ids num timeout_ms start t :
  return_time store ids num timeout_ms start = Some t ->
  start <= t /\
  (0 <= timeout_ms -> t <= start + timeout_ms) /\
  (num <= Z.of_nat (length (present_ids store ids t)) \/
   (0 <= timeout_ms /\ t = start + timeout_ms)).
Proof.
  unfold return_time.
  destruct (earliest (wake_times store ids num start)) as [tw|] eqn:Hearliest.
  - apply earliest_elem in Hearliest. unfold wake_times in Hearliest.
    apply list_elem_of_In, filter_In in Hearliest as [_ Hwake].
    apply andb_true_iff in Hwake as [Hstart Hnum].
    apply Z.leb_le in Hstart, Hnum.
    destruct ((timeout_ms <? 0) || (tw <=? start + timeout_ms)) eqn:Hin.
    + intros [= <-]. split; [done|]. split; [|by left].
      intros Hpos. apply orb_true_iff in Hin as [Hin|Hin].
      * apply Z.ltb_lt in Hin. lia.
      * by apply Z.leb_le in Hin.
    + intros [= <-]. apply orb_false_iff in Hin as [Hneg _].
      apply Z.ltb_ge in Hneg. split; [lia|]. split; [lia|]. by right.
  - destruct (timeout_ms <? 0) eqn:Hneg; [done|]. apply Z.ltb_ge in Hneg.
    intros [= <-]. split; [lia|]. split; [lia|]. by right.
Qed.

(** What a store wait hands back: ids of the candidate set that are
    present when it returns, as many as were asked for, or else all that
    are present at the deadline. *)
Lemma store_Wait_spec (store : World -> Schedule) ids num timeout_ms ready w
    st ready' w' :
  0 <= num ->
  store_Wait store ids num timeout_ms ready w = Some (st, ready', w') ->
  st = Status_OK /\
  memory_objects w' = memory_objects w /\
  plasma_objects w' = plasma_objects w /\
  clock w <= clock w' /\
  (0 <= timeout_ms -> clock w' <= clock w + timeout_ms) /\
  exists reported : ObjectSet,
    ready' = ready ∪ reported /\
    reported ⊆ ids /\
    (forall id, id ∈ reported -> present_at (store w) (clock w') id = true) /\
    (Z.of_nat (size reported) = num \/
     (Z.of_nat (size reported) < num /\
      0 <= timeout_ms /\ clock w' = clock w + timeout_ms /\
      forall id, id ∈ ids -> present_at (store w) (clock w') id = true ->
                 id ∈ reported)).
Proof.
  intros Hnum. unfold store_Wait.
  destruct (return_time (store w) ids num timeout_ms (clock w)) as [t|] eqn:Ht;
    [|done].
  intros [= <- <- <-]. simpl.
  apply return_time_spec in Ht as (Hstart & Hend & Hquota).
  split_and!; try done.
  exists (list_to_set (take (Z.to_nat num) (present_ids (store w) ids t))).
  pose proof (NoDup_present_ids (store w) ids t) as Hnodup.
  split_and!; try done.
  - intros id Hin. apply elem_of_list_to_set in Hin.
    apply subseteq_take in Hin. by apply elem_of_present_ids in Hin as [Hin _].
  - intros id Hin. apply elem_of_list_to_set in Hin.
    apply subseteq_take in Hin. by apply elem_of_present_ids in Hin as [_ Hin].
  - rewrite size_list_to_set
      by (exact (sublist_NoDup _ _ Hnodup (sublist_take _ _))).
    rewrite length_take.
    destruct (decide (Z.to_nat num <= length (present_ids (store w) ids t))%nat)
      as [Hle|Hgt].
    + left. lia.
    + right. destruct Hquota as [Hq|[Hpos Hdeadline]]; [lia|].
      split; [lia|]. split; [done|]. split; [done|].
      intros id Hin Hpresent. apply elem_of_list_to_set.
      rewrite take_ge by lia. by apply elem_of_present_ids.
Qed.

Lemma filter_ext_in {A} (P Q : A -> Prop) `{forall x, Decision (P x)}
    `{forall x, Decision (Q x)} (l : list A) :
  (forall x, x ∈ l -> P x <-> Q x) -> filter P l = filter Q l.
Proof.
  induction l as [|x l IH]; intros Heq; [done|].
  assert (filter P l = filter Q l) as Hl.
  { apply IH. intros y Hy. apply Heq. apply elem_of_cons. by right. }
  destruct (decide (P x)) as [HP|HP].
  - rewrite !filter_cons_True, Hl; try done.
    apply Heq; [apply elem_of_cons; by left|done].
  - rewrite !filter_cons_False, Hl; try done.
    intros HQ. apply HP, Heq; [apply elem_of_cons; by left|done].
Qed.

(** The reclassification over the clocked memory store: the lookups read
    the store as it stands, and the ids moved are the reported ids that
    hold the marker. *)
Lemma RetryObjectInPlasmaErrors_loop_clocked todo : forall memory plasma ready s
    memory' plasma' ready' s',
  NoDup todo ->
  RetryObjectInPlasmaErrors_loop collaborators todo memory plasma ready s
  = Returned (memory', plasma', ready') s' ->
  world s' = world s /\
  let moved : ObjectSet :=
    list_to_set (filter (fun id => id ∈ ready /\ marker_in (world s) id = true) todo) in
  memory' = memory ∖ moved /\ plasma' = moved ∪ plasma /\ ready' = ready ∖ moved.
Proof.
  induction todo as [|mem_id rest IH];
    intros memory plasma ready s memory' plasma' ready' s' Hnodup Hrun.
  - simpl in Hrun. injection Hrun as <- <- <- <-. split; [done|].
    cbv zeta. rewrite filter_nil, list_to_set_nil. set_solver.
  - apply NoDup_cons in Hnodup as [Hfresh Hnodup].
    cbn [RetryObjectInPlasmaErrors_loop] in Hrun. cbv zeta.
    case_bool_decide as Hready.
    + cbv beta iota zeta delta [bind lookup_one RAY_CHECK_OK RAY_CHECK] in Hrun.
      change (memory_store_GetOne collaborators mem_id (world s))
        with (memory_GetOne mem_id (world s)) in Hrun.
      unfold memory_GetOne in Hrun.
      assert (forall ready1 : ObjectSet,
                (forall id, id ∈ rest -> id ∈ ready1 <-> id ∈ ready) ->
                filter (fun id => id ∈ ready1 /\ marker_in (world s) id = true) rest
                = filter (fun id => id ∈ ready /\ marker_in (world s) id = true) rest)
        as Hsame.
      { intros ready1 Heq. apply filter_ext_in.
        intros id Hin. by rewrite (Heq id Hin). }
      destruct (memory_objects (world s) !! mem_id) as [[arrival object]|] eqn:Hentry;
        [|done].
      destruct (arrival <=? clock (world s)); [|done]. simpl in Hrun.
      destruct (IsInPlasmaError object) eqn:Hmarker.
      * apply IH in Hrun as (Hworld & -> & -> & ->); [|done]. simpl in Hworld.
        split; [by destruct s|]. simpl.
        rewrite filter_cons_True
          by (split; [done|]; unfold marker_in; by rewrite Hentry).
        rewrite Hsame by (intros id Hin; set_solver).
        rewrite list_to_set_cons. set_solver.
      * apply IH in Hrun as (Hworld & -> & -> & ->); [|done]. simpl in Hworld.
        split; [by destruct s|]. simpl.
        rewrite filter_cons_False
          by (intros [_ Hm]; unfold marker_in in Hm; rewrite Hentry in Hm; congruence).
        done.
    + apply IH in Hrun as (Hworld & -> & -> & ->); [|done].
      split; [done|]. by rewrite filter_cons_False by (by intros [? _]).
Qed.

Lemma Wait_fill_lookup ready : forall ids i results k id,
  (i + length ids <= length results)%nat ->
  ids !! k = Some id ->
  Wait_fill ready ids i results !! (i + k)%nat
  = Some (if bool_decide (id ∈ ready) then true
          else default false (results !! (i + k)%nat)).
Proof.
  assert (forall ids i results j,
            (j < i)%nat -> Wait_fill ready ids i results !! j = results !! j) as Hbefore.
  { induction ids as [|id ids IH]; intros i results j Hj; simpl; [done|].
    rewrite IH by lia. case_bool_decide; [|done].
    apply list_lookup_insert_ne. lia. }
  induction ids as [|id0 ids IH]; intros i results k id Hlen Hk; [done|].
  simpl in Hlen. destruct k as [|k]; simpl in Hk.
  - injection Hk as ->. simpl. rewrite Nat.add_0_r, Hbefore by lia.
    destruct (lookup_lt_is_Some_2 results i ltac:(lia)) as [b Hb].
    case_bool_decide.
    + apply list_lookup_insert_eq. lia.
    + by rewrite Hb.
  - simpl. replace (i + S k)%nat with (S i + k)%nat by lia.
    rewrite (IH (S i) _ k id); [|case_bool_decide; rewrite ?length_insert; lia|done].
    case_bool_decide as Hid; [done|]. f_equal. f_equal.
    case_bool_decide; [|done]. apply list_lookup_insert_ne. lia.
Qed.

Lemma Wait_fill_length ready : forall ids i results,
  length (Wait_fill ready ids i results) = length results.
Proof.
  induction ids as [|id ids IH]; intros i results; simpl; [done|].
  rewrite IH. case_bool_decide; [apply length_insert|done].
Qed.

Lemma Wait_fill_fresh ready ids :
  Wait_fill ready ids 0 (replicate (length ids) false)
  = (fun id => bool_decide (id ∈ ready)) <$> ids.
Proof.
  apply list_eq. intros k. rewrite list_lookup_fmap.
  destruct (ids !! k) as [id|] eqn:Hk; simpl.
  - rewrite (Wait_fill_lookup ready ids 0 _ k id)
      by (rewrite ?length_replicate; simpl; done || lia).
    simpl. rewrite lookup_replicate_2 by (by apply lookup_lt_Some in Hk).
    by case_bool_decide.
  - apply lookup_ge_None. rewrite Wait_fill_length, length_replicate.
    by apply lookup_ge_None in Hk.
Qed.

Lemma count_true_fmap (ready : ObjectSet) ids :
  NoDup ids ->
  count_true ((fun id => bool_decide (id ∈ ready)) <$> ids)
  = size (ready ∩ list_to_set ids).
Proof.
  unfold count_true. induction 1 as [|id ids Hfresh Hnodup IH].
  - rewrite list_to_set_nil. by rewrite (right_absorb_L ∅ (∩)), size_empty.
  - rewrite fmap_cons, list_to_set_cons. case_bool_decide as Hid.
    + rewrite filter_cons_True by done. simpl. rewrite IH.
      replace (ready ∩ ({[id]} ∪ list_to_set ids))
        with ({[id]} ∪ ready ∩ list_to_set ids) by set_solver.
      rewrite (size_union ({[id]} : ObjectSet)) by set_solver.
      by rewrite size_singleton.
    + rewrite filter_cons_False by done. rewrite IH. f_equal. set_solver.
Qed.

Definition same_stores (w w' : World) : Prop :=
  memory_objects w' = memory_objects w /\ plasma_objects w' = plasma_objects w.

Lemma marker_in_same_stores w w' id :
  same_stores w w' -> marker_in w' id = marker_in w id.
Proof. intros [Hm _]. unfold marker_in. by rewrite Hm. Qed.

Lemma size_int_small (s : ObjectSet) :
  Z.of_nat (size s) < 2147483648 -> size_int s = Z.of_nat (size s).
Proof. intros Hs. apply static_cast_int_id. unfold int_range. lia. Qed.

(** The memory step of a pass over the clocked stores, started with an
    empty ready set. *)
Lemma Wait_memory_step_clocked memory plasma num_objects timeout_ms s
    st memory' plasma' ready' s' :
  1 <= num_objects ->
  Z.of_nat (size memory) < 2147483648 ->
  Wait_memory_step collaborators memory plasma ∅ num_objects timeout_ms s
  = Returned (st, (memory', plasma', ready')) s' ->
  st = Status_OK /\
  same_stores (world s) (world s') /\
  clock (world s) <= clock (world s') /\
  (0 <= timeout_ms -> clock (world s') <= clock (world s) + timeout_ms) /\
  exists reported moved : ObjectSet,
    reported ⊆ memory /\
    (forall id, id ∈ reported ->
       present_at (memory_objects (world s)) (clock (world s')) id = true) /\
    (forall id, id ∈ moved <-> id ∈ reported /\ marker_in (world s) id = true) /\
    memory' = memory ∖ moved /\ plasma' = moved ∪ plasma /\
    ready' = reported ∖ moved /\
    (Z.of_nat (size reported) = Z.min (Z.of_nat (size memory)) num_objects \/
     (0 <= timeout_ms /\ clock (world s') = clock (world s) + timeout_ms /\
      forall id, id ∈ memory ->
        present_at (memory_objects (world s)) (clock (world s')) id = true ->
        id ∈ reported)).
Proof.
  intros Hnum Hsize. unfold Wait_memory_step. case_bool_decide as Hmem.
  - cbv beta iota zeta delta [bind call_blocking ret].
    change (memory_store_Wait collaborators) with (store_Wait memory_objects).
    rewrite size_int_small by done.
    destruct (store_Wait memory_objects memory _ timeout_ms ∅ (world s))
      as [[[st0 ready0] w]|] eqn:Hwait; [|done].
    apply store_Wait_spec in Hwait
        as (-> & Hm & Hp & Hclock & Hdeadline & reported & -> & Hsub & Hpresent & Hquota);
      [|lia].
    simpl. unfold RetryObjectInPlasmaErrors.
    destruct (RetryObjectInPlasmaErrors_loop collaborators _ _ _ _ _)
      as [[[m p] r] s1| |] eqn:Hretry; [|done|done].
    intros [= <- <- <- <- <-].
    apply RetryObjectInPlasmaErrors_loop_clocked in Hretry
        as (Hworld & -> & -> & ->); [|apply NoDup_elements].
    simpl in Hworld. rewrite Hworld.
    split_and!; try done.
    exists reported.
    eexists. split_and!; try done.
    + intros id. rewrite elem_of_list_to_set, list_elem_of_filter, elem_of_elements.
      simpl. rewrite (marker_in_same_stores (world s) w) by done. set_solver.
    + by rewrite (left_id_L ∅ (∪)).
    + destruct Hquota as [Hq|(_ & Hpos & Hd & Hall)]; [by left|by right].
  - unfold ret. intros [= <- <- <- <- <-].
    split_and!; try done; try lia.
    exists ∅, ∅. split_and!; try done; try set_solver.
    left. rewrite size_empty. assert (size memory = 0%nat) as -> by lia. lia.
Qed.

(** The plasma step of a pass over the clocked stores. *)
Lemma Wait_plasma_step_clocked plasma ready num_objects timeout_ms s st ready' s' :
  Z.of_nat (size plasma) < 2147483648 ->
  Z.of_nat (size ready) < 2147483648 ->
  Wait_plasma_step collaborators plasma ready num_objects timeout_ms s
  = Returned (st, ready') s' ->
  st = Status_OK /\
  same_stores (world s) (world s') /\
  clock (world s) <= clock (world s') /\
  (0 <= timeout_ms -> clock (world s') <= clock (world s) + timeout_ms) /\
  exists reported : ObjectSet,
    ready' = ready ∪ reported /\
    reported ⊆ plasma /\
    (forall id, id ∈ reported ->
       present_at (plasma_objects (world s)) (clock (world s')) id = true) /\
    ((num_objects <= Z.of_nat (size ready) \/ size plasma = 0%nat) /\ reported = ∅ \/
     Z.of_nat (size ready) < num_objects /\
     (Z.of_nat (size reported)
      = Z.min (Z.of_nat (size plasma)) (num_objects - Z.of_nat (size ready)) \/
      (0 <= timeout_ms /\ clock (world s') = clock (world s) + timeout_ms /\
       forall id, id ∈ plasma ->
         present_at (plasma_objects (world s)) (clock (world s')) id = true ->
         id ∈ reported))).
Proof.
  intros Hsize Hready. unfold Wait_plasma_step.
  rewrite !size_int_small by done.
  destruct (Z.of_nat (size ready) <? num_objects) eqn:Hless; simpl.
  - apply Z.ltb_lt in Hless. case_bool_decide as Hplasma.
    + unfold call_blocking.
      change (plasma_store_provider_Wait collaborators)
        with (store_Wait plasma_objects).
      destruct (store_Wait plasma_objects plasma _ timeout_ms ready (world s))
        as [[[st0 ready0] w]|] eqn:Hwait; [|done].
      apply store_Wait_spec in Hwait
          as (-> & Hm & Hp & Hclock & Hdeadline & reported & -> & Hsub & Hpresent
              & Hquota); [|lia].
      intros [= <- <- <-]. simpl. split_and!; try done.
      exists reported. split_and!; try done. right. split; [done|].
      destruct Hquota as [Hq|(_ & Hpos & Hd & Hall)]; [by left|]. by right.
    + unfold ret. intros [= <- <- <-]. split_and!; try done; try lia.
      exists ∅. split_and!; try done; try set_solver.
      all: left; split; [|done]; right; lia.
  - apply Z.ltb_ge in Hless. unfold ret. intros [= <- <- <-].
    split_and!; try done; try lia.
    exists ∅. split_and!; try done; try set_solver.
    all: left; split; [|done]; by left.
Qed.

(** The timeout left for the plasma step (lines 595-598); in the first
    pass, where the timeout is 0, it is 0 again. *)
Definition residual (timeout_ms elapsed : Z) : Z :=
  if 0 <? timeout_ms then Z.max 0 (static_cast_int (timeout_ms - elapsed))
  else timeout_ms.

(** One pass over the clocked stores: the memory step, then the plasma
    step with the timeout that is left. *)
Lemma pass_clocked memory plasma num_objects timeout_ms s0
    st1 memory' plasma' ready1 s1 st2 ready2 s2 :
  1 <= num_objects ->
  num_objects <= Z.of_nat (size memory) + Z.of_nat (size plasma) ->
  memory ## plasma ->
  Z.of_nat (size memory) + Z.of_nat (size plasma) < 2147483648 ->
  timeout_ms < 2147483648 ->
  Wait_memory_step collaborators memory plasma ∅ num_objects timeout_ms s0
  = Returned (st1, (memory', plasma', ready1)) s1 ->
  Wait_plasma_step collaborators plasma' ready1 num_objects
    (residual timeout_ms (clock (world s1) - clock (world s0))) s1
  = Returned (st2, ready2) s2 ->
  size_int ready2 <= num_objects ->
  same_stores (world s0) (world s2) /\
  clock (world s0) <= clock (world s2) /\
  (timeout_ms = 0 -> clock (world s2) = clock (world s0)) /\
  (exists moved : ObjectSet,
     moved ⊆ memory /\
     (forall id, id ∈ moved -> marker_in (world s0) id = true) /\
     memory' = memory ∖ moved /\ plasma' = moved ∪ plasma) /\
  ready2 ⊆ memory ∪ plasma /\
  Z.of_nat (size ready2) <= num_objects /\
  (timeout_ms < 0 -> Z.of_nat (size ready2) = num_objects) /\
  (0 <= timeout_ms ->
   let deadline := clock (world s0) + timeout_ms in
   (forall id, id ∈ memory ->
      present_at (memory_objects (world s0)) deadline id = true ->
      marker_in (world s0) id = true ->
      present_at (plasma_objects (world s0)) deadline id = true) ->
   Z.of_nat (size ready2) = num_objects \/
   forall id,
     id ∈ memory /\ present_at (memory_objects (world s0)) deadline id = true \/
     id ∈ plasma /\ present_at (plasma_objects (world s0)) deadline id = true ->
     id ∈ ready2).
Proof.
  intros Hnum Hfits Hdisj Hsmall Htimeout Hmem Hplasma Hcheck.
  apply Wait_memory_step_clocked in Hmem
      as (_ & Hstores1 & Hclock1 & Hdeadline1 & reported & moved & Hreported
          & Hpresent1 & Hmoved & -> & -> & -> & Hquota1); [|done|lia].
  assert (moved ⊆ reported) as Hmoved_sub by (intros id; rewrite Hmoved; tauto).
  pose proof (subseteq_size _ _ Hmoved_sub) as Hsize_moved.
  pose proof (subseteq_size _ _ Hreported) as Hsize_reported.
  assert (size (reported ∖ moved) = (size reported - size moved)%nat) as Hsize1
      by (by apply size_difference).
  assert (size (moved ∪ plasma) = (size moved + size plasma)%nat) as Hsize_plasma'
      by (apply size_union; set_solver).
  apply Wait_plasma_step_clocked in Hplasma
      as (_ & Hstores2 & Hclock2 & Hdeadline2 & reported2 & -> & Hreported2
          & Hpresent2 & Hquota2); [|lia|lia].
  assert (size (reported ∖ moved ∪ reported2)
          = (size (reported ∖ moved) + size reported2)%nat) as Hsize2
      by (apply size_union; set_solver).
  pose proof (subseteq_size _ _ Hreported2) as Hsize_reported2.
  rewrite size_int_small in Hcheck by lia.
  destruct Hstores1 as [Hm1 Hp1]. destruct Hstores2 as [Hm2 Hp2].
  rewrite Hp1 in Hpresent2, Hquota2.
  assert (0 <= timeout_ms ->
          residual timeout_ms (clock (world s1) - clock (world s0))
          = clock (world s0) + timeout_ms - clock (world s1)) as Hresidual.
  { intros Hpos. specialize (Hdeadline1 Hpos). unfold residual.
    destruct (0 <? timeout_ms) eqn:Hlt.
    - rewrite static_cast_int_id by (unfold int_range; lia). lia.
    - apply Z.ltb_ge in Hlt. lia. }
  assert (timeout_ms < 0 ->
          residual timeout_ms (clock (world s1) - clock (world s0)) < 0) as Hunbounded.
  { intros Hneg. unfold residual.
    assert (0 <? timeout_ms = false) as -> by (apply Z.ltb_ge; lia). done. }
  split_and!.
  - split; congruence.
  - lia.
  - intros ->. specialize (Hdeadline1 ltac:(lia)).
    rewrite Hresidual in Hdeadline2 by lia. lia.
  - exists moved. split_and!; try done; [set_solver|].
    intros id Hid. by apply Hmoved in Hid as [_ Hid].
  - set_solver.
  - lia.
  - intros Hneg. specialize (Hunbounded Hneg).
    destruct Hquota1 as [Hq1|(Hpos & _)]; [|lia].
    destruct Hquota2 as [[[Hfull|Hnone] ->]|[Hless [Hq2|(Hpos & _)]]]; lia.
  - intros Hpos deadline Hbacked.
    specialize (Hdeadline1 Hpos). specialize (Hresidual Hpos).
    rewrite Hresidual in Hdeadline2, Hquota2.
    assert (clock (world s2) <= deadline) as Hend by (unfold deadline; lia).
    assert (forall id, id ∈ moved ->
              present_at (plasma_objects (world s0)) deadline id = true)
      as Hmoved_backed.
    { intros id Hid. apply Hmoved in Hid as [Hin Hmarker].
      apply Hbacked; [by apply Hreported| |done].
      eapply present_at_mono; [|by apply Hpresent1]. unfold deadline. lia. }
    destruct Hquota1 as [Hq1|(_ & Hd1 & Hall1)].
    + (* the memory store reported as many as asked *)
      destruct Hquota2 as [[[Hfull|Hnone] ->]|[Hless [Hq2|(_ & Hd2 & Hall2)]]].
      * left. lia.
      * left. lia.
      * left. lia.
      * assert (clock (world s2) = deadline) as Hd by (unfold deadline; lia).
        rewrite Hd in Hall2.
        destruct (decide (num_objects <= Z.of_nat (size memory))) as [Hn|Hn].
        -- left.
           assert (moved ⊆ reported2) as Hcover.
           { intros id Hid. apply Hall2; [set_solver|by apply Hmoved_backed]. }
           pose proof (subseteq_size _ _ Hcover). lia.
        -- right.
           assert (reported = memory) as ->
               by (apply set_subseteq_size_eq; [done|lia]).
           intros id [[Hin Hp]|[Hin Hp]].
           ++ destruct (marker_in (world s0) id) eqn:Hmarker.
              ** apply elem_of_union. right.
                 apply Hall2; [|by apply Hbacked].
                 apply elem_of_union. left. by apply Hmoved.
              ** apply elem_of_union. left. apply elem_of_difference.
                 split; [done|]. rewrite Hmoved. intros [_ ?]. congruence.
           ++ apply elem_of_union. right. apply Hall2; [set_solver|done].
    + (* the memory store waited until the deadline *)
      assert (clock (world s1) = deadline) as Hd1' by (unfold deadline; lia).
      assert (clock (world s2) = deadline) as Hd2' by lia.
      rewrite Hd1' in Hall1. rewrite Hd2' in Hquota2.
      assert (forall id, id ∈ memory ->
                present_at (memory_objects (world s0)) deadline id = true ->
                marker_in (world s0) id = false ->
                id ∈ reported ∖ moved ∪ reported2) as Hplain.
      { intros id Hin Hp Hmarker. apply elem_of_union. left.
        apply elem_of_difference. split; [by apply Hall1|].
        rewrite Hmoved. intros [_ ?]. congruence. }
      assert (forall id, id ∈ memory ->
                present_at (memory_objects (world s0)) deadline id = true ->
                marker_in (world s0) id = true ->
                id ∈ moved) as Hmarked.
      { intros id Hin Hp Hmarker. apply Hmoved. split; [by apply Hall1|done]. }
      destruct Hquota2 as [[[Hfull|Hnone] ->]|[Hless [Hq2|(_ & Hd2 & Hall2)]]].
      * left. lia.
      * right. assert (moved ∪ plasma = ∅) as Hempty
            by (apply leibniz_equiv; by apply size_empty_inv).
        intros id [[Hin Hp]|[Hin Hp]]; [|set_solver].
        destruct (marker_in (world s0) id) eqn:Hmarker; [|by apply Hplain].
        specialize (Hmarked id Hin Hp Hmarker). set_solver.
      * destruct (decide (Z.of_nat (size reported2)
                          = num_objects - Z.of_nat (size (reported ∖ moved))))
          as [Hall|Hsome]; [left; lia|].
        right.
        assert (reported2 = moved ∪ plasma) as ->
            by (apply set_subseteq_size_eq; [done|lia]).
        intros id [[Hin Hp]|[Hin Hp]]; [|set_solver].
        destruct (marker_in (world s0) id) eqn:Hmarker; [|by apply Hplain].
        specialize (Hmarked id Hin Hp Hmarker). set_solver.
      * right. intros id [[Hin Hp]|[Hin Hp]].
        -- destruct (marker_in (world s0) id) eqn:Hmarker; [|by apply Hplain].
           apply elem_of_union. right. apply Hall2; [|by apply Hbacked].
           apply elem_of_union. left. by apply Hmarked.
        -- apply elem_of_union. right. apply Hall2; [set_solver|done].
Qed.

Lemma count_true_Wait_fill (ready : ObjectSet) ids :
  NoDup ids ->
  ready ⊆ list_to_set ids ->
  count_true (Wait_fill ready ids 0 (resize (length ids) false [])) = size ready.
Proof.
  intros Hnodup Hsub.
  rewrite resize_nil, Wait_fill_fresh, count_true_fmap by done.
  f_equal. set_solver.
Qed.

Lemma present_objects_le (present : ObjectID -> bool) ids (ready : ObjectSet) :
  NoDup ids ->
  (forall id, id ∈ ids -> present id = true -> id ∈ ready) ->
  (length (filter (fun id => present id = true) ids) <= size ready)%nat.
Proof.
  intros Hnodup Hcover.
  rewrite <- (size_list_to_set (C := ObjectSet)) by (by apply NoDup_filter).
  apply subseteq_size. intros id Hin.
  apply elem_of_list_to_set, list_elem_of_filter in Hin as [Hp Hin]. by apply Hcover.
Qed.

Lemma object_present_cases w deadline id :
  object_present w deadline id = true ->
  (IsDirectCallType id = true /\
   present_at (memory_objects w) deadline id = true /\
   (marker_in w id = true -> present_at (plasma_objects w) deadline id = true)) \/
  (IsDirectCallType id = false /\
   present_at (plasma_objects w) deadline id = true).
Proof.
  unfold object_present. destruct (IsDirectCallType id); [|by right].
  intros [Hm Hp]%andb_true_iff. left. split_and!; try done.
  intros Hmarker. rewrite Hmarker in Hp. by simpl in Hp.
Qed.

(** How a call to [Wait] that returns OK got there: the first pass, and
    the second when the timeout is not 0 and the first found too few. *)
Lemma Wait_ok_inv ids num_objects timeout_ms s results s' :
  Wait collaborators ids num_objects timeout_ms [] s
  = Returned (Status_OK, results) s' ->
  1 <= num_objects /\
  num_objects <= static_cast_int (Z.of_nat (length ids)) /\
  NoDup ids /\
  exists st1 memory1 plasma1 ready1 s1 st2 ready2 s2,
    Wait_memory_step collaborators (direct_ids ids) (raylet_ids ids) ∅
                     num_objects 0 s
    = Returned (st1, (memory1, plasma1, ready1)) s1 /\
    Wait_plasma_step collaborators plasma1 ready1 num_objects 0 s1
    = Returned (st2, ready2) s2 /\
    size_int ready2 <= num_objects /\
    ((timeout_ms = 0 \/ num_objects <= size_int ready2) /\
     results = Wait_fill ready2 ids 0 (resize (length ids) false []) \/
     timeout_ms <> 0 /\ size_int ready2 < num_objects /\
     exists st3 memory3 plasma3 ready3 s3 st4 ready4 s4,
       Wait_memory_step collaborators memory1 plasma1 ∅ num_objects timeout_ms s2
       = Returned (st3, (memory3, plasma3, ready3)) s3 /\
       Wait_plasma_step collaborators plasma3 ready3 num_objects
         (residual timeout_ms (clock (world s3) - clock (world s2))) s3
       = Returned (st4, ready4) s4 /\
       size_int ready4 <= num_objects /\
       results = Wait_fill ready4 ids 0 (resize (length ids) false [])).
Proof.
  unfold Wait.
  destruct ((num_objects <=? 0)
            || (static_cast_int (Z.of_nat (length ids)) <? num_objects)) eqn:Hrange;
    [done|].
  apply orb_false_iff in Hrange as [Hlow Hhigh].
  apply Z.leb_gt in Hlow. apply Z.ltb_ge in Hhigh.
  rewrite GroupObjectIdsByStoreProvider_spec, !(right_id_L ∅ (∪)).
  case_bool_decide as Hsizes; simpl; [|done].
  rewrite group_sizes in Hsizes. apply size_list_to_set_NoDup in Hsizes.
  cbv beta iota zeta delta [bind ret RAY_CHECK_ready RAY_CHECK].
  destruct (Wait_memory_step collaborators (direct_ids ids) (raylet_ids ids) ∅
                             num_objects 0 s)
    as [[st1 [[memory1 plasma1] ready1]] s1| |] eqn:Hmem; [|done|done].
  destruct (ok st1) eqn:Hok1; simpl; [|intros [= -> _]; done].
  destruct (size_int ready1 <=? num_objects) eqn:Hcheck1; [|done].
  destruct (Wait_plasma_step collaborators plasma1 ready1 num_objects 0 s1)
    as [[st2 ready2] s2| |] eqn:Hplasma; [|done|done].
  destruct (ok st2) eqn:Hok2; simpl; [|intros [= -> _]; done].
  destruct (size_int ready2 <=? num_objects) eqn:Hcheck2; [|done].
  apply Z.leb_le in Hcheck2.
  intros Hrun. split_and!; [lia|done|done|].
  exists st1, memory1, plasma1, ready1, s1, st2, ready2, s2.
  split_and!; try done.
  destruct (negb (timeout_ms =? 0) && (size_int ready2 <? num_objects)) eqn:Hretry.
  - apply andb_true_iff in Hretry as [Hnonzero Hfew].
    apply negb_true_iff, Z.eqb_neq in Hnonzero. apply Z.ltb_lt in Hfew.
    right. split_and!; try done.
    unfold Wait_retry in Hrun.
    cbv beta iota zeta delta [bind now get ret RAY_CHECK_ready RAY_CHECK] in Hrun.
    destruct (Wait_memory_step collaborators memory1 plasma1 ∅ num_objects
                               timeout_ms s2)
      as [[st3 [[memory3 plasma3] ready3]] s3| |] eqn:Hmem3; [|done|done].
    destruct (ok st3) eqn:Hok3; simpl in Hrun;
      [|rewrite Hok3 in Hrun; simpl in Hrun; by injection Hrun as -> _].
    destruct (size_int ready3 <=? num_objects) eqn:Hcheck3; [|done].
    change (current_time_ms collaborators) with clock in Hrun.
    fold (residual timeout_ms (clock (world s3) - clock (world s2))) in Hrun.
    destruct (Wait_plasma_step collaborators plasma3 ready3 num_objects _ s3)
      as [[st4 ready4] s4| |] eqn:Hplasma3; [|done|done].
    destruct (ok st4) eqn:Hok4; simpl in Hrun;
      [|rewrite Hok4 in Hrun; simpl in Hrun; by injection Hrun as -> _].
    destruct (size_int ready4 <=? num_objects) eqn:Hcheck4; [|done].
    apply Z.leb_le in Hcheck4. simpl in Hrun. injection Hrun as <- <-.
    exists st3, memory3, plasma3, ready3, s3, st4, ready4, s4. by split_and!.
  - left. simpl in Hrun. injection Hrun as <- <-. split; [|done].
    apply andb_false_iff in Hretry as [Hzero|Hmany].
    + left. by apply negb_false_iff, Z.eqb_eq in Hzero.
    + right. by apply Z.ltb_ge in Hmany.
Qed.

(** C5 (amended).  Over the clocked stores, for an id list and a timeout
    that fit an [int], a call to [Wait] that returns OK has at most
    [num_objects] true entries; with a negative (unbounded) timeout it has
    exactly [num_objects]; and with a timeout of at least 0 it has at
    least [num_objects] whenever at least [num_objects] of the ids have
    their object present by the deadline, provided every promoted id that
    the memory store shows by the deadline is in the plasma store by the
    deadline. *)
Theorem Wait_at_most_and_at_least ids num_objects timeout_ms s results s' :
  Z.of_nat (length ids) < 2147483648 ->
  timeout_ms < 2147483648 ->
  Wait collaborators ids num_objects timeout_ms [] s
  = Returned (Status_OK, results) s' ->
  Z.of_nat (count_true results) <= num_objects /\
  (timeout_ms < 0 -> Z.of_nat (count_true results) = num_objects) /\
  (0 <= timeout_ms ->
   let deadline := clock (world s) + timeout_ms in
   promoted_backed (world s) deadline ids ->
   num_objects
   <= Z.of_nat (length (filter (fun id => object_present (world s) deadline id = true)
                               ids)) ->
   num_objects <= Z.of_nat (count_true results)).
Proof.
  intros Hlength Htimeout Hrun.
  apply Wait_ok_inv in Hrun
      as (Hnum & Hmost & Hnodup & st1 & memory1 & plasma1 & ready1 & s1 & st2
          & ready2 & s2 & Hmem & Hplasma & Hcheck & Hrest).
  rewrite static_cast_int_id in Hmost by (unfold int_range; lia).
  pose proof (group_sizes ids) as Hgroup.
  rewrite (size_list_to_set (C := ObjectSet)) in Hgroup by done.
  pose proof (direct_raylet_disjoint ids) as Hdisj.
  pose proof (direct_raylet_union ids) as Hunion.
  change (Wait_plasma_step collaborators plasma1 ready1 num_objects 0 s1)
    with (Wait_plasma_step collaborators plasma1 ready1 num_objects
            (residual 0 (clock (world s1) - clock (world s))) s1) in Hplasma.
  assert (direct_ids ids ## raylet_ids ids) as Hdisj' by set_solver.
  assert (num_objects
          <= Z.of_nat (size (direct_ids ids)) + Z.of_nat (size (raylet_ids ids)))
    as Hfits by lia.
  assert (Z.of_nat (size (direct_ids ids)) + Z.of_nat (size (raylet_ids ids))
          < 2147483648) as Hsmall by lia.
  destruct (pass_clocked (direct_ids ids) (raylet_ids ids) num_objects 0 s
              st1 memory1 plasma1 ready1 s1 st2 ready2 s2
              Hnum Hfits Hdisj' Hsmall ltac:(lia) Hmem Hplasma Hcheck)
    as (Hstores & _ & Hclock & (moved & Hmoved & Hmarked & -> & ->) & Hsub
        & Hsize & _ & Hfirst).
  specialize (Hclock eq_refl). specialize (Hfirst ltac:(lia)). cbv zeta in Hfirst.
  rewrite Z.add_0_r in Hfirst.
  assert (forall deadline (ready : ObjectSet),
            (forall id,
               id ∈ direct_ids ids
               /\ present_at (memory_objects (world s)) deadline id = true
               \/ id ∈ raylet_ids ids
                  /\ present_at (plasma_objects (world s)) deadline id = true ->
               id ∈ ready) ->
            (length (filter (fun id => object_present (world s) deadline id = true)
                            ids) <= size ready)%nat) as Hcount.
  { intros deadline ready Hall. apply present_objects_le; [done|].
    intros id Hin [(Hd & Hm & _)|[Hr Hp]]%object_present_cases; apply Hall.
    - left. split; [by apply elem_of_direct_ids|done].
    - right. split; [by apply elem_of_raylet_ids|done]. }
  destruct Hrest as [[Hdone ->]|(Hnonzero & Hfew & st3 & memory3 & plasma3 & ready3
                                 & s3 & st4 & ready4 & s4 & Hmem3 & Hplasma3
                                 & Hcheck4 & ->)].
  - (* one pass *)
    rewrite count_true_Wait_fill by (done || set_solver).
    rewrite size_int_small in Hdone
      by (pose proof (subseteq_size _ _ Hsub) as Hs;
          rewrite size_union in Hs by set_solver; lia).
    split_and!; [done|lia|].
    intros Hpos deadline Hbacked Hpresent.
    destruct Hdone as [->|Hfull]; [|lia].
    unfold deadline in *. rewrite Z.add_0_r in *.
    destruct Hfirst as [Hfull|Hall]; [|lia|].
    + intros id [Hin Hd]%elem_of_direct_ids Hp Hm. by apply Hbacked.
    + specialize (Hcount _ _ Hall). lia.
  - (* two passes *)
    assert (moved ## raylet_ids ids) as Hfresh by set_solver.
    assert (size (direct_ids ids ∖ moved) = (size (direct_ids ids) - size moved)%nat)
      as Hsize_memory by (by apply size_difference).
    assert (size (moved ∪ raylet_ids ids) = (size moved + size (raylet_ids ids))%nat)
      as Hsize_plasma by (by apply size_union).
    pose proof (subseteq_size _ _ Hmoved) as Hsize_moved.
    destruct Hstores as [Hm Hp].
    assert (direct_ids ids ∖ moved ## moved ∪ raylet_ids ids) as Hdisj2
        by set_solver.
    assert (num_objects
            <= Z.of_nat (size (direct_ids ids ∖ moved))
               + Z.of_nat (size (moved ∪ raylet_ids ids))) as Hfits2.
    { rewrite Hsize_memory, Hsize_plasma. lia. }
    assert (Z.of_nat (size (direct_ids ids ∖ moved))
            + Z.of_nat (size (moved ∪ raylet_ids ids)) < 2147483648) as Hsmall2
        by (rewrite Hsize_memory, Hsize_plasma; lia).
    destruct (pass_clocked (direct_ids ids ∖ moved) (moved ∪ raylet_ids ids)
                num_objects timeout_ms s2
                st3 memory3 plasma3 ready3 s3 st4 ready4 s4
                Hnum Hfits2 Hdisj2 Hsmall2 Htimeout Hmem3 Hplasma3 Hcheck4)
      as (_ & _ & _ & _ & Hsub4 & Hsize4 & Hunbounded & Hbounded).
    rewrite count_true_Wait_fill by (done || set_solver).
    split_and!; [done|done|].
    intros Hpos deadline Hbacked Hpresent.
    specialize (Hbounded Hpos). cbv zeta in Hbounded.
    rewrite Hclock, Hm, Hp in Hbounded. fold deadline in Hbounded.
    destruct Hbounded as [Hfull|Hall]; [|lia|].
    + intros id [[Hin Hd]%elem_of_direct_ids _]%elem_of_difference Hpm Hmk.
      rewrite (marker_in_same_stores (world s)) in Hmk by done.
      by apply Hbacked.
    + assert (length (filter (fun id => object_present (world s) deadline id = true)
                             ids) <= size ready4)%nat; [|lia].
      apply present_objects_le; [done|].
      intros id Hin [(Hd & Hpm & Hpp)|[Hr Hpp]]%object_present_cases; apply Hall.
      * destruct (decide (id ∈ moved)) as [Hmv|Hmv].
        -- right. split; [set_solver|]. apply Hpp. by apply Hmarked.
        -- left. split; [|done]. apply elem_of_difference.
           split; [by apply elem_of_direct_ids|done].
      * right. split; [|done]. apply elem_of_union. right.
        by apply elem_of_raylet_ids.
Qed.

End ClockedProperties.

(** * Further properties of the facade *)

Section Behaviour.

Context {W : Type}.
Variable env : Collaborators W.
Import Facade.

(** ** Building task specifications *)

Lemma direct_ids_same_tag ids transport_type :
  Forall (fun id => GetTransportType id = transport_type) ids ->
  direct_ids ids = match transport_type with
                   | DIRECT => list_to_set ids
                   | RAYLET => ∅
                   end /\
  raylet_ids ids = match transport_type with
                   | DIRECT => ∅
                   | RAYLET => list_to_set ids
                   end.
Proof.
  intros Htag. rewrite Forall_forall in Htag.
  split; apply set_eq; intros id.
  - rewrite elem_of_direct_ids. unfold IsDirectCallType.
    destruct transport_type.
    + rewrite elem_of_empty. split; [|done]. intros [Hin Hd].
      by rewrite (Htag _ Hin) in Hd.
    + rewrite elem_of_list_to_set. split; [by intros [? _]|].
      intros Hin. split; [done|]. by rewrite (Htag _ Hin).
  - rewrite elem_of_raylet_ids. unfold IsDirectCallType.
    destruct transport_type.
    + rewrite elem_of_list_to_set. split; [by intros [? _]|].
      intros Hin. split; [done|]. by rewrite (Htag _ Hin).
    + rewrite elem_of_empty. split; [|done]. intros [Hin Hd].
      by rewrite (Htag _ Hin) in Hd.
Qed.

(** X1.  [BuildCommonTaskSpec] hands back exactly [num_returns] return
    ids; the id at position [i] is the task's return number [i + 1] (the
    numbering starts at 1) with the transport tag of the task, and the
    direct-call flag of the specification says whether that tag is
    DIRECT.  Hence the return ids of a direct task all fall to the memory
    store when grouped by store provider, those of a raylet task all to
    the plasma store. *)
Theorem BuildCommonTaskSpec_return_ids job_id task_id current_task_id task_index
    caller_id address function args num_returns required_resources
    required_placement_resources transport_type :
  let built :=
    BuildCommonTaskSpec job_id task_id current_task_id task_index caller_id
      address function args num_returns required_resources
      required_placement_resources transport_type in
  length built.2 = num_returns /\
  (forall i, (i < num_returns)%nat ->
     built.2 !! i
     = Some (ObjectID_ForTaskReturn task_id (Z.of_nat i + 1) transport_type)) /\
  ts_num_returns built.1 = num_returns /\
  ts_is_direct_call built.1 = bool_decide (transport_type = DIRECT) /\
  GroupObjectIdsByStoreProvider built.2 ∅ ∅
  = match transport_type with
    | DIRECT => (∅, list_to_set built.2)
    | RAYLET => (list_to_set built.2, ∅)
    end.
Proof.
  intros built. unfold built, BuildCommonTaskSpec. simpl.
  split; [by rewrite length_fmap, length_seq|].
  split.
  { intros i Hi. by rewrite list_lookup_fmap, lookup_seq_lt. }
  split; [done|]. split; [done|].
  rewrite GroupObjectIdsByStoreProvider_spec, !(right_id_L ∅ (∪)).
  match goal with
  | |- context [direct_ids ?l] =>
      destruct (direct_ids_same_tag l transport_type) as [-> ->]
  end.
  - apply Forall_fmap, Forall_forall. by intros i _.
  - by destruct transport_type.
Qed.

(** X2.  [GroupObjectIdsByStoreProvider], started on empty sets, splits
    the ids of the list by transport tag: the memory set holds exactly
    the DIRECT ids of the list and the plasma set exactly the others,
    the two sets are disjoint, and their sizes add up to the length of
    the list exactly when no id occurs twice in it (the test [Wait]
    rejects duplicates by). *)
Theorem GroupObjectIdsByStoreProvider_partition ids :
  let grouped := GroupObjectIdsByStoreProvider ids ∅ ∅ in
  (forall id, id ∈ grouped.2 <-> id ∈ ids /\ IsDirectCallType id = true) /\
  (forall id, id ∈ grouped.1 <-> id ∈ ids /\ IsDirectCallType id = false) /\
  grouped.1 ## grouped.2 /\
  ((size grouped.1 + size grouped.2 = length ids)%nat <-> NoDup ids).
Proof.
  intros grouped. unfold grouped.
  rewrite GroupObjectIdsByStoreProvider_spec, !(right_id_L ∅ (∪)). simpl.
  split; [apply elem_of_direct_ids|].
  split; [apply elem_of_raylet_ids|].
  split; [apply direct_raylet_disjoint|].
  rewrite group_sizes. split.
  - apply size_list_to_set_NoDup.
  - apply size_list_to_set.
Qed.

(** ** Submitting tasks *)

(** X3.  [SubmitTask] always returns.  It takes the next task index of
    the worker context, derives the task id from the current job, the
    current task and that index, and builds the specification with the
    caller id and the address of this worker.  A direct-call task is
    first registered as pending with the task manager, with the given
    number of retries, and then given to the direct task submitter; any
    other task goes to the raylet only.  The status is the submitter's,
    and the [num_returns] return ids carry the transport of the task. *)
Theorem SubmitTask_dispatch function args task_options max_retries s :
  let c := worker_context_ s in
  let index := task_index_ c + 1 in
  let transport := if is_direct_call task_options then DIRECT else RAYLET in
  let built :=
    BuildCommonTaskSpec (GetCurrentJobID c)
      (TaskID_ForNormalTask env (GetCurrentJobID c) (GetCurrentTaskID c) index)
      (GetCurrentTaskID c) index (caller_id_of env s) (rpc_address_ s) function
      args (num_returns task_options) (resources task_options) [] transport in
  let submitted :=
    if is_direct_call task_options
    then direct_task_submitter_SubmitTask env built.1
           (task_manager_AddPendingTask env (caller_id_of env s) (rpc_address_ s)
              built.1 max_retries (world s))
    else local_raylet_client_SubmitTask env built.1 (world s) in
  exists s',
    SubmitTask env function args task_options max_retries s
    = Returned (submitted.1, built.2) s' /\
    task_index_ (worker_context_ s') = index /\
    world s' = submitted.2 /\
    calls s'
    = calls s ++
      (if is_direct_call task_options
       then [EvAddPendingTask (caller_id_of env s) (rpc_address_ s) built.1
               max_retries;
             EvDirectTaskSubmit built.1]
       else [EvRayletSubmit built.1]) /\
    actor_handles_ s' = actor_handles_ s /\
    Forall (fun id => IsDirectCallType id = is_direct_call task_options) built.2.
Proof.
  intros c index transport built submitted.
  assert (Forall (fun id => IsDirectCallType id = is_direct_call task_options)
                 built.2) as Htags.
  { unfold built, BuildCommonTaskSpec. simpl.
    apply Forall_fmap, Forall_forall. intros i _. simpl. unfold transport.
    by destruct (is_direct_call task_options). }
  revert Htags. unfold submitted, built, transport, index, c. clear.
  cbv beta iota zeta delta [SubmitTask GetNextTaskIndex bind get ret modify
                              BuildCommonTaskSpec].
  rewrite !GetCallerId_spec. simpl.
  destruct (is_direct_call task_options); intros Htags.
  - rewrite GetCallerId_spec.
    cbv beta iota zeta delta [bind call_void call ret]. simpl.
    change (caller_id_of env (set_worker_context _ s)) with (caller_id_of env s).
    destruct (direct_task_submitter_SubmitTask env _ _) as [st w].
    eexists. split; [reflexivity|]. simpl.
    split_and!; try done. by rewrite <- app_assoc.
  - cbv beta iota zeta delta [bind call ret]. simpl.
    change (caller_id_of env (set_worker_context _ s)) with (caller_id_of env s).
    destruct (local_raylet_client_SubmitTask env _ _) as [st w].
    eexists. split; [reflexivity|]. simpl. by split_and!.
Qed.

End Behaviour.

Section Actors.

Context {W : Type}.
Variable env : Collaborators W.
Import Facade.

(** ** Submitting actor tasks *)

(** X4.  [SubmitActorTask] for an actor with no handle in the table
    returns the Invalid status "Handle for actor does not exist" and does
    nothing else: no task index is consumed, the caller's return ids are
    as they were, and no collaborator is called. *)
Theorem SubmitActorTask_unknown_actor actor_id function args task_options
    return_ids s :
  actor_handles_ s !! actor_id = None ->
  SubmitActorTask env actor_id function args task_options return_ids s
  = Returned (Status_Invalid "Handle for actor does not exist", return_ids) s.
Proof.
  intros Hnone.
  cbv beta iota zeta delta [SubmitActorTask GetActorHandle bind get ret].
  by rewrite Hnone.
Qed.

(** The specification [SubmitActorTask] hands on for the handle [h] in
    state [s], and the cursor it moves the handle to. *)
Definition actor_task_id (h : ActorHandle) (s : CoreWorker W) : TaskID :=
  let c := worker_context_ s in
  TaskID_ForActorTask env (GetCurrentJobID c) (GetCurrentTaskID c)
                      (task_index_ c + 1) (GetActorID h).

Definition actor_transport (h : ActorHandle) : TaskTransportType :=
  if IsDirectCallActor h then DIRECT else RAYLET.

Definition next_cursor (h : ActorHandle) (task_options : TaskOptions)
    (s : CoreWorker W) : ObjectID :=
  ObjectID_ForTaskReturn (actor_task_id h s)
                         (Z.of_nat (num_returns task_options) + 1)
                         (actor_transport h).

Lemma SubmitActorTask_found actor_id function args task_options
    return_ids s h :
  actor_handles_ s !! actor_id = Some h ->
  let run :=
    SubmitActorTask env actor_id function args task_options return_ids s in
  exists task_spec rest h',
    TaskId task_spec = actor_task_id h s /\
    ts_job_id task_spec = CreationJobID h /\
    ts_num_returns task_spec = S (num_returns task_options) /\
    ts_actor_task task_spec
    = Some (mkActorTaskSpec (GetActorID h) (actor_cursor_ h) (task_counter_ h)) /\
    calls (final_state run)
    = calls s ++
      (if IsDirectCallActor h
       then EvAddPendingTask (caller_id_of env s) (rpc_address_ s) task_spec 0
       else EvRayletSubmit task_spec) :: rest /\
    actor_handles_ (final_state run) = <[actor_id := h']> (actor_handles_ s) /\
    actor_cursor_ h' = next_cursor h task_options s /\
    task_counter_ h' = task_counter_ h + 1 /\
    state_ h' = state_ h /\
    GetActorID h' = GetActorID h /\
    initial_cursor_ h' = initial_cursor_ h /\
    IsDirectCallActor h' = IsDirectCallActor h /\
    match run with
    | Returned (_, ids) _ =>
        ids = (fun i : nat =>
                 ObjectID_ForTaskReturn (actor_task_id h s) (Z.of_nat i + 1)
                                        (actor_transport h))
              <$> seq 0 (num_returns task_options)
    | _ => True
    end.
Proof.
  intros Hh run. unfold run, next_cursor, actor_task_id, actor_transport.
  cbv beta iota zeta delta [SubmitActorTask GetActorHandle bind get ret].
  rewrite Hh.
  cbv beta iota zeta delta [GetNextTaskIndex bind get ret modify].
  rewrite !GetCallerId_spec.
  cbv beta iota zeta delta [BuildCommonTaskSpec].
  rewrite return_ids_last, return_ids_removelast.
  cbv beta iota zeta delta [SetActorTaskSpec store_handle bind get ret modify
                              call_void call RAY_CHECK_OK RAY_CHECK].
  simpl.
  change (caller_id_of env (set_worker_context _ s)) with (caller_id_of env s).
  destruct (IsDirectCallActor h) eqn:Hdirect.
  - rewrite GetCallerId_spec.
    cbv beta iota zeta delta [bind call_void call ret]. simpl.
    change (caller_id_of env (set_actor_handles _ _)) with (caller_id_of env s).
    match goal with
    | |- context [EvAddPendingTask _ _ ?spec 0] => exists spec
    end.
    match goal with
    | |- context [if ?c then _ else _] => destruct c eqn:Hdead
    end.
    + eexists _, _. simpl. split_and!; try reflexivity; try done; try lia.
      rewrite <- app_assoc. reflexivity.
    + destruct (direct_actor_submitter_SubmitTask env _ _) as [st w].
      eexists _, _. simpl. split_and!; try reflexivity; try done; try lia.
      rewrite <- app_assoc. reflexivity.
  - match goal with
    | |- context [EvRayletSubmit ?spec] => exists spec
    end.
    destruct (local_raylet_client_SubmitTask env _ _) as [st w].
    destruct (ok st); eexists _, _; simpl; split_and!; try reflexivity;
      try done; lia.
Qed.

(** X5.  When [SubmitActorTask] finds the handle, the specification it
    builds has one return more than asked for, runs under the job that
    created the actor, and names the actor with the cursor and the
    sequence number the handle held before the call; the handle left in
    the table has the last return id of the new task as its cursor and
    the sequence number increased by one, its liveness untouched.  This
    holds for every outcome of the call, and the first collaborator
    called sees that specification.  When the call returns, the caller
    gets the first [num_returns] return ids: the cursor is not among
    them. *)
Theorem SubmitActorTask_advances_cursor actor_id function args task_options
    return_ids s h :
  actor_handles_ s !! actor_id = Some h ->
  let run :=
    SubmitActorTask env actor_id function args task_options return_ids s in
  exists task_spec rest h',
    TaskId task_spec = actor_task_id h s /\
    ts_job_id task_spec = CreationJobID h /\
    ts_num_returns task_spec = S (num_returns task_options) /\
    ts_actor_task task_spec
    = Some (mkActorTaskSpec (GetActorID h) (actor_cursor_ h) (task_counter_ h)) /\
    calls (final_state run)
    = calls s ++
      (if IsDirectCallActor h
       then EvAddPendingTask (caller_id_of env s) (rpc_address_ s) task_spec 0
       else EvRayletSubmit task_spec) :: rest /\
    actor_handles_ (final_state run) = <[actor_id := h']> (actor_handles_ s) /\
    actor_cursor_ h' = next_cursor h task_options s /\
    task_counter_ h' = task_counter_ h + 1 /\
    state_ h' = state_ h /\
    GetActorID h' = GetActorID h /\
    initial_cursor_ h' = initial_cursor_ h /\
    IsDirectCallActor h' = IsDirectCallActor h /\
    match run with
    | Returned (_, ids) _ =>
        ids = (fun i : nat =>
                 ObjectID_ForTaskReturn (actor_task_id h s) (Z.of_nat i + 1)
                                        (actor_transport h))
              <$> seq 0 (num_returns task_options)
    | _ => True
    end.
Proof. apply SubmitActorTask_found. Qed.



(** ** The actor handle table *)



End Actors.

Section Registration.

Context {W : Type}.
Variable env : Collaborators W.
Import Facade.

(** X8.  Registering a deserialized handle is idempotent: once
    [DeserializeAndRegisterActorHandle] has returned, the same call again
    returns the same actor id and changes nothing, not even the call log
    (the actor is subscribed to once).  And a handle deserialized for an
    actor that already has one does not replace it: the state is left as
    it was, so a handle marked dead is not revived by receiving the
    handle again. *)
Theorem DeserializeAndRegisterActorHandle_idempotent serialized s actor_id s1 :
  DeserializeAndRegisterActorHandle env serialized s = Returned actor_id s1 ->
  actor_id = GetActorID (ActorHandle_Deserialize env serialized) /\
  DeserializeAndRegisterActorHandle env serialized s1 = Returned actor_id s1 /\
  (is_Some (actor_handles_ s !! actor_id) -> s1 = s) /\
  (actor_handles_ s !! actor_id = None ->
   actor_handles_ s1
   = <[actor_id := ActorHandle_Deserialize env serialized]> (actor_handles_ s) /\
   calls s1 = calls s ++ [EvAsyncSubscribe actor_id]).
Proof.
  cbv beta iota zeta delta [DeserializeAndRegisterActorHandle AddActorHandle bind
                              get ret modify call RAY_CHECK_OK RAY_CHECK].
  set (h := ActorHandle_Deserialize env serialized).
  destruct (bool_decide (actor_handles_ s !! GetActorID h = None)) eqn:Hfresh.
  - apply bool_decide_eq_true in Hfresh. simpl.
    destruct (gcs_client_Actors_AsyncSubscribe env _ _) as [st w].
    destruct (ok st); [|done]. intros [= <- <-]. simpl.
    rewrite lookup_insert_eq. simpl.
    split; [done|]. split; [done|]. split.
    + intros [x Hx]. congruence.
    + done.
  - apply bool_decide_eq_false in Hfresh. intros [= <- <-].
    rewrite bool_decide_eq_false_2 by done.
    split; [done|]. split; [done|]. split; [done|]. intros Hnone. done.
Qed.

(** X9.  [SetActorId] can be done once: it succeeds only while the
    process has no actor id, and once a non-nil id is set every further
    call dies on the check.  From then on the caller id of the process is
    the creation task of the actor, whatever task is current, and
    [SetCurrentTaskId] no longer clears the actor handle table nor
    unsubscribes anything, also at the end of a task. *)
Theorem SetActorId_once actor_id s :
  match SetActorId actor_id s with
  | Returned _ s1 =>
      ActorID_IsNil (actor_id_ s) = true /\
      actor_id_ s1 = actor_id /\
      actor_handles_ s1 = actor_handles_ s /\
      calls s1 = calls s /\
      (ActorID_IsNil actor_id = false ->
       (forall other, SetActorId other s1 = Aborted "actor_id_.IsNil()" s1) /\
       forall task_id,
         exists s2,
           SetCurrentTaskId env task_id s1 = Returned tt s2 /\
           actor_handles_ s2 = actor_handles_ s /\
           calls s2 = calls s /\
           main_thread_task_id_ s2 = task_id /\
           GetCallerId env s2
           = Returned (TaskID_ForActorCreationTask env actor_id) s2)
  | Aborted _ s1 => ActorID_IsNil (actor_id_ s) = false /\ s1 = s
  | Blocked _ => False
  end.
Proof.
  cbv beta iota zeta delta [SetActorId bind get ret modify RAY_CHECK].
  destruct (ActorID_IsNil (actor_id_ s)) eqn:Hnil; [|done].
  split_and!; try done.
  intros Hactor. simpl. rewrite Hactor. split; [done|].
  intros task_id.
  cbv beta iota zeta delta [SetCurrentTaskId WorkerContext_SetCurrentTaskId bind
                              get ret modify GetCallerId].
  simpl. rewrite Hactor. simpl. eexists. split; [reflexivity|]. simpl.
  by rewrite Hactor.
Qed.

(** X10.  [CreateActor] derives the actor id from the current job, the
    current task and the next task index.  When the id has no handle yet,
    the new handle goes into the table, alive, at sequence number 0 and
    with the first return id of the creation task as its cursor; the
    actor is subscribed to; and the creation task is submitted, for a
    direct-call actor after it was registered as pending with
    max(actor_creation_min_retries, max_reconstructions) retries, for any
    other actor through the raylet.  When the id has a handle already,
    the call dies without submitting or subscribing anything. *)
Theorem CreateActor_submits function args options s :
  let c := worker_context_ s in
  let index := task_index_ c + 1 in
  let actor_id := ActorID_Of env (GetCurrentJobID c) (GetCurrentTaskID c) index in
  let transport := if aco_is_direct_call options then DIRECT else RAYLET in
  let creation_task := TaskID_ForActorCreationTask env actor_id in
  let handle :=
    ActorHandle_new actor_id (GetCurrentJobID c)
      (ObjectID_ForTaskReturn creation_task 1 transport) (GetLanguage function)
      (aco_is_direct_call options) (GetFunctionDescriptor function) in
  match CreateActor env function args options s with
  | Returned (st, id) s' =>
      id = actor_id /\
      actor_handles_ s !! actor_id = None /\
      actor_handles_ s' = <[actor_id := handle]> (actor_handles_ s) /\
      task_index_ (worker_context_ s') = index /\
      exists task_spec,
        TaskId task_spec = creation_task /\
        ts_caller_id task_spec = caller_id_of env s /\
        ts_actor_creation task_spec
        = Some (mkActorCreationTaskSpec actor_id (max_reconstructions options)
                  (dynamic_worker_options options) (aco_is_direct_call options)
                  (max_concurrency options) (is_detached options)
                  (is_asyncio options)) /\
        calls s'
        = calls s ++ EvAsyncSubscribe actor_id ::
          (if aco_is_direct_call options
           then [EvAddPendingTask (caller_id_of env s) (rpc_address_ s) task_spec
                   (Z.max (actor_creation_min_retries env)
                          (max_reconstructions options));
                 EvDirectTaskSubmit task_spec]
           else [EvRayletSubmit task_spec])
  | Aborted _ s' =>
      (is_Some (actor_handles_ s !! actor_id) /\ calls s' = calls s) \/
      (actor_handles_ s !! actor_id = None /\
       calls s' = calls s ++ [EvAsyncSubscribe actor_id])
  | Blocked _ => False
  end.
Proof.
  intros c index actor_id transport creation_task handle.
  unfold handle, creation_task, transport, actor_id, index, c. clear.
  cbv beta iota zeta delta [CreateActor GetNextTaskIndex bind get ret modify
                              BuildCommonTaskSpec SetActorCreationTaskSpec
                              AddActorHandle call RAY_CHECK_OK RAY_CHECK].
  rewrite !GetCallerId_spec. simpl.
  change (caller_id_of env (set_worker_context _ s)) with (caller_id_of env s).
  match goal with
  | |- context [bool_decide (?m !! ?k = None)] =>
      destruct (bool_decide (m !! k = None)) eqn:Hfresh
  end.
  - apply bool_decide_eq_true in Hfresh. simpl.
    destruct (gcs_client_Actors_AsyncSubscribe env _ _) as [st0 w0].
    destruct (ok st0); simpl; [|by right].
    destruct (aco_is_direct_call options).
    + rewrite GetCallerId_spec.
      cbv beta iota zeta delta [bind call_void call ret]. simpl.
      destruct (direct_task_submitter_SubmitTask env _ _) as [st w].
      unfold caller_id_of. simpl.
      split_and!; try done.
      match goal with
      | |- context [EvDirectTaskSubmit ?spec] => exists spec
      end.
      split_and!; try reflexivity.
      by rewrite <- !app_assoc.
    + cbv beta iota zeta delta [bind call ret]. simpl.
      destruct (local_raylet_client_SubmitTask env _ _) as [st w].
      unfold caller_id_of. simpl.
      split_and!; try done.
      match goal with
      | |- context [EvRayletSubmit ?spec] => exists spec
      end.
      split_and!; try reflexivity.
      by rewrite <- !app_assoc.
  - apply bool_decide_eq_false in Hfresh. simpl. left.
    split; [|done]. by apply not_eq_None_Some.
Qed.

End Registration.

Section Stores.

Context {W : Type}.
Variable env : Collaborators W.
Import Facade.

Notation "'let*' p ':=' m 'in' k" := (bind m (fun x => let 'p := x in k))
  (at level 10, p pattern, m at level 100, k at level 200).
Notation "m ;;; k" := (bind m (fun _ => k))
  (at level 100, right associativity).

(** ** Get: the timeout handed to the plasma store *)

(** X11.  [Get] gives the memory store the caller's timeout and the
    plasma store what is left of it.  When the memory lookup came back
    without an exception, the plasma store is asked with the caller's
    timeout if that is negative (no limit), and otherwise with the
    timeout less the time the memory lookup took, but not less than 0:
    never a negative timeout, which the stores read as no limit.  So
    under a clock that did not run backwards the plasma timeout is at
    most the caller's, and the two lookups share the caller's timeout
    exactly when the memory lookup stayed within it. *)
Theorem Get_timeout_budget ids timeout_ms results s :
  match memory_answer env ids timeout_ms s with
  | Some (st, result_map, false, w) =>
      if ok st then
        let elapsed := current_time_ms env w - current_time_ms env (world s) in
        exists t,
          calls (final_state (Get env ids timeout_ms results s))
          = calls s
            ++ (if bool_decide (direct_ids ids ≠ ∅)
                then [EvMemoryGet (direct_ids ids) timeout_ms] else [])
            ++ [EvPlasmaGet (raylet_ids ids ∪ promoted result_map) t] /\
          (timeout_ms < 0 -> t = timeout_ms) /\
          (0 <= timeout_ms ->
           t = Z.max 0 (timeout_ms - elapsed) /\
           0 <= t /\
           (0 <= elapsed -> t <= timeout_ms) /\
           (0 <= elapsed <= timeout_ms -> elapsed + t = timeout_ms))
      else True
  | _ => True
  end.
Proof.
  unfold Get, memory_answer.
  rewrite GroupObjectIdsByStoreProvider_spec, !(right_id_L ∅ (∪)).
  assert (forall (s1 : CoreWorker W) result_map,
    calls (final_state
        ((let* (st, result_map, got_exception) :=
            (let plasma_object_ids :=
               insert_in_plasma_ids result_map (raylet_ids ids) in
             let* t := now env in
             let local_timeout_ms :=
               if 0 <=? timeout_ms
               then Z.max 0 (timeout_ms - (t - current_time_ms env (world s)))
               else timeout_ms in
             call_blocking (EvPlasmaGet plasma_object_ids local_timeout_ms)
               (plasma_store_provider_Get env plasma_object_ids local_timeout_ms
                  result_map false)) in
          if negb (ok st) then ret (st, resize (length ids) None results) else
          let* (results, missing_result, will_throw_exception) :=
            Get_fill result_map ids 0
                     (resize (length ids) None results, false, false) in
          (if (timeout_ms <? 0) && negb will_throw_exception
           then RAY_CHECK (negb missing_result) "!missing_result"
           else ret tt) ;;;
          ret (Status_OK, results)) s1))
      = calls s1 ++
        [EvPlasmaGet (raylet_ids ids ∪ promoted result_map)
           (if 0 <=? timeout_ms
            then Z.max 0 (timeout_ms - (current_time_ms env (world s1)
                                        - current_time_ms env (world s)))
            else timeout_ms)]) as Hplasma.
  { intros s1 result_map. cbv zeta. rewrite (insert_in_plasma_ids_spec).
    rewrite final_state_bind.
    unfold bind at 1, now, get, call_blocking.
    destruct (plasma_store_provider_Get env _ _ _ _ _)
      as [[[[st2 rm2] exc2] w2]|]; [|reflexivity].
    destruct (ok st2); simpl; [|reflexivity].
    by rewrite Get_assemble_state. }
  assert (forall elapsed,
            let t := if 0 <=? timeout_ms then Z.max 0 (timeout_ms - elapsed)
                     else timeout_ms in
            (timeout_ms < 0 -> t = timeout_ms) /\
            (0 <= timeout_ms ->
             t = Z.max 0 (timeout_ms - elapsed) /\
             0 <= t /\
             (0 <= elapsed -> t <= timeout_ms) /\
             (0 <= elapsed <= timeout_ms -> elapsed + t = timeout_ms))) as Harith.
  { intros elapsed t. unfold t. destruct (0 <=? timeout_ms) eqn:Hsign.
    - apply Z.leb_le in Hsign. split; [lia|]. intros _. lia.
    - apply Z.leb_gt in Hsign. split; [done|]. lia. }
  rewrite final_state_bind. unfold now at 1, get at 1.
  rewrite final_state_bind.
  destruct (bool_decide (direct_ids ids ≠ ∅)).
  - unfold call_blocking at 1.
    destruct (memory_store_Get env (direct_ids ids) timeout_ms ∅ false (world s))
      as [[[[st1 rm1] exc1] w1]|]; [|done].
    destruct exc1; [done|].
    destruct (ok st1) eqn:Hok1; [|done]. simpl.
    eexists. split.
    + specialize (Hplasma (set_world w1 (log (EvMemoryGet (direct_ids ids) timeout_ms) s))
                          rm1).
      cbv zeta in Hplasma. rewrite Hplasma. simpl. by rewrite <- app_assoc.
    + apply Harith.
  - unfold ret at 1. simpl. eexists. split.
    + specialize (Hplasma s ∅). cbv zeta in Hplasma. by rewrite Hplasma.
    + apply Harith.
Qed.

End Stores.

(** ** Wait: what the stores are asked *)


Section Requests.

Context {W : Type}.
Variable env : Collaborators W.
Import Facade.







End Requests.

(** * The object and actor passthroughs *)

Section Passthroughs.

Context {W : Type}.
Variable env : Collaborators W.
Variable srv : Services W.
Import Worker.

(** One step of a run: the matches and applications laid open by the
    last rewriting or case distinction. *)
Ltac run := cbv beta iota zeta delta [negb fst snd].

Lemma record_nil (p : Process W) : record [] p = p.
Proof. destruct p. unfold record. simpl. by rewrite app_nil_r. Qed.

Lemma set_core_same (p : Process W) : set_core (core p) p = p.
Proof. by destruct p. Qed.

Lemma carried_app (c c' : CoreWorker W) p new :
  calls c' = calls c ++ new ->
  carried c c' p = record (Facade <$> new) (set_core c' p).
Proof. intros Hc. unfold carried. by rewrite Hc, drop_app_length. Qed.

Lemma carried_same (c c' : CoreWorker W) p :
  calls c' = calls c -> carried c c' p = set_core c' p.
Proof.
  intros Hc. rewrite (carried_app c c' p []) by (by rewrite app_nil_r).
  apply record_nil.
Qed.

Lemma lift_get {A} (f : CoreWorker W -> A) p :
  lift (Facade.get f) p = Returned (f (core p)) p.
Proof.
  unfold lift, Facade.get. by rewrite carried_same, set_core_same.
Qed.


Lemma lift_call_void e (f : W -> W) p :
  lift (Facade.call_void e f) p
  = Returned tt
      (record [Facade e]
         (set_core (Facade.set_world (f (world (core p)))
                                     (Facade.log e (core p))) p)).
Proof.
  unfold lift, Facade.call_void. by rewrite (carried_app _ _ p [e]).
Qed.

Lemma lift_GetCallerId (p : Process W) :
  lift (Facade.GetCallerId env) p = Returned (caller_id_of env (core p)) p.
Proof.
  unfold lift. by rewrite GetCallerId_spec, carried_same, set_core_same.
Qed.

Lemma lift_GetActorHandle actor_id (p : Process W) :
  lift (Facade.GetActorHandle actor_id) p
  = Returned (match actor_handles_ (core p) !! actor_id with
              | None => inr (Status_Invalid "Handle for actor does not exist")
              | Some actor_handle => inl actor_handle
              end) p.
Proof.
  unfold lift, Facade.GetActorHandle, Facade.bind, Facade.get, Facade.ret.
  destruct (actor_handles_ (core p) !! actor_id);
    by rewrite carried_same, set_core_same.
Qed.

Lemma lift_GetNextPutIndex (p : Process W) :
  let c := worker_context_ (core p) in
  lift Facade.GetNextPutIndex p
  = Returned (put_index_ c + 1)
      (set_core
         (Facade.set_worker_context
            (mkWorkerContext (GetCurrentJobID c) (GetCurrentTaskID c)
                             (task_index_ c) (put_index_ c + 1))
            (core p)) p).
Proof.
  unfold lift.
  cbv beta iota zeta delta [Facade.GetNextPutIndex Facade.bind Facade.get
                              Facade.modify Facade.ret].
  by rewrite carried_same.
Qed.



(** X14.  The id-allocating [Create] takes the next put index of the
    worker context for the new id, tagged RAYLET, whether or not the
    store then creates the object; it never dies.  When the store fails,
    its status is returned and no owner is recorded.  When the store
    answers OK, the caller is recorded as the owner after the creation,
    for every non-null [data] pointer: also when the store left the
    buffer null because the object already existed. *)
Theorem Create_new_owns_after_creating metadata data_size contained_object_ids
    data_pointer data p :
  let c := worker_context_ (core p) in
  let object_id := ObjectID_ForPut (GetCurrentTaskID c) (put_index_ c + 1) RAYLET in
  let created :=
    plasma_store_provider_Create srv metadata data_size object_id data
                                 (world (core p)) in
  exists p',
    Create_new env srv metadata data_size contained_object_ids data_pointer data p
    = Returned (if ok created.1.1 then Status_OK else created.1.1, object_id,
                created.1.2) p' /\
    put_index_ (worker_context_ (core p')) = put_index_ c + 1 /\
    requests p'
    = requests p ++ PlasmaCreate metadata data_size object_id ::
      (if ok created.1.1 && data_pointer
       then [Facade (EvAddOwnedObject object_id (caller_id_of env (core p))
                                      (rpc_address_ (core p)))]
       else []).
Proof.
  intros c object_id created. unfold created, object_id, c.
  cbv beta iota zeta delta [Create_new Create bind request ret].
  rewrite lift_get. run. rewrite lift_GetNextPutIndex. run.
  change (world (core (set_core ?c _))) with (world c).
  change (world (Facade.set_worker_context _ ?c)) with (world c).
  destruct (plasma_store_provider_Create srv _ _ _ _ _) as [[st buffer] w].
  run. destruct (ok st) eqn:Hok; run.
  - destruct data_pointer; run.
    + rewrite lift_GetCallerId. run. rewrite lift_get. run.
      rewrite lift_call_void. simpl.
      eexists. split; [reflexivity|]. simpl. split; [done|].
      by rewrite <- app_assoc.
    + simpl. by eexists.
  - simpl. by eexists.
Qed.


(** X16.  [RegisterOwnershipInfoAndResolveFuture] records the borrowed
    reference before it checks the owner: with a nil owner id the
    process dies after the reference counter was told, and the future
    resolver is never asked; with any other owner the resolver is asked
    right after. *)
Theorem RegisterOwnershipInfoAndResolveFuture_steps object_id owner_id
    owner_address p :
  match RegisterOwnershipInfoAndResolveFuture srv object_id owner_id
                                              owner_address p with
  | Returned _ p' =>
      TaskID_IsNil owner_id = false /\
      requests p'
      = requests p ++ [AddBorrowedObject object_id owner_id owner_address;
                       ResolveFutureAsync object_id owner_id owner_address]
  | Aborted _ p' =>
      TaskID_IsNil owner_id = true /\
      requests p'
      = requests p ++ [AddBorrowedObject object_id owner_id owner_address] /\
      world (core p')
      = reference_counter_AddBorrowedObject srv object_id owner_id owner_address
                                            (world (core p))
  | Blocked _ => False
  end.
Proof.
  cbv beta iota zeta delta [RegisterOwnershipInfoAndResolveFuture bind request
                              request_void ret RAY_CHECK].
  destruct (TaskID_IsNil owner_id); simpl; [done|].
  split; [done|]. by rewrite <- app_assoc.
Qed.

(** X17.  [KillActor] for an actor without a handle returns the Invalid
    status "Handle for actor does not exist" and asks nothing; for a
    handle that is not direct-call the process dies, again before
    anything is asked; for a direct-call handle the kill goes to the
    direct actor submitter, whose status is returned, and the handle
    stays in the table as it was. *)
Theorem KillActor_steps actor_id p :
  match actor_handles_ (core p) !! actor_id with
  | None =>
      KillActor srv actor_id p
      = Returned (Status_Invalid "Handle for actor does not exist") p
  | Some actor_handle =>
      if IsDirectCallActor actor_handle then
        exists p',
          KillActor srv actor_id p
          = Returned (direct_actor_submitter_KillActor srv actor_id
                        (world (core p))).1 p' /\
          requests p' = requests p ++ [KillActorRequest actor_id] /\
          actor_handles_ (core p') = actor_handles_ (core p)
      else
        KillActor srv actor_id p = Aborted "actor_handle->IsDirectCallActor()" p
  end.
Proof.
  cbv beta iota zeta delta [KillActor bind request ret RAY_CHECK].
  rewrite lift_GetActorHandle.
  destruct (actor_handles_ (core p) !! actor_id) as [h|]; [|done].
  destruct (IsDirectCallActor h); [|done].
  destruct (direct_actor_submitter_KillActor srv actor_id (world (core p)))
    as [st w].
  by eexists.
Qed.

(** X18.  [Contains] never dies.  An id that is not DIRECT is looked up
    in the plasma store only.  A DIRECT id is looked up in the memory
    store, and in the plasma store as well exactly when the memory store
    flags the object as being in plasma; the plasma store's answer then
    replaces the memory store's.  When the plasma store fails, its status
    is returned and the caller's [has_object] is left as it was. *)
Theorem Contains_dispatch object_id has_object p :
  let memory := memory_store_Contains srv object_id false (world (core p)) in
  let direct := IsDirectCallType object_id in
  let asks_plasma := negb direct || memory.1.2 in
  let plasma :=
    plasma_store_provider_Contains srv object_id
      (if direct then memory.1.1 else false)
      (if direct then memory.2 else world (core p)) in
  exists p',
    Contains srv object_id has_object p
    = Returned (if asks_plasma
                then if ok plasma.1.1 then (Status_OK, plasma.1.2)
                     else (plasma.1.1, has_object)
                else (Status_OK, memory.1.1)) p' /\
    requests p'
    = requests p ++ (if direct then [MemoryContains object_id] else [])
                 ++ (if asks_plasma then [PlasmaContains object_id] else []).
Proof.
  intros memory direct asks_plasma plasma.
  unfold plasma, asks_plasma, direct, memory.
  cbv beta iota zeta delta [Contains bind request ret].
  destruct (IsDirectCallType object_id); run.
  - destruct (memory_store_Contains srv object_id false (world (core p)))
      as [[found in_plasma] w]. run. destruct in_plasma; run.
    + simpl.
      destruct (plasma_store_provider_Contains srv object_id found w)
        as [[st found'] w'].
      run. destruct (ok st); run; eexists; (split; [reflexivity|]);
        simpl; by rewrite <- app_assoc.
    + by eexists.
  - destruct (plasma_store_provider_Contains srv object_id false (world (core p)))
      as [[st found'] w'].
    run. destruct (ok st); run; by eexists.
Qed.

(** X19.  [Delete] never dies.  It tells the reference counter about
    every id of the list, as given; then the memory store about the
    DIRECT ids, handing it the other ids as the set to which the memory
    store adds what it knows to be in plasma; then the plasma store about
    the set the memory store handed back, with the caller's flags.  The
    plasma store is asked also when that set is empty, and its failure
    is the only one reported. *)
Theorem Delete_order object_ids local_only delete_creating_tasks p :
  let w1 := reference_counter_DeleteReferences srv object_ids (world (core p)) in
  let deleted :=
    memory_store_Delete srv (direct_ids object_ids) (raylet_ids object_ids) w1 in
  let plasma :=
    plasma_store_provider_Delete srv deleted.1 local_only delete_creating_tasks
                                 deleted.2 in
  exists p',
    Delete srv object_ids local_only delete_creating_tasks p
    = Returned (if ok plasma.1 then Status_OK else plasma.1) p' /\
    requests p'
    = requests p ++
      [DeleteReferences object_ids;
       MemoryDelete (direct_ids object_ids) (raylet_ids object_ids);
       PlasmaDelete deleted.1 local_only delete_creating_tasks] /\
    world (core p') = plasma.2.
Proof.
  intros w1 deleted plasma. unfold plasma, deleted, w1.
  unfold Delete.
  rewrite GroupObjectIdsByStoreProvider_spec, !(right_id_L ∅ (∪)).
  cbv beta iota zeta delta [bind request request_void ret]. simpl.
  destruct (memory_store_Delete srv _ _ _) as [plasma_ids w2]. simpl.
  destruct (plasma_store_provider_Delete srv _ _ _ _) as [st w3]. simpl.
  destruct (ok st); simpl; eexists; (split; [reflexivity|]); simpl;
    (split; [|done]); by rewrite <- !app_assoc.
Qed.

End Passthroughs.

(** * Shutting down and the RPC handlers *)

Section Handlers.

Context {W : Type}.
Variable env : Collaborators W.
Variable srv : Services W.
Import Worker.

(** X20.  [Disconnect] tells the GCS and the raylet at most once: the
    first call of a connected process stops the IO service, clears
    [connected_] and disconnects from both, in this order; every later
    call only stops the IO service again.  [Shutdown] disconnects from
    nothing: it stops the IO service and, in a worker only, the task
    execution service. *)
Theorem Disconnect_once (p : Process W) :
  exists p1,
    Disconnect p = Returned tt p1 /\
    connected_ p1 = false /\
    requests p1
    = requests p ++ IoServiceStop ::
      (if connected_ p then [GcsDisconnect; RayletDisconnect] else []) /\
    (exists p2,
       Disconnect p1 = Returned tt p2 /\
       connected_ p2 = false /\
       requests p2 = requests p1 ++ [IoServiceStop]) /\
    exists p3,
      Shutdown p = Returned tt p3 /\
      connected_ p3 = connected_ p /\
      requests p3
      = requests p ++ IoServiceStop ::
        (match worker_type_ p with
         | WORKER => [TaskExecutionServiceStop]
         | DRIVER => []
         end).
Proof.
  cbv beta iota zeta delta [Disconnect Shutdown bind tell modify get ret].
  simpl. destruct (connected_ p) eqn:Hconnected; simpl.
  - eexists. split; [reflexivity|]. simpl. split; [done|].
    split; [by rewrite <- !app_assoc|]. split.
    + eexists. split; [reflexivity|]. done.
    + destruct (worker_type_ p); eexists; (split; [reflexivity|]); simpl;
        (split; [done|]); by rewrite <- ?app_assoc.
  - eexists. split; [reflexivity|]. simpl. rewrite Hconnected.
    split; [done|]. split; [done|]. split.
    + eexists. split; [reflexivity|]. done.
    + destruct (worker_type_ p); eexists; (split; [reflexivity|]); simpl;
        (split; [done|]); by rewrite <- ?app_assoc.
Qed.

(** X21.  The three task handlers drop a request meant for another
    worker right after the recipient check: nothing is posted, nothing
    counted.  Otherwise [HandleAssignTask] refuses on a direct-call actor
    with the Invalid status "This actor only accepts direct calls.",
    again without posting or counting, and else posts the task to the
    task execution service; [HandlePushTask] always posts.  The length
    of the task queue grows by one exactly when one of the two posts a
    task; [HandleDirectActorCallArgWaitComplete] posts without
    counting. *)
Theorem task_handlers_post_and_count intended_worker_id request (p : Process W) :
  let wrong := (HandleWrongRecipient srv intended_worker_id (world (core p))).1 in
  let w := (HandleWrongRecipient srv intended_worker_id (world (core p))).2 in
  let direct :=
    worker_context_CurrentActorIsDirectCall srv (worker_context_ (core p)) w in
  (exists p',
     HandleAssignTask srv intended_worker_id request p = Returned tt p' /\
     requests p'
     = requests p ++ WrongRecipientCheck intended_worker_id ::
       (if wrong then []
        else if direct
             then [SendReply (Status_Invalid "This actor only accepts direct calls.")]
             else [Post (RayletHandleAssignTask request)]) /\
     task_queue_length_ p'
     = (if wrong || direct then task_queue_length_ p
        else static_cast_int64 (task_queue_length_ p + 1)) /\
     num_executed_tasks_ p' = num_executed_tasks_ p) /\
  (exists p',
     HandlePushTask srv intended_worker_id request p = Returned tt p' /\
     requests p'
     = requests p ++ WrongRecipientCheck intended_worker_id ::
       (if wrong then [] else [Post (DirectHandlePushTask request)]) /\
     task_queue_length_ p'
     = (if wrong then task_queue_length_ p
        else static_cast_int64 (task_queue_length_ p + 1)) /\
     num_executed_tasks_ p' = num_executed_tasks_ p) /\
  (exists p',
     HandleDirectActorCallArgWaitComplete srv intended_worker_id request p
     = Returned tt p' /\
     requests p'
     = requests p ++ WrongRecipientCheck intended_worker_id ::
       (if wrong then [] else [Post (DirectHandleArgWaitComplete request)]) /\
     task_queue_length_ p' = task_queue_length_ p /\
     num_executed_tasks_ p' = num_executed_tasks_ p).
Proof.
  intros wrong w direct. unfold direct, w, wrong.
  cbv beta iota zeta delta [HandleAssignTask HandlePushTask
                              HandleDirectActorCallArgWaitComplete
                              wrong_recipient post send_reply_callback bind
                              Worker.request tell modify get ret].
  destruct (HandleWrongRecipient srv intended_worker_id (world (core p)))
    as [[] w0]; simpl.
  - split_and!; eexists; (split; [reflexivity|]); done.
  - destruct (worker_context_CurrentActorIsDirectCall srv _ w0); simpl;
      split_and!; eexists; (split; [reflexivity|]); simpl;
      split_and!; try done; by rewrite <- !app_assoc.
Qed.

(** X22.  [HandleGetObjectStatus] marks the reply CREATED and answers
    the borrower exactly once: it either sends the OK reply itself, when
    the task that creates the object is no longer pending at the first
    or at the second look, or leaves the reply to the callback it gives
    the memory store.  The local reference it takes before the second
    look is released again on both ways. *)
Theorem HandleGetObjectStatus_replies_once object_id owner_id reply
    (p : Process W) :
  let task := ObjectID_TaskId object_id in
  let first := task_manager_IsTaskPending srv task (world (core p)) in
  let second := task_manager_IsTaskPending srv task first.2 in
  exists p',
    HandleGetObjectStatus srv object_id owner_id reply p = Returned CREATED p' /\
    requests p'
    = requests p ++ IsTaskPending task ::
      (if first.1
       then AddLocalReference object_id :: IsTaskPending task ::
            (if second.1
             then [MemoryGetAsync object_id; RemoveLocalReference object_id]
             else [RemoveLocalReference object_id; SendReply Status_OK])
       else [SendReply Status_OK]) /\
    task_queue_length_ p' = task_queue_length_ p.
Proof.
  intros task first second. unfold second, first, task.
  cbv beta iota zeta delta [HandleGetObjectStatus task_is_pending
                              send_reply_callback bind Worker.request tell modify
                              get ret].
  destruct (task_manager_IsTaskPending srv _ (world (core p))) as [[] w1]; simpl.
  - destruct (task_manager_IsTaskPending srv _ w1) as [[] w2]; simpl;
      eexists; (split; [reflexivity|]); simpl; (split; [|done]);
      by rewrite <- !app_assoc.
  - eexists. split; [reflexivity|]. simpl. split; [|done].
    by rewrite <- !app_assoc.
Qed.

(** X23.  [HandleWaitForObjectEviction] answers at once exactly when the
    reference counter could not take the delete callback, the reference
    being gone already; a request meant for another worker is dropped
    after the recipient check.  [HandleKillActor] for an actor other
    than the current one answers with an Invalid status and lets the
    process live; for the current actor it never returns and never
    replies: it shuts the log down, when the process has a log
    directory, and exits with code 1. *)
Theorem eviction_and_kill_handlers intended_worker_id object_id intended_actor_id
    (p : Process W) :
  let checked := HandleWrongRecipient srv intended_worker_id (world (core p)) in
  let added := (reference_counter_SetDeleteCallback srv object_id checked.2).1 in
  let current :=
    worker_context_GetCurrentActorID srv (worker_context_ (core p))
                                     (world (core p)) in
  (exists p',
     HandleWaitForObjectEviction srv intended_worker_id object_id p
     = Returned tt p' /\
     requests p'
     = requests p ++ WrongRecipientCheck intended_worker_id ::
       (if checked.1 then []
        else SetDeleteCallback object_id ::
             (if added then [] else [SendReply Status_OK]))) /\
  match HandleKillActor srv intended_actor_id p with
  | Returned _ p' =>
      intended_actor_id <> current /\
      exists msg, requests p' = requests p ++ [SendReply (Status_Invalid msg)]
  | Aborted _ p' =>
      intended_actor_id = current /\
      requests p'
      = requests p ++
        (if bool_decide (log_dir_ p = EmptyString) then [] else [ShutDownRayLog])
        ++ [Exit 1]
  | Blocked _ => False
  end.
Proof.
  intros checked added current. unfold current, added, checked.
  cbv beta iota zeta delta [HandleWaitForObjectEviction HandleKillActor
                              wrong_recipient send_reply_callback bind
                              Worker.request tell modify get ret abort].
  split.
  - destruct (HandleWrongRecipient srv intended_worker_id (world (core p)))
      as [[] w0]; simpl; [by eexists|].
    destruct (reference_counter_SetDeleteCallback srv object_id w0) as [[] w1];
      simpl; eexists; (split; [reflexivity|]); simpl; by rewrite <- ?app_assoc.
  - destruct (decide (intended_actor_id
                      = worker_context_GetCurrentActorID srv
                          (worker_context_ (core p)) (world (core p))))
      as [Hsame|Hother].
    + rewrite (bool_decide_eq_true_2 _ Hsame). simpl.
      destruct (decide (log_dir_ p = EmptyString)) as [Hlog|Hlog].
      * rewrite (bool_decide_eq_true_2 _ Hlog). simpl. split; [done|].
        by rewrite <- ?app_assoc.
      * rewrite (bool_decide_eq_false_2 _ Hlog). simpl. split; [done|].
        by rewrite <- ?app_assoc.
    + rewrite (bool_decide_eq_false_2 _ Hother). simpl. split; [done|].
      by eexists.
Qed.

End Handlers.

(** * Task execution *)

(** The id a by-reference argument names. *)
Definition by_ref_id (arg : TaskArg) : option ObjectID :=
  match arg with
  | PassedByReference id => Some id
  | PassedByValue _ => None
  end.

(** The markers [BuildArgsForExecutor] puts in the memory store: one for
    every by-reference argument with a direct call id, in the order of
    the arguments. *)
Definition marker_puts (args : list TaskArg) : list Request :=
  MemoryPut (RayObject_of_error OBJECT_IN_PLASMA)
    <$> filter (fun id => IsDirectCallType id = true) (omap by_ref_id args).

(** The position [by_ref_indices] keeps for an id: the first one. *)
Fixpoint first_by_ref (id : ObjectID) (args : list TaskArg) : option nat :=
  match args with
  | [] => None
  | arg :: rest =>
      if bool_decide (by_ref_id arg = Some id) then Some 0%nat
      else S <$> first_by_ref id rest
  end.

Section TaskArguments.

Context {W : Type}.
Variable env : Collaborators W.
Variable srv : Services W.
Import Worker.

Ltac run := cbv beta iota zeta delta [negb fst snd].

Lemma marker_puts_cons_ref id rest :
  marker_puts (PassedByReference id :: rest)
  = (if IsDirectCallType id
     then [MemoryPut (RayObject_of_error OBJECT_IN_PLASMA) id] else [])
    ++ marker_puts rest.
Proof.
  unfold marker_puts. simpl. rewrite filter_cons.
  destruct (IsDirectCallType id) eqn:Hd.
  - by rewrite decide_True.
  - by rewrite decide_False.
Qed.

Lemma first_by_ref_Some id args i :
  first_by_ref id args = Some i <->
  args !! i = Some (PassedByReference id) /\
  id ∉ omap by_ref_id (take i args).
Proof.
  revert i. induction args as [|arg rest IH]; intros i; simpl.
  - split; [done|]. by intros [? _].
  - case_bool_decide as Harg.
    + split.
      * intros [= <-]. destruct arg; simplify_eq/=. split; [done|].
        apply not_elem_of_nil.
      * intros [Hi Hnot]. destruct i as [|i]; [done|]. exfalso.
        apply Hnot. simpl. rewrite Harg. apply elem_of_cons. by left.
    + destruct i as [|i].
      * split.
        -- destruct (first_by_ref id rest); done.
        -- intros [Hi _]. by simplify_eq/=.
      * simpl. rewrite fmap_Some. split.
        -- intros (j & Hj & ->%(inj S)). apply IH in Hj as [Hj Hnot].
           split; [done|]. destruct (by_ref_id arg) as [id'|] eqn:Hid; [|done].
           intros [->|Hin]%elem_of_cons; [done|]. by apply Hnot.
        -- intros [Hi Hnot]. exists i. split; [|done]. apply IH.
           split; [done|]. intros Hin. apply Hnot.
           destruct (by_ref_id arg); [|done]. apply elem_of_cons. by right.
Qed.

Lemma first_by_ref_None id args :
  first_by_ref id args = None <-> id ∉ omap by_ref_id args.
Proof.
  induction args as [|arg rest IH]; simpl.
  - split; [intros _; apply not_elem_of_nil|done].
  - case_bool_decide as Harg.
    + split; [done|]. intros Hnot. exfalso. apply Hnot. rewrite Harg.
      apply elem_of_cons. by left.
    + rewrite fmap_None, IH. destruct (by_ref_id arg) as [id'|] eqn:Hid; [|done].
      rewrite not_elem_of_cons. split; [|by intros [_ ?]].
      intros Hnot. split; [|done]. by intros ->.
Qed.

(** The first loop, from any position on. *)
Lemma BuildArgsForExecutor_loop_spec todo :
  forall i args refs ids idx (p : Process W),
  length args = (i + length todo)%nat ->
  length refs = (i + length todo)%nat ->
  match BuildArgsForExecutor_loop srv todo i (args, refs, ids, idx) p with
  | Returned (args', refs', ids', idx') p' =>
      requests p' = requests p ++ marker_puts todo /\
      length args' = length args /\
      length refs' = length refs /\
      (forall j, (j < i)%nat -> args' !! j = args !! j /\ refs' !! j = refs !! j) /\
      (forall k arg, todo !! k = Some arg ->
         refs' !! (i + k)%nat = Some (by_ref_id arg) /\
         args' !! (i + k)%nat
         = match arg with
           | PassedByValue value => Some (Some (by_value_object value))
           | PassedByReference _ => args !! (i + k)%nat
           end) /\
      ids' = ids ∪ list_to_set (omap by_ref_id todo) /\
      (forall id,
         idx' !! id
         = match idx !! id with
           | Some j => Some j
           | None => (fun k => (i + k)%nat) <$> first_by_ref id todo
           end)
  | Aborted _ p' =>
      exists new, requests p' = requests p ++ new /\ new `prefix_of` marker_puts todo
  | Blocked _ => False
  end.
Proof.
  induction todo as [|arg rest IH]; intros i args refs ids idx p Hargs Hrefs.
  - simpl. unfold ret. split_and!; try done.
    + by rewrite app_nil_r.
    + set_solver.
    + intros id. by destruct (idx !! id).
  - destruct arg as [id|value].
    + simpl BuildArgsForExecutor_loop. rewrite marker_puts_cons_ref.
      cbv beta iota zeta delta [bind Worker.request RAY_CHECK_OK RAY_CHECK ret].
      set (idx1 := match idx !! id with
                   | None => <[id:=i]> idx
                   | Some _ => idx
                   end).
      assert (Hnext : forall p1 : Process W,
        match BuildArgsForExecutor_loop srv rest (S i)
                (args, <[i:=Some id]> refs, {[id]} ∪ ids, idx1) p1 with
        | Returned (args', refs', ids', idx') p' =>
            requests p' = requests p1 ++ marker_puts rest /\
            length args' = length args /\
            length refs' = length refs /\
            (forall j, (j < i)%nat ->
               args' !! j = args !! j /\ refs' !! j = refs !! j) /\
            (forall k arg, (PassedByReference id :: rest) !! k = Some arg ->
               refs' !! (i + k)%nat = Some (by_ref_id arg) /\
               args' !! (i + k)%nat
               = match arg with
                 | PassedByValue value => Some (Some (by_value_object value))
                 | PassedByReference _ => args !! (i + k)%nat
                 end) /\
            ids' = ids ∪ list_to_set (omap by_ref_id (PassedByReference id :: rest)) /\
            (forall id0,
               idx' !! id0
               = match idx !! id0 with
                 | Some j => Some j
                 | None => (fun k => (i + k)%nat)
                             <$> first_by_ref id0 (PassedByReference id :: rest)
                 end)
        | Aborted _ p' =>
            exists new, requests p' = requests p1 ++ new /\
                        new `prefix_of` marker_puts rest
        | Blocked _ => False
        end).
      { intros p1.
        pose proof (IH (S i) args (<[i:=Some id]> refs) ({[id]} ∪ ids) idx1 p1)
          as Hrest.
        rewrite length_insert in Hrest.
        specialize (Hrest ltac:(simpl in Hargs; lia) ltac:(simpl in Hrefs; lia)).
        destruct (BuildArgsForExecutor_loop srv rest (S i) _ p1)
          as [[[[args' refs'] ids'] idx'] p'|check p'|p']; [|done|done].
        destruct Hrest as (Hreq & Hla & Hlr & Hbefore & Hat & Hids & Hidx).
        split_and!; try done.
        - intros j Hj. destruct (Hbefore j ltac:(lia)) as [Ha Hr].
          split; [done|]. rewrite Hr. apply list_lookup_insert_ne. lia.
        - intros [|k] arg0 Hk.
          + simplify_eq/=. destruct (Hbefore i ltac:(lia)) as [Ha Hr].
            rewrite Nat.add_0_r. split; [|done]. rewrite Hr.
            apply list_lookup_insert_eq. simpl in Hrefs. lia.
          + simpl in Hk. replace (i + S k)%nat with (S i + k)%nat by lia.
            by apply Hat.
        - rewrite Hids. simpl. set_solver.
        - intros id0. rewrite Hidx. unfold idx1. simpl.
          destruct (decide (id0 = id)) as [->|Hne].
          + rewrite bool_decide_eq_true_2 by done.
            destruct (idx !! id) as [j|] eqn:Hl.
            * by rewrite Hl.
            * rewrite lookup_insert_eq. simpl. f_equal. lia.
          + rewrite bool_decide_eq_false_2 by congruence.
            destruct (idx !! id) as [j|] eqn:Hl.
            * destruct (idx !! id0); [done|].
              rewrite <- option_fmap_compose. apply option_fmap_ext.
              intros k. simpl. lia.
            * rewrite lookup_insert_ne by done.
              destruct (idx !! id0); [done|].
              rewrite <- option_fmap_compose. apply option_fmap_ext.
              intros k. simpl. lia. }
      destruct (IsDirectCallType id) eqn:Hd.
      * destruct (memory_store_Put srv _ id (world (core p))) as [st w1].
        run. destruct (ok st).
        -- match goal with
           | |- context [BuildArgsForExecutor_loop srv rest (S i) _ ?p1] =>
               specialize (Hnext p1);
               destruct (BuildArgsForExecutor_loop srv rest (S i) _ p1)
                 as [[[[args' refs'] ids'] idx'] p'|check p'|p']
           end; [| |done].
           ++ destruct Hnext as (Hreq & Hrest). split; [|done].
              rewrite Hreq. simpl. by rewrite <- app_assoc.
           ++ destruct Hnext as (new & Hreq & Hpre).
              exists (MemoryPut (RayObject_of_error OBJECT_IN_PLASMA) id :: new).
              split.
              ** rewrite Hreq. simpl. by rewrite <- app_assoc.
              ** simpl. by apply prefix_cons.
        -- exists [MemoryPut (RayObject_of_error OBJECT_IN_PLASMA) id].
           split; [done|]. simpl. apply prefix_cons, prefix_nil.
      * run. specialize (Hnext p).
        destruct (BuildArgsForExecutor_loop srv rest (S i) _ p)
          as [[[[args' refs'] ids'] idx'] p'|check p'|p']; done.
    + simpl BuildArgsForExecutor_loop.
      pose proof (IH (S i) (<[i:=Some (by_value_object value)]> args)
                     (<[i:=None]> refs) ids idx p) as Hrest.
      rewrite !length_insert in Hrest.
      specialize (Hrest ltac:(simpl in Hargs; lia) ltac:(simpl in Hrefs; lia)).
      destruct (BuildArgsForExecutor_loop srv rest (S i) _ p)
        as [[[[args' refs'] ids'] idx'] p'|check p'|p']; [|done|done].
      destruct Hrest as (Hreq & Hla & Hlr & Hbefore & Hat & Hids & Hidx).
      split_and!; try done.
      * intros j Hj. destruct (Hbefore j ltac:(lia)) as [Ha Hr].
        rewrite Ha, Hr. split; apply list_lookup_insert_ne; lia.
      * intros [|k] arg0 Hk.
        -- simplify_eq/=. destruct (Hbefore i ltac:(lia)) as [Ha Hr].
           rewrite Nat.add_0_r, Ha, Hr. simpl in Hargs, Hrefs.
           split; apply list_lookup_insert_eq; lia.
        -- simpl in Hk. replace (i + S k)%nat with (S i + k)%nat by lia.
           destruct (Hat k arg0 Hk) as [Hr Ha]. split; [done|].
           rewrite Ha. destruct arg0; [|done].
           apply list_lookup_insert_ne. lia.
      * intros id0. rewrite Hidx. simpl.
        destruct (idx !! id0); [done|].
        rewrite <- option_fmap_compose. apply option_fmap_ext.
        intros k. simpl. lia.
Qed.

Lemma lift_call_blocking {A} e (f : W -> option (A * W)) (p : Process W) :
  lift (Facade.call_blocking e f) p
  = match f (world (core p)) with
    | Some (a, w) =>
        Returned a
          (record [Facade e]
             (set_core (Facade.set_world w (Facade.log e (core p))) p))
    | None =>
        Blocked (record [Facade e] (set_core (Facade.log e (core p)) p))
    end.
Proof.
  unfold lift, Facade.call_blocking.
  destruct (f (world (core p))) as [[a w]|]; simpl;
    by rewrite (carried_app _ _ p [e]).
Qed.

(** The second loop leaves the process as it is. *)
Lemma BuildArgsForExecutor_fill_state result idx :
  forall args (p : Process W),
  match BuildArgsForExecutor_fill result idx args p with
  | Returned args' p' => p' = p /\ length args' = length args
  | Aborted _ p' => p' = p
  | Blocked _ => False
  end.
Proof.
  induction result as [|[id object] rest IH]; intros args p; simpl; [done|].
  case_bool_decide; [|done].
  specialize (IH (<[default 0%nat (idx !! id):=Some object]> args) p).
  destruct (BuildArgsForExecutor_fill rest idx _ p); try done.
  by rewrite length_insert in IH.
Qed.

(** The second loop when every id of the result has a position of its
    own. *)
Lemma BuildArgsForExecutor_fill_spec result idx :
  forall args (p : Process W),
  NoDup result.*1 ->
  (forall id object, (id, object) ∈ result ->
     exists j, idx !! id = Some j /\ (j < length args)%nat) ->
  (forall id1 id2 j, idx !! id1 = Some j -> idx !! id2 = Some j -> id1 = id2) ->
  exists args',
    BuildArgsForExecutor_fill result idx args p = Returned args' p /\
    (forall id object j,
       (id, object) ∈ result -> idx !! id = Some j ->
       args' !! j = Some (Some object)) /\
    (forall i,
       (forall id object, (id, object) ∈ result -> idx !! id <> Some i) ->
       args' !! i = args !! i).
Proof.
  induction result as [|[id object] rest IH]; intros args p Hnodup Hin Hinj.
  - exists args. split; [done|]. split; [|done].
    intros ? ? ? Hel. by apply elem_of_nil in Hel.
  - simpl. destruct (Hin id object) as (j & Hj & Hlt); [by left|].
    rewrite Hj. simpl. rewrite bool_decide_eq_true_2 by done.
    apply NoDup_cons in Hnodup as [Hfresh Hnodup].
    destruct (IH (<[j:=Some object]> args) p Hnodup) as (args' & Hrun & Hset & Hkeep).
    { intros id' object' Hel. rewrite length_insert.
      apply (Hin id' object'). by right. }
    { done. }
    exists args'. split; [done|]. split.
    + intros id' object' j' [[= -> ->]|Hel]%elem_of_cons Hj'.
      * assert (j' = j) as -> by congruence.
        rewrite Hkeep; [by apply list_lookup_insert_eq|].
        intros id2 object2 Hel2 Hj2. apply Hfresh.
        rewrite (Hinj id id2 j Hj Hj2).
        by apply (list_elem_of_fmap_2 fst rest (id2, object2)).
      * by apply (Hset id' object').
    + intros i Hnone. rewrite Hkeep.
      * apply list_lookup_insert_ne. intros ->.
        apply (Hnone id object); [by left|done].
      * intros id' object' Hel. apply (Hnone id' object'). by right.
Qed.

(** X24.  [BuildArgsForExecutor] asks the stores in a fixed order and
    never the memory store for an object: it puts the OBJECT_IN_PLASMA
    marker in the memory store for every argument passed by reference
    with a direct call id, in the order of the arguments, and then asks
    the plasma store once, without timeout, for the ids of all arguments
    passed by reference.  A run that ends early made a first part of
    these calls.  The reference ids handed to the executor are those of
    the task, nil for an argument passed by value. *)
Theorem BuildArgsForExecutor_requests task args0 refs0 (p : Process W) :
  let ids : ObjectSet := list_to_set (omap by_ref_id (ts_args task)) in
  let all := marker_puts (ts_args task) ++ [Facade (EvPlasmaGet ids (-1))] in
  match BuildArgsForExecutor env srv task args0 refs0 p with
  | Returned (st, args, refs) p' =>
      requests p' = requests p ++ all /\
      length args = length (ts_args task) /\
      refs = by_ref_id <$> ts_args task
  | Blocked p' => requests p' = requests p ++ all
  | Aborted _ p' =>
      exists new, requests p' = requests p ++ new /\ new `prefix_of` all
  end.
Proof.
  intros ids all. unfold all, ids. clear all ids.
  unfold BuildArgsForExecutor. unfold bind at 1.
  pose proof (BuildArgsForExecutor_loop_spec (ts_args task) 0
                (Facade.resize (length (ts_args task)) None args0)
                (Facade.resize (length (ts_args task)) None refs0) ∅ ∅ p
                (resize_length _ _ _) (resize_length _ _ _)) as Hloop.
  destruct (BuildArgsForExecutor_loop srv (ts_args task) 0 _ p)
    as [[[[args1 refs1] ids1] idx1] p1|check p1|p1]; [| |done].
  - destruct Hloop as (Hreq & Hla & Hlr & _ & Hat & Hids & _).
    rewrite resize_length in Hla. rewrite resize_length in Hlr.
    assert (refs1 = by_ref_id <$> ts_args task) as Hrefs.
    { apply list_eq. intros k. rewrite list_lookup_fmap.
      destruct (ts_args task !! k) as [arg|] eqn:Hk; simpl.
      - by destruct (Hat k arg Hk) as [Hr _].
      - apply lookup_ge_None. apply lookup_ge_None in Hk. lia. }
    assert (ids1 = list_to_set (omap by_ref_id (ts_args task))) as -> by set_solver.
    unfold bind at 1. rewrite lift_call_blocking.
    destruct (plasma_store_provider_Get env _ (-1) ∅ false (world (core p1)))
      as [[[[st result_map] got_exception] w]|]; simpl.
    + destruct (ok st); simpl.
      * unfold bind at 1.
        match goal with
        | |- context [BuildArgsForExecutor_fill ?r ?x ?a ?q] =>
            pose proof (BuildArgsForExecutor_fill_state r x a q) as Hfill;
            destruct (BuildArgsForExecutor_fill r x a q) as [args2 p2|check p2|p2]
        end; [| |done].
        -- destruct Hfill as [-> Hlen]. simpl. rewrite Hreq.
           split; [by rewrite <- app_assoc|]. split; [lia|done].
        -- subst p2. simpl. eexists. split; [|done].
           rewrite Hreq. by rewrite <- app_assoc.
      * unfold ret. simpl. rewrite Hreq.
        split; [by rewrite <- app_assoc|]. done.
    + rewrite Hreq. by rewrite <- app_assoc.
  - destruct Hloop as (new & Hreq & Hpre). exists new. split; [done|].
    by apply prefix_app_r.
Qed.

(** X25.  Where [BuildArgsForExecutor] puts the arguments, for a plasma
    store that answers with ids it was asked for.  An argument passed by
    value is rebuilt at its position.  An object the plasma store
    returned is put at the first position that names its id, and only
    there: when a task passes the same id by reference twice, the later
    position is left null, as is every by-reference position when the
    plasma store does not answer OK or has no object for the id. *)
Theorem BuildArgsForExecutor_first_position task (p : Process W) st args refs p' :
  let ids : ObjectSet := list_to_set (omap by_ref_id (ts_args task)) in
  (forall w st' result_map got_exception w',
     plasma_store_provider_Get env ids (-1) ∅ false w
     = Some (st', result_map, got_exception, w') ->
     dom result_map ⊆ ids) ->
  BuildArgsForExecutor env srv task [] [] p = Returned (st, args, refs) p' ->
  exists w st' result_map got_exception,
    plasma_store_provider_Get env ids (-1) ∅ false w
    = Some (st', result_map, got_exception, world (core p')) /\
    st = (if ok st' then Status_OK else st') /\
    forall i arg,
      ts_args task !! i = Some arg ->
      args !! i
      = Some match arg with
             | PassedByValue value => Some (by_value_object value)
             | PassedByReference id =>
                 if ok st'
                    && bool_decide (id ∉ omap by_ref_id (take i (ts_args task)))
                 then result_map !! id
                 else None
             end.
Proof.
  intros ids Hasked. unfold ids in *. clear ids.
  unfold BuildArgsForExecutor. unfold bind at 1.
  pose proof (BuildArgsForExecutor_loop_spec (ts_args task) 0
                (Facade.resize (length (ts_args task)) None [])
                (Facade.resize (length (ts_args task)) None []) ∅ ∅ p
                (resize_length _ _ _) (resize_length _ _ _)) as Hloop.
  destruct (BuildArgsForExecutor_loop srv (ts_args task) 0 _ p)
    as [[[[args1 refs1] ids1] idx1] p1|check p1|p1]; [|done|done].
  destruct Hloop as (Hreq & Hla & Hlr & _ & Hat & Hids & Hidx).
  rewrite resize_length in Hla. rewrite resize_length in Hlr.
  assert (ids1 = list_to_set (omap by_ref_id (ts_args task))) as -> by set_solver.
  assert (Hidx1 : forall id j,
            idx1 !! id = Some j <->
            ts_args task !! j = Some (PassedByReference id) /\
            id ∉ omap by_ref_id (take j (ts_args task))).
  { intros id j. rewrite Hidx, lookup_empty, <- first_by_ref_Some.
    destruct (first_by_ref id (ts_args task)); simpl; naive_solver. }
  assert (Hbase : forall i arg,
            ts_args task !! i = Some arg ->
            args1 !! i
            = Some match arg with
                   | PassedByValue value => Some (by_value_object value)
                   | PassedByReference _ => None
                   end).
  { intros i arg Hi. destruct (Hat i arg Hi) as [_ Ha]. simpl in Ha.
    rewrite Ha. destruct arg; [|done].
    unfold Facade.resize. rewrite take_nil. simpl. rewrite Nat.sub_0_r.
    apply lookup_replicate_2. by apply lookup_lt_Some in Hi. }
  unfold bind at 1. rewrite lift_call_blocking.
  destruct (plasma_store_provider_Get env _ (-1) ∅ false (world (core p1)))
    as [[[[st1 result_map] got_exception] w]|] eqn:Hget; [|done].
  simpl. destruct (ok st1) eqn:Hok; simpl.
  - unfold bind at 1.
    destruct (BuildArgsForExecutor_fill_spec (map_to_list result_map) idx1 args1
                (record [Facade (EvPlasmaGet (list_to_set (omap by_ref_id (ts_args task))) (-1))]
                   (set_core (Facade.set_world w (Facade.log (EvPlasmaGet (list_to_set (omap by_ref_id (ts_args task))) (-1)) (core p1))) p1)))
      as (args2 & Hrun & Hset & Hkeep).
    { apply NoDup_fst_map_to_list. }
    { intros id object Hel%elem_of_map_to_list.
      assert (id ∈ dom result_map) as Hdom by (apply elem_of_dom; eauto).
      apply (Hasked _ _ _ _ _ Hget) in Hdom.
      apply elem_of_list_to_set in Hdom.
      destruct (first_by_ref id (ts_args task)) as [j|] eqn:Hfirst.
      - exists j. split; [by rewrite Hidx, lookup_empty, Hfirst|].
        apply first_by_ref_Some in Hfirst as [Hj _].
        apply lookup_lt_Some in Hj. lia.
      - by apply first_by_ref_None in Hfirst. }
    { intros id1 id2 j [H1 _]%Hidx1 [H2 _]%Hidx1. congruence. }
    rewrite Hrun. unfold ret. intros [= <- <- <- <-].
    exists (world (core p1)), st1, result_map, got_exception.
    split; [by rewrite Hget|]. rewrite Hok. split; [done|].
    intros i arg Hi. destruct arg as [id|value].
    + simpl. case_bool_decide as Hfirst.
      * assert (idx1 !! id = Some i) as Hix by (by apply Hidx1).
        destruct (result_map !! id) as [object|] eqn:Hres.
        -- apply (Hset id object i); [|done]. by apply elem_of_map_to_list.
        -- rewrite Hkeep; [by apply (Hbase i (PassedByReference id))|].
           intros id' object' Hel%elem_of_map_to_list Hix'.
           assert (id' = id) as -> by (apply Hidx1 in Hix' as [? _]; congruence).
           congruence.
      * rewrite Hkeep; [by apply (Hbase i (PassedByReference id))|].
        intros id' object' _ Hix'. apply Hidx1 in Hix' as [Hi' Hnot].
        assert (id' = id) as -> by congruence. done.
    + rewrite Hkeep; [by apply (Hbase i (PassedByValue value))|].
      intros id' object' _ Hix'. apply Hidx1 in Hix' as [Hi' _]. congruence.
  - unfold ret. intros [= <- <- <- <-].
    exists (world (core p1)), st1, result_map, got_exception.
    split; [by rewrite Hget|]. rewrite Hok. split; [done|].
    intros i arg Hi. rewrite (Hbase i arg Hi). by destruct arg.
Qed.

End TaskArguments.



(** A return object that the loop of [ExecuteTask] passes over in a
    direct call task: a null one, or one in a local buffer. *)
Definition passed_over (object : option ReturnObject) : Prop :=
  match object with
  | None => True
  | Some r =>
      exists buffer, return_data r = Some buffer /\ IsPlasmaBuffer buffer = false
  end.

Section Returns.

Context {W : Type}.
Variable env : Collaborators W.
Variable srv : Services W.
Import Worker.

Ltac run := cbv beta iota zeta delta [negb fst snd].





(** X27.  The loop of [ExecuteTask] that stores the return objects, in a
    direct call task: objects that are null or in a local buffer are
    passed over, nothing is sealed or put and [return_ids] is not read,
    so that they travel with the reply only.  A return object without
    data buffer, as [AllocateReturnObjects] makes for a value of size 0
    with metadata, ends the run at [GetData()->IsPlasmaBuffer()]. *)
Theorem ExecuteTask_store_direct objs i return_ids (p : Process W) :
  worker_context_CurrentTaskIsDirectCall srv (worker_context_ (core p))
                                         (world (core p)) = true ->
  Forall passed_over objs ->
  ExecuteTask_store env srv objs i return_ids p = Returned tt p /\
  forall r rest,
    return_data r = None ->
    ExecuteTask_store env srv (objs ++ Some r :: rest) i return_ids p
    = Aborted "return_objects->at(i)->GetData()" p.
Proof.
  intros Hdirect Hobjs. revert i.
  induction Hobjs as [|object objs Hobject Hobjs IH]; intros i.
  - split; [done|]. intros r rest Hr. simpl. by rewrite Hr.
  - destruct object as [r0|]; simpl.
    + destruct Hobject as (buffer & -> & ->).
      cbv beta iota zeta delta [bind CurrentTaskIsDirectCall get ret].
      rewrite Hdirect. simpl. apply IH.
    + apply IH.
Qed.

End Returns.

(** The call of the task execution callback among the requests. *)
Definition is_callback (r : Request) : bool :=
  match r with
  | ExecutionCallback _ _ _ _ _ _ => true
  | _ => false
  end.

(** A step of [ExecuteTask] other than the callback: it leaves the two
    counters and an actor id that is set as they are and does not call
    the task execution callback. *)
Definition quiet {W} (p p' : Process W) : Prop :=
  task_queue_length_ p' = task_queue_length_ p /\
  num_executed_tasks_ p' = num_executed_tasks_ p /\
  (ActorID_IsNil (actor_id_ (core p)) = false ->
   actor_id_ (core p') = actor_id_ (core p)) /\
  exists new,
    requests p' = requests p ++ new /\
    Forall (fun r => is_callback r = false) new.

Section Execution.

Context {W : Type}.
Variable env : Collaborators W.
Variable srv : Services W.
Import Worker.

Ltac run := cbv beta iota zeta delta [negb fst snd].

Lemma quiet_refl (p : Process W) : quiet p p.
Proof.
  split_and!; try done. exists []. split; [by rewrite app_nil_r|done].
Qed.

Lemma quiet_trans (p1 p2 p3 : Process W) :
  quiet p1 p2 -> quiet p2 p3 -> quiet p1 p3.
Proof.
  intros (Hq1 & Hn1 & Ha1 & new1 & Hr1 & Hf1) (Hq2 & Hn2 & Ha2 & new2 & Hr2 & Hf2).
  split_and!; try congruence.
  - intros Hnil. rewrite Ha2; [by apply Ha1|]. by rewrite Ha1.
  - exists (new1 ++ new2). split; [by rewrite Hr2, Hr1, <- app_assoc|].
    by apply Forall_app.
Qed.

Lemma quiet_bind {A B} (m : P A) (k : A -> P B) (p : Process W) :
  quiet p (final_state (m p)) ->
  (forall a p', m p = Returned a p' -> quiet p' (final_state (k a p'))) ->
  quiet p (final_state (bind m k p)).
Proof.
  intros Hm Hk. unfold bind. destruct (m p) as [a p'| |]; try done.
  eapply quiet_trans; [exact Hm|]. by apply Hk.
Qed.

Lemma quiet_request {A} r (f : W -> A * W) (p : Process W) :
  is_callback r = false -> quiet p (final_state (Worker.request r f p)).
Proof.
  intros Hr. unfold Worker.request. destruct (f (world (core p))) as [a w].
  simpl. split_and!; try done. exists [r]. split; [done|]. by constructor.
Qed.

Lemma quiet_lift {A} (m : Facade.M A) (p : Process W) :
  (ActorID_IsNil (actor_id_ (core p)) = false ->
   actor_id_ (final_state (m (core p))) = actor_id_ (core p)) ->
  quiet p (final_state (lift m p)).
Proof.
  intros Hactor. unfold lift.
  destruct (m (core p)) as [a c'|check c'|c']; simpl in *;
    (split_and!; try done;
     eexists; split; [reflexivity|];
     apply Forall_fmap, Forall_true; done).
Qed.

Lemma quiet_RAY_CHECK cond check (p : Process W) :
  quiet p (final_state (RAY_CHECK cond check p)).
Proof. unfold RAY_CHECK. destruct cond; apply quiet_refl. Qed.

Lemma unsubscribe_all_actor_id handles : forall s : CoreWorker W,
  actor_id_ (final_state (Facade.unsubscribe_all env handles s)) = actor_id_ s.
Proof.
  induction handles as [|handle rest IH]; intros s; simpl; [done|].
  cbv beta iota zeta delta [Facade.bind Facade.call Facade.RAY_CHECK_OK
                              Facade.RAY_CHECK].
  destruct (gcs_client_Actors_AsyncUnsubscribe env _ _) as [st w].
  destruct (ok st); [|done]. by rewrite IH.
Qed.

Lemma SetCurrentTaskId_actor_id task_id (s : CoreWorker W) :
  actor_id_ (final_state (Facade.SetCurrentTaskId env task_id s)) = actor_id_ s.
Proof.
  cbv beta iota zeta delta [Facade.SetCurrentTaskId
                              Facade.WorkerContext_SetCurrentTaskId Facade.bind
                              Facade.get Facade.ret Facade.modify].
  simpl. destruct (ActorID_IsNil (actor_id_ s) && TaskID_IsNil task_id); [|done].
  match goal with
  | |- context [Facade.unsubscribe_all env ?h ?s1] =>
      pose proof (unsubscribe_all_actor_id h s1) as Hu;
      destruct (Facade.unsubscribe_all env h s1) as [[] s2|check s2|s2]
  end; done.
Qed.

Lemma BuildArgsForExecutor_loop_quiet todo :
  forall i acc (p : Process W),
  quiet p (final_state (BuildArgsForExecutor_loop srv todo i acc p)).
Proof.
  induction todo as [|arg rest IH]; intros i [[[args refs] ids] idx] p.
  - apply quiet_refl.
  - destruct arg as [id|value]; simpl; [|apply IH].
    apply quiet_bind; [|intros; apply IH].
    destruct (IsDirectCallType id); [|apply quiet_refl].
    apply quiet_bind; [by apply quiet_request|].
    intros; apply quiet_RAY_CHECK.
Qed.

Lemma BuildArgsForExecutor_quiet task args refs (p : Process W) :
  quiet p (final_state (BuildArgsForExecutor env srv task args refs p)).
Proof.
  unfold BuildArgsForExecutor.
  apply quiet_bind; [apply BuildArgsForExecutor_loop_quiet|].
  intros [[[args1 refs1] ids1] idx1] p1 _.
  apply quiet_bind.
  { apply quiet_lift. intros _. unfold Facade.call_blocking.
    by destruct (plasma_store_provider_Get env _ _ _ _ _) as [[? ?]|]. }
  intros [[st result_map] got_exception] p2 _.
  destruct (ok st); simpl; [|apply quiet_refl].
  apply quiet_bind; [|intros; apply quiet_refl].
  match goal with
  | |- context [BuildArgsForExecutor_fill ?r ?x ?a ?q] =>
      pose proof (BuildArgsForExecutor_fill_state r x a q) as Hfill;
      destruct (BuildArgsForExecutor_fill r x a q) as [args2 p3|check p3|p3]
  end; [destruct Hfill as [-> _]|subst p3|done]; apply quiet_refl.
Qed.

Lemma Seal_quiet object_id pin_object (p : Process W) :
  quiet p (final_state (Seal env srv object_id pin_object p)).
Proof.
  unfold Seal. apply quiet_bind; [by apply quiet_request|].
  intros st p1 _. destruct (ok st); simpl; [|apply quiet_refl].
  apply quiet_bind; [|intros; apply quiet_refl].
  destruct pin_object; [|apply quiet_refl].
  apply quiet_bind; [by apply quiet_lift|]. intros address p2 _.
  apply quiet_bind; [|intros; apply quiet_RAY_CHECK].
  apply quiet_lift. intros _. unfold Facade.call.
  by destruct (local_raylet_client_PinObjectIDs env _ _ _).
Qed.

Lemma ExecuteTask_store_quiet todo :
  forall i return_ids (p : Process W),
  quiet p (final_state (ExecuteTask_store env srv todo i return_ids p)).
Proof.
  induction todo as [|object rest IH]; intros i return_ids p.
  - apply quiet_refl.
  - destruct object as [r|]; simpl; [|apply IH].
    destruct (return_data r) as [buffer|]; [|apply quiet_refl].
    apply quiet_bind; [|intros; apply IH].
    destruct (IsPlasmaBuffer buffer).
    + destruct (return_ids !! i) as [return_id|]; [|apply quiet_refl].
      apply quiet_bind; [apply Seal_quiet|].
      intros st p1 _. destruct (ok st); apply quiet_refl.
    + apply quiet_bind; [apply quiet_refl|]. intros direct p1 _.
      destruct direct; simpl; [apply quiet_refl|].
      destruct (return_ids !! i) as [return_id|]; [|apply quiet_refl].
      apply quiet_bind.
      * apply quiet_lift. intros _.
        cbv beta iota zeta delta [Facade.Put Facade.bind Facade.RAY_CHECK
                                    Facade.call].
        case_bool_decide; [|done].
        by destruct (plasma_store_provider_Put env _ _ _).
      * intros st p2 _. destruct (ok st); apply quiet_refl.
Qed.

Lemma no_callback_filter (l : list Request) :
  Forall (fun r => is_callback r = false) l ->
  filter (fun r => is_callback r = true) l = [].
Proof.
  induction 1 as [|r l Hr _ IH]; [done|].
  rewrite filter_cons, decide_False by congruence. done.
Qed.

Lemma quiet_set_current_task t (p : Process W) :
  quiet p (set_current_task t p).
Proof.
  split_and!; try done. exists []. split; [by rewrite app_nil_r|done].
Qed.

Lemma lift_Returned {A} (m : Facade.M A) (p : Process W) a p' :
  lift m p = Returned a p' -> m (core p) = Returned a (core p').
Proof.
  unfold lift. destruct (m (core p)) as [a' c'| |]; try done.
  by intros [= -> <-].
Qed.

Lemma unsubscribe_all_main_thread handles : forall s s' : CoreWorker W,
  Facade.unsubscribe_all env handles s = Returned tt s' ->
  main_thread_task_id_ s' = main_thread_task_id_ s.
Proof.
  induction handles as [|handle rest IH]; intros s s'; simpl.
  - unfold Facade.ret. by intros [= <-].
  - cbv beta iota zeta delta [Facade.bind Facade.call Facade.RAY_CHECK_OK
                                Facade.RAY_CHECK].
    destruct (gcs_client_Actors_AsyncUnsubscribe env _ _) as [st w].
    destruct (ok st); [|done]. intros H. by apply IH in H as ->.
Qed.

Lemma SetCurrentTaskId_main_thread task_id (s s' : CoreWorker W) :
  Facade.SetCurrentTaskId env task_id s = Returned tt s' ->
  main_thread_task_id_ s' = task_id.
Proof.
  cbv beta iota zeta delta [Facade.SetCurrentTaskId
                              Facade.WorkerContext_SetCurrentTaskId Facade.bind
                              Facade.get Facade.ret Facade.modify].
  simpl. destruct (ActorID_IsNil (actor_id_ s) && TaskID_IsNil task_id).
  - destruct (Facade.unsubscribe_all env _ _) as [[] s2|check s2|s2] eqn:Hu;
      try done.
    apply unsubscribe_all_main_thread in Hu. by intros [= <-].
  - by intros [= <-].
Qed.

(** The process after [ExecuteTask] has taken the resource ids it was
    given. *)
Definition with_resources (resource_ids : option ResourceMap) (p : Process W)
    : Process W :=
  match resource_ids with
  | Some ids => set_resource_ids ids p
  | None => p
  end.

Lemma bind_modify {B} f (k : unit -> P B) (p : Process W) :
  bind (modify f) k p = k tt (f p).
Proof. done. Qed.

Lemma bind_resources {B} resource_ids (k : unit -> P B) (p : Process W) :
  bind (match resource_ids with
        | Some ids => modify (set_resource_ids ids)
        | None => ret tt
        end) k p
  = k tt (with_resources resource_ids p).
Proof. by destruct resource_ids. Qed.

(** A run of [ExecuteTask], whatever its end. *)
Lemma ExecuteTask_run task_spec resource_ids return_objects (p : Process W) :
  let actor := IsActorCreationTask task_spec || IsActorTask task_spec in
  let refused :=
    (IsActorCreationTask task_spec && negb (ActorID_IsNil (actor_id_ (core p))))
    || (actor && bool_decide (NumReturns task_spec = 0%nat)) in
  let counted (p' : Process W) :=
    task_queue_length_ p' = static_cast_int64 (task_queue_length_ p - 1) /\
    num_executed_tasks_ p' = static_cast_int64 (num_executed_tasks_ p + 1) in
  let stopped (p' : Process W) :=
    counted p' /\
    exists new,
      requests p' = requests p ++ SetCurrentTask task_spec :: new /\
      (length (filter (fun r => is_callback r = true) new) <= 1)%nat /\
      (refused = true -> Forall (fun r => is_callback r = false) new) in
  match ExecuteTask env srv task_spec resource_ids return_objects p with
  | Returned _ p' =>
      counted p' /\
      current_task_ p' = None /\
      main_thread_task_id_ (core p') = TaskID_Nil /\
      refused = false /\
      exists before task_type func required args refs return_ids after,
        requests p'
        = requests p ++ SetCurrentTask task_spec :: before
          ++ ExecutionCallback task_type func required args refs return_ids
          :: after /\
        Forall (fun r => is_callback r = false) before /\
        Forall (fun r => is_callback r = false) after /\
        length return_ids
        = (NumReturns task_spec - (if actor then 1 else 0))%nat
  | Aborted _ p' => stopped p'
  | Blocked p' => stopped p'
  end.
Proof.
  intros actor refused counted stopped.
  unfold ExecuteTask. rewrite !bind_modify, bind_resources.
  (* the counters and the resources *)
  set (pA := with_resources resource_ids _).
  assert (core pA = core p /\ counted pA /\ requests pA = requests p)
    as (HcA & HkA & HrA).
  { unfold pA, with_resources. by destruct resource_ids. }
  clearbody pA.
  cbv beta iota zeta delta [bind modify ret get RAY_CHECK_OK RAY_CHECK
                              Worker.request CurrentTaskIsDirectCall].
  (* the worker context is given the task *)
  destruct (worker_context_SetCurrentTask srv task_spec (worker_context_ (core pA))
              (world (core pA))) as [cB wB].
  cbv beta iota.
  set (pB := set_core _ (record [SetCurrentTask task_spec] pA)).
  assert (counted pB) as HkB by done.
  assert (requests pB = requests p ++ [SetCurrentTask task_spec]) as HrB.
  { unfold pB. simpl. by rewrite HrA. }
  assert (actor_id_ (core pB) = actor_id_ (core p)) as HaB.
  { unfold pB. simpl. by rewrite HcA. }
  assert (forall p', quiet pB p' -> stopped p') as Hstop.
  { intros p' (Hq & Hn & _ & new & Hr & Hnew). split.
    - destruct HkB as [HqB HnB]. split; congruence.
    - exists new. split; [by rewrite Hr, HrB, <- app_assoc|].
      split; [|done]. rewrite no_callback_filter by done. simpl. lia. }
  clearbody pB.
  (* the task id *)
  pose proof (quiet_lift (Facade.SetCurrentTaskId env (TaskId task_spec)) pB
                (fun _ => SetCurrentTaskId_actor_id _ _)) as H1.
  destruct (lift (Facade.SetCurrentTaskId env (TaskId task_spec)) pB)
    as [[] p1|check p1|p1]; simpl in H1; [|by apply Hstop|by apply Hstop].
  (* the arguments *)
  pose proof (BuildArgsForExecutor_quiet task_spec [] []
                (set_current_task (Some task_spec) p1)) as H2.
  pose proof (quiet_trans _ _ _ (quiet_trans _ _ _ H1 (quiet_set_current_task _ _))
                H2) as H2'.
  clear H1 H2.
  destruct (BuildArgsForExecutor env srv task_spec [] [] _)
    as [[[st args] refs] p2|check p2|p2]; simpl in H2';
    [|by apply Hstop|by apply Hstop].
  destruct (ok st); [|by apply Hstop].
  (* the return ids and the task type *)
  match goal with
  | |- context [match ?X with Returned _ _ => _ | Aborted _ _ => _ | Blocked _ => _ end] =>
      match X with
      | (if IsActorCreationTask task_spec then _ else _) _ => set (typed := X)
      end
  end.
  assert (match typed with
          | Returned (task_type, return_ids) p3 =>
              quiet pB p3 /\ refused = false /\
              length return_ids
              = (NumReturns task_spec - (if actor then 1 else 0))%nat
          | Aborted _ p3 => quiet pB p3
          | Blocked p3 => quiet pB p3
          end) as Htyped.
  { unfold typed, refused, actor. rewrite length_fmap, length_seq.
    destruct (IsActorCreationTask task_spec) eqn:Hcreation; simpl.
    - case_bool_decide as Hreturns; [|done].
      pose proof (quiet_lift (Facade.SetActorId (ActorCreationId task_spec)) p2)
        as H3.
      destruct (lift (Facade.SetActorId (ActorCreationId task_spec)) p2)
        as [[] p3|check p3|p3] eqn:Hset.
      + apply lift_Returned in Hset. revert Hset H3.
        cbv beta iota zeta delta [Facade.SetActorId Facade.bind Facade.get
                                    Facade.RAY_CHECK Facade.modify].
        destruct (ActorID_IsNil (actor_id_ (core p2))) eqn:Hnil; [|done].
        intros _ H3. split; [|split].
        * eapply quiet_trans; [exact H2'|]. apply H3. congruence.
        * destruct (ActorID_IsNil (actor_id_ (core p))) eqn:Hnil0.
          -- simpl. apply bool_decide_eq_false_2. lia.
          -- exfalso. destruct H2' as (_ & _ & Hsame & _).
             rewrite HaB in Hsame. specialize (Hsame Hnil0). congruence.
        * rewrite removelast_firstn_len, length_take, length_fmap, length_seq. lia.
      + eapply quiet_trans; [exact H2'|]. apply H3.
        revert Hset. unfold lift.
        cbv beta iota zeta delta [Facade.SetActorId Facade.bind Facade.get
                                    Facade.RAY_CHECK Facade.modify].
        by destruct (ActorID_IsNil (actor_id_ (core p2))).
      + eapply quiet_trans; [exact H2'|]. apply H3.
        cbv beta iota zeta delta [Facade.SetActorId Facade.bind Facade.get
                                    Facade.RAY_CHECK Facade.modify].
        by destruct (ActorID_IsNil (actor_id_ (core p2))).
    - destruct (IsActorTask task_spec) eqn:Hactor; simpl.
      + case_bool_decide as Hreturns; [|done].
        split; [done|]. split.
        * apply bool_decide_eq_false_2. lia.
        * rewrite removelast_firstn_len, length_take, length_fmap, length_seq. lia.
      + split; [done|]. split; [done|].
        rewrite length_fmap, length_seq. lia. }
  clearbody typed.
  destruct typed as [[task_type return_ids] p3|check p3|p3];
    [|by apply Hstop|by apply Hstop].
  destruct Htyped as (H3 & Hrefused & Hlength).
  (* the callback *)
  destruct (task_execution_callback_ srv task_type _ _ args refs return_ids
              return_objects (world (core p3))) as [[status objs] w4].
  cbv beta iota.
  set (callback := ExecutionCallback task_type _ _ args refs return_ids).
  set (p4 := set_core _ (record [callback] p3)).
  assert (forall p', quiet p4 p' ->
            counted p' /\
            exists before after,
              requests p'
              = requests p ++ SetCurrentTask task_spec :: before
                ++ callback :: after /\
              Forall (fun r => is_callback r = false) before /\
              Forall (fun r => is_callback r = false) after) as Hafter.
  { intros p' (Hq & Hn & _ & after & Hr & Hafter).
    destruct H3 as (Hq3 & Hn3 & _ & before & Hr3 & Hbefore).
    destruct HkB as [HqB HnB]. split.
    - split; [rewrite Hq|rewrite Hn]; simpl; congruence.
    - exists before, after. split; [|done].
      rewrite Hr. unfold p4. simpl. rewrite Hr3, HrB.
      rewrite <- !app_assoc. done. }
  assert (forall p', quiet p4 p' -> stopped p') as Hstop4.
  { intros p' Hq. destruct (Hafter p' Hq) as (Hk & before & after & Hr & Hb & Ha).
    split; [done|]. exists (before ++ callback :: after). split; [done|].
    split; [|congruence].
    rewrite filter_app, filter_cons, decide_True by done.
    rewrite !no_callback_filter by done. simpl. lia. }
  clearbody p4.
  (* the return objects *)
  pose proof (ExecuteTask_store_quiet objs 0 return_ids p4) as H5.
  destruct (ExecuteTask_store env srv objs 0 return_ids p4)
    as [[] p5|check p5|p5]; simpl in H5; [|by apply Hstop4|by apply Hstop4].
  (* the task id is reset *)
  pose proof (quiet_lift (Facade.SetCurrentTaskId env TaskID_Nil) p5
                (fun _ => SetCurrentTaskId_actor_id _ _)) as H6.
  pose proof (quiet_trans _ _ _ H5 H6) as H6'. clear H5 H6.
  destruct (lift (Facade.SetCurrentTaskId env TaskID_Nil) p5)
    as [[] p6|check p6|p6] eqn:Hreset; simpl in H6';
    [|by apply Hstop4|by apply Hstop4].
  apply lift_Returned, SetCurrentTaskId_main_thread in Hreset.
  destruct (worker_context_ResetCurrentTask srv task_spec (worker_context_ (core p6))
              (world (core p6))) as [c7 w7].
  cbv beta iota.
  set (p7 := set_current_task None _).
  assert (quiet p6 p7) as H7.
  { unfold p7. split_and!; try done. exists [ResetCurrentTask task_spec].
    split; [done|]. by constructor. }
  destruct (Hafter p7 (quiet_trans _ _ _ H6' H7))
    as (Hk & before & after & Hr & Hb & Ha).
  split; [done|]. split; [done|]. split; [done|]. split; [done|].
  do 8 eexists. split; [exact Hr|]. done.
Qed.

(** X28.  [ExecuteTask] counts a task when it starts: however the run
    ends, the task queue is one shorter and one more task counts as
    executed (on [int64_t]), and the worker context was given the task
    first.  The task execution callback is called at most once, and
    exactly once in a run that returns: with as many return ids as the
    task has returns, less the last one for an actor creation task and
    for an actor task.  When [ExecuteTask] returns, the process has no
    current task and the nil task id. *)
Theorem ExecuteTask_counts_and_calls_back_once task_spec resource_ids
    return_objects (p : Process W) :
  let outcome := ExecuteTask env srv task_spec resource_ids return_objects p in
  let p' := final_state outcome in
  task_queue_length_ p' = static_cast_int64 (task_queue_length_ p - 1) /\
  num_executed_tasks_ p' = static_cast_int64 (num_executed_tasks_ p + 1) /\
  exists new,
    requests p' = requests p ++ SetCurrentTask task_spec :: new /\
    match outcome with
    | Returned _ _ =>
        current_task_ p' = None /\
        main_thread_task_id_ (core p') = TaskID_Nil /\
        exists task_type func required args refs return_ids,
          filter (fun r => is_callback r = true) new
          = [ExecutionCallback task_type func required args refs return_ids] /\
          length return_ids
          = (NumReturns task_spec
             - (if IsActorCreationTask task_spec || IsActorTask task_spec
                then 1 else 0))%nat
    | _ => (length (filter (fun r => is_callback r = true) new) <= 1)%nat
    end.
Proof.
  intros outcome p'. unfold p', outcome. clear p' outcome.
  pose proof (ExecuteTask_run task_spec resource_ids return_objects p) as Hrun.
  cbv zeta in Hrun.
  destruct (ExecuteTask env srv task_spec resource_ids return_objects p)
    as [[st objs] p'|check p'|p']; simpl.
  - destruct Hrun as ([Hq Hn] & Hcurrent & Hmain & _ & before & task_type & func
                      & required & args & refs & return_ids & after & Hr & Hb
                      & Ha & Hlen).
    split; [done|]. split; [done|]. eexists. split; [exact Hr|].
    split; [done|]. split; [done|].
    exists task_type, func, required, args, refs, return_ids. split; [|done].
    rewrite filter_app, filter_cons, decide_True by done.
    by rewrite !no_callback_filter.
  - destruct Hrun as ([Hq Hn] & new & Hr & Hcount & _).
    split; [done|]. split; [done|]. by exists new.
  - destruct Hrun as ([Hq Hn] & new & Hr & Hcount & _).
    split; [done|]. split; [done|]. by exists new.
Qed.

(** X29.  [ExecuteTask] never hands the task execution callback an actor
    creation task in a process that is an actor already, nor an actor
    creation task or actor task without return ids: the run does not
    return, and ends without a call of the callback. *)
Theorem ExecuteTask_refuses task_spec resource_ids return_objects
    (p : Process W) :
  IsActorCreationTask task_spec = true /\
  ActorID_IsNil (actor_id_ (core p)) = false \/
  IsActorCreationTask task_spec || IsActorTask task_spec = true /\
  NumReturns task_spec = 0%nat ->
  let quiet_end (p' : Process W) :=
    exists new,
      requests p' = requests p ++ SetCurrentTask task_spec :: new /\
      Forall (fun r => is_callback r = false) new in
  match ExecuteTask env srv task_spec resource_ids return_objects p with
  | Returned _ _ => False
  | Aborted _ p' => quiet_end p'
  | Blocked p' => quiet_end p'
  end.
Proof.
  intros Hrefused quiet_end. unfold quiet_end. clear quiet_end.
  pose proof (ExecuteTask_run task_spec resource_ids return_objects p) as Hrun.
  cbv zeta in Hrun.
  assert (IsActorCreationTask task_spec
          && negb (ActorID_IsNil (actor_id_ (core p)))
          || (IsActorCreationTask task_spec || IsActorTask task_spec)
             && bool_decide (NumReturns task_spec = 0%nat) = true) as Hr.
  { destruct Hrefused as [[-> ->]|[-> Hnone]]; [done|].
    rewrite (bool_decide_eq_true_2 _ Hnone). apply orb_true_r. }
  destruct (ExecuteTask env srv task_spec resource_ids return_objects p)
    as [[st objs] p'|check p'|p'].
  - destruct Hrun as (_ & _ & _ & Hnot & _). congruence.
  - destruct Hrun as (_ & new & Hreq & _ & Hquiet). exists new. auto.
  - destruct Hrun as (_ & new & Hreq & _ & Hquiet). exists new. auto.
Qed.

End Execution.

Section Queue.

Context {W : Type}.
Variable env : Collaborators W.
Variable srv : Services W.
Import Worker.

Lemma static_cast_int64_back q :
  -9223372036854775808 <= q < 9223372036854775808 ->
  static_cast_int64 (static_cast_int64 (q + 1) - 1) = q.
Proof.
  intros Hq. unfold static_cast_int64.
  replace ((q + 1 + 9223372036854775808) mod 18446744073709551616
           - 9223372036854775808 - 1 + 9223372036854775808)
    with ((q + 1 + 9223372036854775808) mod 18446744073709551616 - 1) by lia.
  rewrite Zminus_mod_idemp_l.
  replace (q + 1 + 9223372036854775808 - 1) with (q + 9223372036854775808) by lia.
  rewrite Z.mod_small by lia. lia.
Qed.

(** X30.  The length of the task queue counts the tasks that were posted
    and have not started: when [HandlePushTask] posts a task, the length
    (an [int64_t]) goes up by one, and [ExecuteTask] on the process so
    left brings it back to what it was before the request, however the
    execution ends and also where the counter wraps around. *)
Theorem queue_length_restored intended_worker_id request task_spec resource_ids
    return_objects (p : Process W) :
  -9223372036854775808 <= task_queue_length_ p < 9223372036854775808 ->
  (HandleWrongRecipient srv intended_worker_id (world (core p))).1 = false ->
  exists p1,
    HandlePushTask srv intended_worker_id request p = Returned tt p1 /\
    task_queue_length_ p1 = static_cast_int64 (task_queue_length_ p + 1) /\
    task_queue_length_
      (final_state (ExecuteTask env srv task_spec resource_ids return_objects p1))
    = task_queue_length_ p.
Proof.
  intros Hrange Hright.
  assert (exists p1,
            HandlePushTask srv intended_worker_id request p = Returned tt p1 /\
            task_queue_length_ p1 = static_cast_int64 (task_queue_length_ p + 1))
    as (p1 & Hpush & Hlen).
  { revert Hright.
    cbv beta iota zeta delta [HandlePushTask wrong_recipient post bind
                                Worker.request tell modify ret].
    destruct (HandleWrongRecipient srv intended_worker_id (world (core p)))
      as [wrong w]. simpl. intros ->. by eexists. }
  exists p1. split; [done|]. split; [done|].
  pose proof (ExecuteTask_run env srv task_spec resource_ids return_objects p1)
    as Hrun.
  cbv zeta in Hrun.
  destruct (ExecuteTask env srv task_spec resource_ids return_objects p1)
    as [[st objs] p2|check p2|p2]; simpl;
    destruct Hrun as ([Hq _] & _); rewrite Hq, Hlen;
    by apply static_cast_int64_back.
Qed.

End Queue.

(** * Runs on the clocked stores *)

Import Facade Clocked.

Definition producer : TaskID := TaskID_FromBits 7.
Definition d1 : ObjectID := ObjectID_ForTaskReturn producer 1 DIRECT.
Definition d2 : ObjectID := ObjectID_ForTaskReturn producer 2 DIRECT.
Definition r1 : ObjectID := ObjectID_ForTaskReturn producer 3 RAYLET.

Definition payload : RayObject := mkRayObject (Some [1%N]) None.
Definition in_plasma : RayObject := RayObject_of_error OBJECT_IN_PLASMA.
Definition actor_died : RayObject := RayObject_of_error ACTOR_DIED.

Definition empty_world : World := mkWorld 0 ∅ ∅.

(** [d1] is in memory, [d2] was promoted and is in plasma, [r1] never
    arrives. *)
Definition mixed_world : World :=
  mkWorld 0 (<[d1 := (0, payload)]> (<[d2 := (0, in_plasma)]> ∅))
            (<[d2 := (0, payload)]> ∅).

(** [d1] was promoted and is in plasma, [d2] is the return of a task on a
    dead actor. *)
Definition promoted_and_failed : World :=
  mkWorld 0 (<[d1 := (0, in_plasma)]> (<[d2 := (0, actor_died)]> ∅))
            (<[d1 := (0, payload)]> ∅).

Definition actor_function : RayFunction := mkRayFunction PYTHON ["Counter"; "__init__"].
Definition actor_method : RayFunction := mkRayFunction PYTHON ["Counter"; "increment"].
Definition direct_actor : ActorCreationOptions :=
  mkActorCreationOptions 0 true 1 [] [] [] false false.
Definition one_return : TaskOptions := mkTaskOptions 1 true [].

(** A process that has created a direct-call actor, and the same process
    after the actor was reported dead. *)
Definition registered : CoreWorker World :=
  final_state (CreateActor collaborators actor_function [] direct_actor
                           (process empty_world)).

Definition the_actor : ActorID :=
  ActorID_Of collaborators (JobID_FromInt 1) (TaskID_FromBits 1) 1.

Definition dead_actor : CoreWorker World :=
  final_state (actor_notification_callback collaborators the_actor DEAD localhost
                                           registered).

Lemma Wait_num_objects_out_of_range_witness :
  Wait collaborators [r1] 2 100 [] (process empty_world)
  = Returned (Status_Invalid
                "Number of objects to wait for must be between 1 and the number of ids.",
              [false]) (process empty_world).
Proof.
  apply (Wait_num_objects_out_of_range collaborators [r1] 2 100 []
                                       (process empty_world)).
  - unfold int_range. lia.
  - right. simpl. lia.
Defined.

Lemma Wait_duplicate_ids_witness :
  exists msg,
    Wait collaborators [r1; r1] 1 100 [] (process empty_world)
    = Returned (Status_Invalid msg, [false; false]) (process empty_world).
Proof.
  apply (Wait_duplicate_ids collaborators [r1; r1] 1 100 [] (process empty_world)).
  intros Hnodup. apply NoDup_cons in Hnodup as [Hfresh _]. apply Hfresh.
  apply elem_of_cons. by left.
Defined.

Lemma dead_actor_handle :
  exists h,
    actor_handles_ dead_actor !! the_actor = Some h /\
    IsDirectCallActor h = true /\ IsDead h = true.
Proof. eexists. split; [vm_compute; reflexivity|]. by split. Qed.

Lemma SubmitActorTask_dead_actor_witness :
  exists ids s',
    SubmitActorTask collaborators the_actor actor_method [] one_return [] dead_actor
    = Returned (Status_OK, ids) s' /\
    length ids = 1%nat.
Proof.
  destruct dead_actor_handle as (h & Hh & Hdirect & Hdead).
  destruct (SubmitActorTask_dead_actor collaborators the_actor actor_method []
              one_return [] dead_actor h Hh Hdirect Hdead)
    as (task_spec & ids & s' & Hrun & Hlen & _).
  by exists ids, s'.
Defined.

(** C1, as stated, fails: the submission on a dead direct-call actor
    returns OK, not the IOError "sent task to dead actor". *)
Lemma SubmitActorTask_dead_actor_returns_OK :
  (exists h,
     actor_handles_ dead_actor !! the_actor = Some h /\
     IsDirectCallActor h = true /\ IsDead h = true) /\
  exists ids s',
    SubmitActorTask collaborators the_actor actor_method [] one_return [] dead_actor
    = Returned (Status_OK, ids) s' /\
    Status_OK <> Status_IOError "sent task to dead actor".
Proof.
  split; [apply dead_actor_handle|].
  eexists _, _. split; [vm_compute; reflexivity|done].
Qed.

Lemma actor_handle_retained_witness :
  is_Some (actor_handles_ dead_actor !! the_actor) /\
  (exists h, actor_handles_ dead_actor !! the_actor = Some h /\ IsDead h = true).
Proof.
  destruct (actor_handle_retained collaborators
              (OpActorNotification the_actor DEAD localhost) the_actor
              registered dead_actor) as [Hin Hdead].
  - eexists. vm_compute. reflexivity.
  - vm_compute. reflexivity.
  - reflexivity.
  - split; [exact Hin|]. by apply (Hdead localhost).
Defined.

(** C2, as stated, fails: the end of a non-actor task clears the table,
    the handle of the actor created in the task included. *)
Lemma actor_handles_cleared_at_task_end :
  is_Some (actor_handles_ registered !! the_actor) /\
  ActorID_IsNil (actor_id_ registered) = true /\
  exists s',
    SetCurrentTaskId collaborators TaskID_Nil registered = Returned tt s' /\
    actor_handles_ s' !! the_actor = None.
Proof.
  split; [eexists; vm_compute; reflexivity|]. split; [reflexivity|].
  eexists. split; [vm_compute; reflexivity|]. vm_compute. reflexivity.
Qed.

(** C3: [Get] on a promoted id together with a failed one.  The memory
    store answers with the marker for [d1] and reports the exception of
    [d2]; the plasma store is never asked, and the call dies on the check
    that no result carries the marker. *)
Lemma Get_promoted_with_exception_aborts :
  exists result_map w s',
    memory_store_Get collaborators (direct_ids [d1; d2]) (-1) ∅ false promoted_and_failed
    = Some (Status_OK, result_map, true, w) /\
    result_map !! d1 = Some in_plasma /\
    Get collaborators [d1; d2] (-1) [] (process promoted_and_failed)
    = Aborted "!pair->second->IsInPlasmaError()" s' /\
    calls s' = [EvMemoryGet (direct_ids [d1; d2]) (-1)].
Proof.
  eexists _, _, _. split; [vm_compute; reflexivity|].
  split; [vm_compute; reflexivity|].
  split; [vm_compute; reflexivity|]. vm_compute. reflexivity.
Qed.

Definition retried (index : Z) : TaskSpecification :=
  (BuildCommonTaskSpec (JobID_FromInt 1)
     (TaskID_ForNormalTask collaborators (JobID_FromInt 1) (TaskID_FromBits 1) index)
     (TaskID_FromBits 1) index (TaskID_FromBits 1) localhost actor_method [] 1 [] []
     DIRECT).1.

(** Two tasks failed at times 0 and 2000; the clock now stands at 6000. *)
Definition waiting_for_resubmission : CoreWorker World :=
  mkCoreWorker
    (mkWorkerContext (JobID_FromInt 1) (TaskID_FromBits 1) 2 0)
    (TaskID_FromBits 1) ActorID_Nil localhost ∅
    [(5000, retried 1); (7000, retried 2)] 6000 (mkWorld 6000 ∅ ∅) [].

Lemma InternalHeartbeat_drains_due_witness :
  exists s',
    InternalHeartbeat collaborators waiting_for_resubmission = Returned tt s' /\
    to_resubmit_ s' = [(7000, retried 2)] /\
    calls s' = [EvDirectTaskSubmit (retried 1)] /\
    internal_timer_expiry s' = 7000.
Proof.
  assert (submit_keeps_time collaborators) as Hclock.
  { intros spec w. simpl. lia. }
  assert (resubmit_queue_ok collaborators waiting_for_resubmission) as Hqueue.
  { split; simpl.
    - repeat constructor. unfold by_deadline. simpl. lia.
    - repeat constructor; unfold time_of; simpl; lia. }
  destruct (InternalHeartbeat_drains_due collaborators waiting_for_resubmission
              Hclock Hqueue) as [_ Hrun].
  assert (InternalHeartbeat collaborators waiting_for_resubmission
          = Returned tt (final_state (InternalHeartbeat collaborators
                                        waiting_for_resubmission))) as Heq.
  { vm_compute. reflexivity. }
  rewrite Heq in Hrun. destruct Hrun as (due & _ & _ & _ & _ & Hexpiry & _).
  eexists. split; [exact Heq|]. split; [vm_compute; reflexivity|].
  split; [vm_compute; reflexivity|]. exact Hexpiry.
Defined.



(** The marker of [d1] reaches the memory store at time 10 with no object
    behind it in the plasma store; the payload of [d2] reaches the memory
    store at time 50. *)
Definition late_payload : World :=
  mkWorld 0 (<[d1 := (10, in_plasma)]> (<[d2 := (50, payload)]> ∅)) ∅.

(** C5, as stated, fails: the object of [d2] is present well within the
    timeout of 100, yet a [Wait] for one object returns OK with no true
    entry.  The memory store answers at time 10 with the marker of [d1];
    [d1] is moved to the plasma candidates, and the rest of the timeout is
    spent on the plasma store. *)
Lemma Wait_misses_late_memory_object :
  object_present late_payload 100 d2 = true /\
  (1 <= length (filter (fun id => object_present late_payload 100 id = true)
                       [d1; d2]))%nat /\
  exists s',
    Wait collaborators [d1; d2] 1 100 [] (process late_payload)
    = Returned (Status_OK, [false; false]) s' /\
    clock (world s') = 100 /\
    count_true [false; false] = 0%nat.
Proof.
  split; [vm_compute; reflexivity|]. split; [vm_compute; lia|].
  eexists. split; [vm_compute; reflexivity|]. split; vm_compute; reflexivity.
Qed.

Lemma Wait_at_most_and_at_least_witness :
  exists results s',
    Wait collaborators [d1; d2; r1] 2 100 [] (process mixed_world)
    = Returned (Status_OK, results) s' /\
    count_true results = 2%nat.
Proof.
  assert (exists results s',
            Wait collaborators [d1; d2; r1] 2 100 [] (process mixed_world)
            = Returned (Status_OK, results) s') as (results & s' & Hrun).
  { eexists _, _. vm_compute. reflexivity. }
  destruct (Wait_at_most_and_at_least [d1; d2; r1] 2 100 (process mixed_world)
              results s') as (Hmost & _ & Hleast).
  - simpl. lia.
  - lia.
  - exact Hrun.
  - exists results, s'. split; [exact Hrun|].
    assert (2 <= Z.of_nat (count_true results)); [|lia].
    apply Hleast; [lia| |vm_compute; discriminate].
    intros id Hin _ _ Hmarker.
    repeat (apply elem_of_cons in Hin as [->|Hin]; [by vm_compute in Hmarker |- *|]).
    exfalso. exact (proj1 (elem_of_nil id) Hin).
Defined.

Lemma SubmitActorTask_unknown_actor_witness :
  SubmitActorTask collaborators the_actor actor_method [] one_return []
                  (process empty_world)
  = Returned (Status_Invalid "Handle for actor does not exist", [])
             (process empty_world).
Proof.
  apply (SubmitActorTask_unknown_actor collaborators the_actor actor_method []
                                       one_return [] (process empty_world)).
  reflexivity.
Defined.

(** The handle [CreateActor] registered for [the_actor]. *)
Definition the_handle : ActorHandle :=
  ActorHandle_new the_actor (JobID_FromInt 1)
    (ObjectID_ForTaskReturn (TaskID_ForActorCreationTask collaborators the_actor)
                            1 DIRECT)
    PYTHON true ["Counter"; "__init__"].

Lemma registered_handle : actor_handles_ registered !! the_actor = Some the_handle.
Proof. vm_compute. reflexivity. Qed.

Lemma SubmitActorTask_advances_cursor_witness :
  exists h',
    actor_handles_
      (final_state (SubmitActorTask collaborators the_actor actor_method []
                                    one_return [] registered))
    !! the_actor = Some h' /\
    task_counter_ h' = 1 /\
    actor_cursor_ h' = next_cursor collaborators the_handle one_return registered.
Proof.
  destruct (SubmitActorTask_advances_cursor collaborators the_actor actor_method []
              one_return [] registered the_handle registered_handle)
    as (task_spec & rest & h' & _ & _ & _ & _ & _ & Htable & Hcursor & Hcounter & _).
  exists h'. rewrite Htable, lookup_insert_eq. by split_and!.
Defined.



Lemma DeserializeAndRegisterActorHandle_idempotent_witness :
  exists actor_id s1,
    DeserializeAndRegisterActorHandle collaborators "handle" (process empty_world)
    = Returned actor_id s1 /\
    DeserializeAndRegisterActorHandle collaborators "handle" s1
    = Returned actor_id s1.
Proof.
  assert (exists actor_id s1,
            DeserializeAndRegisterActorHandle collaborators "handle"
                                              (process empty_world)
            = Returned actor_id s1) as (actor_id & s1 & Hrun).
  { eexists _, _. vm_compute. reflexivity. }
  destruct (DeserializeAndRegisterActorHandle_idempotent collaborators "handle"
              (process empty_world) actor_id s1 Hrun) as (_ & Hagain & _).
  by exists actor_id, s1.
Defined.


(** ** Runs of task execution *)

(** The collaborators of task execution over the clocked stores.  The
    plasma store creates a buffer for an id it does not hold yet, the
    memory store takes what it is given at the time of the clock, the
    task execution callback hands the return objects back as they are,
    and every task is a direct call. *)
Definition services : Services World :=
  mkServices World
    (fun id _ w => (present_at (memory_objects w) (clock w) id, marker_in w id, w))
    (fun id _ w => (Status_OK, present_at (plasma_objects w) (clock w) id, w))
    (fun _ w => w)
    (fun _ plasma_ids w => (plasma_ids, w))
    (fun _ _ _ w => (Status_OK, w))
    (fun _ size id _ w =>
       (Status_OK,
        match plasma_objects w !! id with
        | Some _ => None
        | None => Some (mkBuffer (replicate (Z.to_nat size) 0%N) true)
        end, w))
    answer_ok
    (fun _ w => (None, w))
    (fun _ w => (Some (TaskID_FromBits 1, localhost), w))
    (fun _ _ _ w => w)
    (fun _ _ _ w => w)
    answer_ok
    (fun _ => "handle")
    (fun object id w =>
       (Status_OK,
        mkWorld (clock w) (<[id := (clock w, object)]> (memory_objects w))
                (plasma_objects w)))
    (fun _ c w => (c, w))
    (fun _ c w => (c, w))
    (fun _ _ => true)
    (fun _ _ => true)
    (fun _ _ => ActorID_Nil)
    102400
    (fun _ _ _ _ _ _ return_objects w => (Status_OK, return_objects, w))
    (fun _ => "00")
    (fun _ w => (false, w))
    (fun _ w => (false, w))
    (fun _ w => (true, w)).

(** A worker on a process of the facade, with an empty task queue. *)
Definition worker (c : CoreWorker World) : Process World :=
  mkProcess c WORKER EmptyString true 0 0 [] None [].

(** [r1] is in the plasma store. *)
Definition stored_world : World := mkWorld 0 ∅ (<[r1 := (0, payload)]> ∅).

(** A task that passes [r1] by reference twice, around a value. *)
Definition task_with (args : list TaskArg) (num_returns : nat)
    (creation : option ActorCreationTaskSpec) : TaskSpecification :=
  mkTaskSpecification (TaskID_FromBits 9) PYTHON ["f"] (JobID_FromInt 1)
    (TaskID_FromBits 1) 1 (TaskID_FromBits 1) localhost num_returns true [] []
    args creation None.

Definition twice_by_reference : TaskSpecification :=
  task_with [PassedByReference r1; PassedByValue payload; PassedByReference r1]
            1 None.

Lemma fetched_asked store (ids : ObjectSet) t : dom (fetched store ids t) ⊆ ids.
Proof.
  intros id [object Hid]%elem_of_dom. unfold fetched in Hid.
  rewrite lookup_fmap in Hid. apply fmap_Some in Hid as (entry & Hid & _).
  by apply map_lookup_filter_Some in Hid as [_ [Hin _]].
Qed.

Lemma BuildArgsForExecutor_first_position_witness :
  exists st args refs p',
    Worker.BuildArgsForExecutor collaborators services twice_by_reference [] []
                                (worker (process stored_world))
    = Returned (st, args, refs) p' /\
    args !! 2%nat = Some None /\
    exists result_map : ResultMap, args !! 0%nat = Some (result_map !! r1).
Proof.
  assert (exists st args refs p',
            Worker.BuildArgsForExecutor collaborators services twice_by_reference
                                        [] [] (worker (process stored_world))
            = Returned (st, args, refs) p') as (st & args & refs & p' & Hrun).
  { eexists _, _, _, _. vm_compute. reflexivity. }
  destruct (BuildArgsForExecutor_first_position collaborators services
              twice_by_reference (worker (process stored_world)) st args refs p')
    as (w & st' & result_map & got_exception & Hget & Hst & Hargs).
  - intros w st' result_map got_exception w' Hget. simpl in Hget.
    unfold store_Get in Hget.
    destruct (return_time _ _ _ _ _); [|done].
    injection Hget as _ <- _ _.
    rewrite (right_id_L (∅ : ResultMap) (∪)). apply fetched_asked.
  - exact Hrun.
  - exists st, args, refs, p'. split; [exact Hrun|].
    assert (ok st' = true) as Hok.
    { simpl in Hget. unfold store_Get in Hget.
      destruct (return_time _ _ _ _ _); [|done]. by injection Hget as <- _ _ _. }
    split.
    + by rewrite (Hargs 2%nat (PassedByReference r1) eq_refl), Hok.
    + exists result_map.
      by rewrite (Hargs 0%nat (PassedByReference r1) eq_refl), Hok.
Defined.


Lemma ExecuteTask_store_direct_witness :
  Worker.ExecuteTask_store collaborators services
    [None; Some (mkReturnObject (Some (LocalMemoryBuffer 8)) None)] 0 []
    (worker (process empty_world))
  = Returned tt (worker (process empty_world)) /\
  forall r rest,
    return_data r = None ->
    Worker.ExecuteTask_store collaborators services
      ([None; Some (mkReturnObject (Some (LocalMemoryBuffer 8)) None)]
         ++ Some r :: rest) 0 [] (worker (process empty_world))
    = Aborted "return_objects->at(i)->GetData()" (worker (process empty_world)).
Proof.
  apply (ExecuteTask_store_direct collaborators services
           [None; Some (mkReturnObject (Some (LocalMemoryBuffer 8)) None)] 0 []
           (worker (process empty_world))).
  - reflexivity.
  - constructor; [exact I|]. constructor; [|constructor].
    exists (LocalMemoryBuffer 8). by split.
Defined.

(** A process that is the actor [the_actor] already, and an actor
    creation task for it. *)
Definition hosting : CoreWorker World :=
  final_state (SetActorId the_actor (process empty_world)).

Definition another_actor : TaskSpecification :=
  task_with [] 1
    (Some (mkActorCreationTaskSpec the_actor 0 [] true 1 false false)).

Lemma ExecuteTask_refuses_witness :
  match Worker.ExecuteTask collaborators services another_actor None []
                           (worker hosting) with
  | Returned _ _ => False
  | Aborted _ p' =>
      exists new,
        requests p' = [] ++ SetCurrentTask another_actor :: new /\
        Forall (fun r => is_callback r = false) new
  | Blocked p' =>
      exists new,
        requests p' = [] ++ SetCurrentTask another_actor :: new /\
        Forall (fun r => is_callback r = false) new
  end.
Proof.
  apply (ExecuteTask_refuses collaborators services another_actor None []
                             (worker hosting)).
  left. split; vm_compute; reflexivity.
Defined.

Lemma queue_length_restored_witness :
  exists p1,
    Worker.HandlePushTask services 1 7 (worker (process stored_world))
    = Returned tt p1 /\
    task_queue_length_ p1 = 1 /\
    task_queue_length_
      (final_state (Worker.ExecuteTask collaborators services twice_by_reference
                                       None [] p1))
    = 0.
Proof.
  destruct (queue_length_restored collaborators services 1%N 7%N
              twice_by_reference None [] (worker (process stored_world)))
    as (p1 & Hpush & Hlen & Hback).
  - simpl. lia.
  - reflexivity.
  - exists p1. split; [exact Hpush|]. split; [exact Hlen|exact Hback].
Defined.
